(** * Parking-lot controller: shallow embedding of the ESP32 sketches

    The repository holds four sketches built around one core:
    - the barrier sketch (3 slots, servo barrier, push button; OLED and LCD
      variants share the same control code),
    - the web sketch [simple_parking_barrier_system.ino] (3 slots, HTTP
      dashboard and admin API, no barrier handlers),
    - the 6-slot LCD sketch.

    The sketches keep their state in global variables and advance it once
    per pass of [loop()].  Here the globals are one record [State]; every
    source function becomes a function [State -> State] taking what it reads
    from the hardware (pin levels, the value of [millis()]) as arguments.
    Output devices are traces: what was written to the servo and the lines
    sent to [Serial] that report an event of the core. *)

From Stdlib Require Import ZArith Lia List Bool.
From stdpp Require Import base list strings.

#[local] Open Scope Z_scope.

(** ** Machine arithmetic and pin levels *)

(** [unsigned long] is 32 bits wide on the ESP32: arithmetic wraps. *)
Definition ULONG_MAX1 : Z := 2 ^ 32.

Definition ulong (x : Z) : Z := x mod ULONG_MAX1.

(** [a - b] on [unsigned long]. *)
Definition ulong_sub (a b : Z) : Z := ulong (a - b).

(** [x++] on [unsigned long]. *)
Definition ulong_incr (x : Z) : Z := ulong (x + 1).

Definition LOW : Z := 0.
Definition HIGH : Z := 1.

(** Conversion of an [int] to [bool] ([bool reading = digitalRead(..)],
    [bool lastButtonState = HIGH]). *)
Definition to_bool (v : Z) : bool := negb (v =? 0).

(** Promotion of a [bool] to [int] ([buttonPressed == LOW]). *)
Definition of_bool (b : bool) : Z := if b then 1 else 0.

(** [a != b] on [bool]. *)
Definition bool_ne (a b : bool) : bool := negb (eqb a b).

(** Input pins: GPIO number to the level [digitalRead] returns. *)
Definition Pins : Type := Z -> Z.

Definition digitalRead (io : Pins) (pin : Z) : Z := io pin.

(** ** Constants of the sketches *)

Definition BARRIER_CLOSED_ANGLE : Z := 0.
Definition BARRIER_OPEN_ANGLE : Z := 90.
Definition BARRIER_OPEN_DURATION : Z := 5000.
Definition DEBOUNCE_DELAY : Z := 50.
Definition BUTTON_PIN : Z := 25.

(** ** Serial lines of the core

    Only the lines that report an event are kept; status dumps and the
    display are renderings of the state and write none of it. *)
Inductive Msg : Type :=
| SlotOccupiedMsg (i : nat)      (* "Slot <name> OCCUPIED - Vehicle parked" *)
| SlotAvailableMsg (i : nat)     (* "Slot <name> AVAILABLE - Vehicle left" *)
| BarrierAutoOpenedMsg           (* "Barrier AUTO-OPENED - Slot available!" *)
| BarrierOpenedMsg               (* "BARRIER OPENED" *)
| BarrierClosedMsg               (* "BARRIER CLOSED" *)
| ButtonPressedMsg               (* "BUTTON PRESSED - Manual barrier control" *)
| ManualCloseMsg                 (* "Manual CLOSE command" *)
| ManualOpenMsg                  (* "Manual OPEN command - Will close in 5 seconds" *)
| SystemResetMsg.                (* "System reset via admin panel" *)

(** ** The globals *)

Record State : Type := {
  slotOccupied : list bool;
  previousSlotState : list bool;
  occupiedCount : Z;
  availableSlots : Z;
  totalDetections : Z;
  systemStartTime : Z;
  barrierOpen : bool;
  barrierOpenTime : Z;
  buttonPressed : bool;
  lastButtonState : bool;
  lastDebounceTime : Z;
  redLed : Z;                 (* level last written to RED_LED_PIN *)
  greenLed : Z;               (* level last written to GREEN_LED_PIN *)
  servo : list Z;             (* angles written to barrierServo, oldest first *)
  serial : list Msg           (* event lines printed, oldest first *)
}.

Definition set_slotOccupied v (s : State) : State :=
  {| slotOccupied := v; previousSlotState := previousSlotState s;
     occupiedCount := occupiedCount s; availableSlots := availableSlots s;
     totalDetections := totalDetections s;
     systemStartTime := systemStartTime s; barrierOpen := barrierOpen s;
     barrierOpenTime := barrierOpenTime s; buttonPressed := buttonPressed s;
     lastButtonState := lastButtonState s;
     lastDebounceTime := lastDebounceTime s; redLed := redLed s;
     greenLed := greenLed s; servo := servo s; serial := serial s |}.

Definition set_previousSlotState v (s : State) : State :=
  {| slotOccupied := slotOccupied s; previousSlotState := v;
     occupiedCount := occupiedCount s; availableSlots := availableSlots s;
     totalDetections := totalDetections s;
     systemStartTime := systemStartTime s; barrierOpen := barrierOpen s;
     barrierOpenTime := barrierOpenTime s; buttonPressed := buttonPressed s;
     lastButtonState := lastButtonState s;
     lastDebounceTime := lastDebounceTime s; redLed := redLed s;
     greenLed := greenLed s; servo := servo s; serial := serial s |}.

Definition set_occupiedCount v (s : State) : State :=
  {| slotOccupied := slotOccupied s;
     previousSlotState := previousSlotState s; occupiedCount := v;
     availableSlots := availableSlots s;
     totalDetections := totalDetections s;
     systemStartTime := systemStartTime s; barrierOpen := barrierOpen s;
     barrierOpenTime := barrierOpenTime s; buttonPressed := buttonPressed s;
     lastButtonState := lastButtonState s;
     lastDebounceTime := lastDebounceTime s; redLed := redLed s;
     greenLed := greenLed s; servo := servo s; serial := serial s |}.

Definition set_availableSlots v (s : State) : State :=
  {| slotOccupied := slotOccupied s;
     previousSlotState := previousSlotState s;
     occupiedCount := occupiedCount s; availableSlots := v;
     totalDetections := totalDetections s;
     systemStartTime := systemStartTime s; barrierOpen := barrierOpen s;
     barrierOpenTime := barrierOpenTime s; buttonPressed := buttonPressed s;
     lastButtonState := lastButtonState s;
     lastDebounceTime := lastDebounceTime s; redLed := redLed s;
     greenLed := greenLed s; servo := servo s; serial := serial s |}.

Definition set_totalDetections v (s : State) : State :=
  {| slotOccupied := slotOccupied s;
     previousSlotState := previousSlotState s;
     occupiedCount := occupiedCount s; availableSlots := availableSlots s;
     totalDetections := v; systemStartTime := systemStartTime s;
     barrierOpen := barrierOpen s; barrierOpenTime := barrierOpenTime s;
     buttonPressed := buttonPressed s; lastButtonState := lastButtonState s;
     lastDebounceTime := lastDebounceTime s; redLed := redLed s;
     greenLed := greenLed s; servo := servo s; serial := serial s |}.

Definition set_systemStartTime v (s : State) : State :=
  {| slotOccupied := slotOccupied s;
     previousSlotState := previousSlotState s;
     occupiedCount := occupiedCount s; availableSlots := availableSlots s;
     totalDetections := totalDetections s; systemStartTime := v;
     barrierOpen := barrierOpen s; barrierOpenTime := barrierOpenTime s;
     buttonPressed := buttonPressed s; lastButtonState := lastButtonState s;
     lastDebounceTime := lastDebounceTime s; redLed := redLed s;
     greenLed := greenLed s; servo := servo s; serial := serial s |}.

Definition set_barrierOpen v (s : State) : State :=
  {| slotOccupied := slotOccupied s;
     previousSlotState := previousSlotState s;
     occupiedCount := occupiedCount s; availableSlots := availableSlots s;
     totalDetections := totalDetections s;
     systemStartTime := systemStartTime s; barrierOpen := v;
     barrierOpenTime := barrierOpenTime s; buttonPressed := buttonPressed s;
     lastButtonState := lastButtonState s;
     lastDebounceTime := lastDebounceTime s; redLed := redLed s;
     greenLed := greenLed s; servo := servo s; serial := serial s |}.

Definition set_barrierOpenTime v (s : State) : State :=
  {| slotOccupied := slotOccupied s;
     previousSlotState := previousSlotState s;
     occupiedCount := occupiedCount s; availableSlots := availableSlots s;
     totalDetections := totalDetections s;
     systemStartTime := systemStartTime s; barrierOpen := barrierOpen s;
     barrierOpenTime := v; buttonPressed := buttonPressed s;
     lastButtonState := lastButtonState s;
     lastDebounceTime := lastDebounceTime s; redLed := redLed s;
     greenLed := greenLed s; servo := servo s; serial := serial s |}.

Definition set_buttonPressed v (s : State) : State :=
  {| slotOccupied := slotOccupied s;
     previousSlotState := previousSlotState s;
     occupiedCount := occupiedCount s; availableSlots := availableSlots s;
     totalDetections := totalDetections s;
     systemStartTime := systemStartTime s; barrierOpen := barrierOpen s;
     barrierOpenTime := barrierOpenTime s; buttonPressed := v;
     lastButtonState := lastButtonState s;
     lastDebounceTime := lastDebounceTime s; redLed := redLed s;
     greenLed := greenLed s; servo := servo s; serial := serial s |}.

Definition set_lastButtonState v (s : State) : State :=
  {| slotOccupied := slotOccupied s;
     previousSlotState := previousSlotState s;
     occupiedCount := occupiedCount s; availableSlots := availableSlots s;
     totalDetections := totalDetections s;
     systemStartTime := systemStartTime s; barrierOpen := barrierOpen s;
     barrierOpenTime := barrierOpenTime s; buttonPressed := buttonPressed s;
     lastButtonState := v; lastDebounceTime := lastDebounceTime s;
     redLed := redLed s; greenLed := greenLed s; servo := servo s;
     serial := serial s |}.

Definition set_lastDebounceTime v (s : State) : State :=
  {| slotOccupied := slotOccupied s;
     previousSlotState := previousSlotState s;
     occupiedCount := occupiedCount s; availableSlots := availableSlots s;
     totalDetections := totalDetections s;
     systemStartTime := systemStartTime s; barrierOpen := barrierOpen s;
     barrierOpenTime := barrierOpenTime s; buttonPressed := buttonPressed s;
     lastButtonState := lastButtonState s; lastDebounceTime := v;
     redLed := redLed s; greenLed := greenLed s; servo := servo s;
     serial := serial s |}.

Definition set_redLed v (s : State) : State :=
  {| slotOccupied := slotOccupied s;
     previousSlotState := previousSlotState s;
     occupiedCount := occupiedCount s; availableSlots := availableSlots s;
     totalDetections := totalDetections s;
     systemStartTime := systemStartTime s; barrierOpen := barrierOpen s;
     barrierOpenTime := barrierOpenTime s; buttonPressed := buttonPressed s;
     lastButtonState := lastButtonState s;
     lastDebounceTime := lastDebounceTime s; redLed := v;
     greenLed := greenLed s; servo := servo s; serial := serial s |}.

Definition set_greenLed v (s : State) : State :=
  {| slotOccupied := slotOccupied s;
     previousSlotState := previousSlotState s;
     occupiedCount := occupiedCount s; availableSlots := availableSlots s;
     totalDetections := totalDetections s;
     systemStartTime := systemStartTime s; barrierOpen := barrierOpen s;
     barrierOpenTime := barrierOpenTime s; buttonPressed := buttonPressed s;
     lastButtonState := lastButtonState s;
     lastDebounceTime := lastDebounceTime s; redLed := redLed s;
     greenLed := v; servo := servo s; serial := serial s |}.

Definition set_servo v (s : State) : State :=
  {| slotOccupied := slotOccupied s;
     previousSlotState := previousSlotState s;
     occupiedCount := occupiedCount s; availableSlots := availableSlots s;
     totalDetections := totalDetections s;
     systemStartTime := systemStartTime s; barrierOpen := barrierOpen s;
     barrierOpenTime := barrierOpenTime s; buttonPressed := buttonPressed s;
     lastButtonState := lastButtonState s;
     lastDebounceTime := lastDebounceTime s; redLed := redLed s;
     greenLed := greenLed s; servo := v; serial := serial s |}.

Definition set_serial v (s : State) : State :=
  {| slotOccupied := slotOccupied s;
     previousSlotState := previousSlotState s;
     occupiedCount := occupiedCount s; availableSlots := availableSlots s;
     totalDetections := totalDetections s;
     systemStartTime := systemStartTime s; barrierOpen := barrierOpen s;
     barrierOpenTime := barrierOpenTime s; buttonPressed := buttonPressed s;
     lastButtonState := lastButtonState s;
     lastDebounceTime := lastDebounceTime s; redLed := redLed s;
     greenLed := greenLed s; servo := servo s; serial := v |}.

(** [array[i]] on a [bool] array; the loops below only index inside the
    array. *)
Definition read (a : list bool) (i : nat) : bool := default false (a !! i).

Definition Serial_println (m : Msg) (s : State) : State :=
  set_serial (serial s ++ [m]) s.

Definition barrierServo_write (angle : Z) (s : State) : State :=
  set_servo (servo s ++ [angle]) s.

(** ** Servo barrier control *)

Definition openBarrier (now : Z) (s : State) : State :=
  if negb (barrierOpen s) then
    Serial_println BarrierOpenedMsg
      (set_barrierOpenTime now
        (set_barrierOpen true
          (barrierServo_write BARRIER_OPEN_ANGLE s)))
  else s.

Definition closeBarrier (s : State) : State :=
  if barrierOpen s then
    Serial_println BarrierClosedMsg
      (set_barrierOpen false
        (barrierServo_write BARRIER_CLOSED_ANGLE s))
  else s.

(** [now] is the value [millis()] returns in the comparison. *)
Definition handleBarrierTiming (now : Z) (s : State) : State :=
  if barrierOpen s && (BARRIER_OPEN_DURATION <=? ulong_sub now (barrierOpenTime s))
  then closeBarrier s
  else s.

(** ** Button control

    [level] is what [digitalRead(BUTTON_PIN)] returns and [now] the value of
    [millis()] during the call: between its reads lie an assignment, two
    comparisons and two prints. *)
Definition handleButtonPress (level : Z) (now : Z) (s : State) : State :=
  let reading := to_bool level in
  let s1 :=
    if bool_ne reading (lastButtonState s)
    then set_lastDebounceTime now s
    else s in
  let s2 :=
    if DEBOUNCE_DELAY <? ulong_sub now (lastDebounceTime s1) then
      if bool_ne reading (buttonPressed s1) then
        let s3 := set_buttonPressed reading s1 in
        if of_bool (buttonPressed s3) =? LOW then
          let s4 := Serial_println ButtonPressedMsg s3 in
          if barrierOpen s4
          then Serial_println ManualCloseMsg (closeBarrier s4)
          else Serial_println ManualOpenMsg (openBarrier now s4)
        else s3
      else s1
    else s1 in
  set_lastButtonState reading s2.

(** ** Occupancy: the sensor scan, the counters and the LEDs

    The sensor loop, [updateOccupancyCounters], [updateLEDStatus] and
    [setSystemReadyLEDs] have the same text in the barrier and web sketches
    but for one statement: only the barrier sketch goes on, after the
    "AVAILABLE" line, to open the barrier.  That statement is the parameter
    [onVacated]; [SENSOR_COUNT] and [SENSOR_PINS] are the constants of the
    sketch. *)
Section Occupancy.

Variable SENSOR_COUNT : nat.
Variable SENSOR_PINS : list Z.
Variable onVacated : State -> State.

(** [digitalRead(SENSOR_PINS[i]) == LOW]: LOW means an object is detected. *)
Definition currentStateOf (io : Pins) (i : nat) : bool :=
  digitalRead io (default 0 (SENSOR_PINS !! i)) =? LOW.

(** One iteration of the sensor loop; the flag is [stateChanged]. *)
Definition scanSlot (io : Pins) (i : nat) (acc : State * bool) : State * bool :=
  let currentState := currentStateOf io i in
  if bool_ne currentState (read (previousSlotState (fst acc)) i) then
    let s1 :=
      set_slotOccupied (<[i := currentState]> (slotOccupied (fst acc)))
        (set_previousSlotState
          (<[i := currentState]> (previousSlotState (fst acc))) (fst acc)) in
    if currentState then
      let s2 := Serial_println (SlotOccupiedMsg i) s1 in
      (set_totalDetections (ulong_incr (totalDetections s2)) s2, true)
    else
      (onVacated (Serial_println (SlotAvailableMsg i) s1), true)
  else acc.

(** [for (int i = ...; i < ...; i++)] with [k] iterations left. *)
Fixpoint scanFrom (k i : nat) (io : Pins) (acc : State * bool) : State * bool :=
  match k with
  | O => acc
  | S k' => scanFrom k' (S i) io (scanSlot io i acc)
  end.

Definition scanSensors (io : Pins) (s : State) : State * bool :=
  scanFrom SENSOR_COUNT 0 io (s, false).

(** The counting loop of [updateOccupancyCounters], [k] iterations left. *)
Fixpoint countFrom (k i : nat) (slots : list bool) (count : Z) : Z :=
  match k with
  | O => count
  | S k' => countFrom k' (S i) slots (if read slots i then count + 1 else count)
  end.

Definition updateOccupancyCounters (s : State) : State :=
  let count := countFrom SENSOR_COUNT 0 (slotOccupied s) 0 in
  set_availableSlots (Z.of_nat SENSOR_COUNT - count) (set_occupiedCount count s).

Definition updateLEDStatus (s : State) : State :=
  if occupiedCount s =? Z.of_nat SENSOR_COUNT
  then set_greenLed LOW (set_redLed HIGH s)
  else set_greenLed HIGH (set_redLed LOW s).

End Occupancy.

Definition setSystemReadyLEDs (s : State) : State :=
  set_greenLed HIGH (set_redLed LOW s).

(** The globals as their initialisers leave them, for a sketch with [n]
    slots. *)
Definition initial (n : nat) : State :=
  {| slotOccupied := replicate n false;
     previousSlotState := replicate n false;
     occupiedCount := 0;
     availableSlots := Z.of_nat n;
     totalDetections := 0;
     systemStartTime := 0;
     barrierOpen := false;
     barrierOpenTime := 0;
     buttonPressed := false;
     lastButtonState := to_bool HIGH;
     lastDebounceTime := 0;
     redLed := LOW;
     greenLed := LOW;
     servo := [];
     serial := [] |}.

(** ** The barrier sketch *)
Module Barrier.

Definition SENSOR_COUNT : nat := 3.
Definition SENSOR_PINS : list Z := [4; 5; 18].

(** What one pass of [loop()] reads: the input pins, and the value of
    [millis()] in the sensor loop, in [handleButtonPress] and in
    [handleBarrierTiming]. *)
Record Tick : Type := {
  pins : Pins;
  millisSensors : Z;
  millisButton : Z;
  millisTiming : Z
}.

(** "Auto-open barrier when a slot becomes available". *)
Definition autoOpen (now : Z) (s : State) : State :=
  if negb (barrierOpen s)
  then Serial_println BarrierAutoOpenedMsg (openBarrier now s)
  else s.

Definition readSensors (now : Z) (io : Pins) (s : State) : State * bool :=
  scanSensors SENSOR_COUNT SENSOR_PINS (autoOpen now) io s.

Definition setup (now : Z) : State :=
  set_systemStartTime now
    (setSystemReadyLEDs
      (barrierServo_write BARRIER_CLOSED_ANGLE (initial SENSOR_COUNT))).

Definition loop (t : Tick) (s : State) : State :=
  let r := readSensors (millisSensors t) (pins t) s in
  let s1 := handleButtonPress (digitalRead (pins t) BUTTON_PIN) (millisButton t) (fst r) in
  let s2 := handleBarrierTiming (millisTiming t) s1 in
  if snd r
  then updateLEDStatus SENSOR_COUNT (updateOccupancyCounters SENSOR_COUNT s2)
  else s2.

(** The state after the passes of [ticks], oldest first. *)
Definition run (ticks : list Tick) (s : State) : State :=
  foldl (fun st t => loop t st) s ticks.

End Barrier.

(** ** The web sketch ([simple_parking_barrier_system.ino])

    The sketch declares no barrier variables and calls no barrier handler;
    its [printParkingStatus] reads a global [barrierOpen], so the barrier
    fields of [State] are part of the globals it runs against. *)
Module Web.

Definition SENSOR_COUNT : nat := 3.
Definition SENSOR_PINS : list Z := [4; 5; 18].

#[warnings="-register-all"]
Inductive Json : Type :=
| JBool (b : bool)
| JNum (n : Z)
| JStr (s : string)
| JArr (l : list Json).

(** What is handed to [server.send]; a JSON document is the list of its
    members in insertion order, [serializeJson] being the library's. *)
Inductive Content : Type :=
| Document (members : list (string * Json))
| Text (s : string)
| DashboardPage
| AdminPage.

Record Response : Type := {
  code : Z;
  contentType : string;
  content : Content
}.

(** The routes registered by [setupWebServer]; [plain] is the request body
    ([server.hasArg("plain")], [server.arg("plain")]). *)
Inductive Request : Type :=
| GetRoot
| GetAdmin
| GetStatus
| PostAdmin (plain : option string).

Definition slotNames : list string := ["A1"; "A2"; "B1"]%string.

(** The literal sent with status 400: an object with the one member
    [error], whose value is [Invalid request]. *)
Definition quote : string := String (Ascii.ascii_of_nat 34) EmptyString.

Definition invalidRequestText : string :=
  ("{" ++ quote ++ "error" ++ quote ++ ":" ++ quote ++ "Invalid request" ++ quote ++ "}")%string.

Definition setup (now : Z) : State :=
  set_systemStartTime now (setSystemReadyLEDs (initial SENSOR_COUNT)).

(** The loop of [handleAdminAPI] that clears the slots, [k] iterations
    left. *)
Fixpoint resetFrom (k i : nat) (s : State) : State :=
  match k with
  | O => s
  | S k' =>
      resetFrom k' (S i)
        (set_previousSlotState (<[i := false]> (previousSlotState s))
          (set_slotOccupied (<[i := false]> (slotOccupied s)) s))
  end.

(** The loop of [handleStatusAPI] filling the two arrays. *)
Fixpoint statusFrom (k i : nat) (s : State) (slots names : list Json)
  : list Json * list Json :=
  match k with
  | O => (slots, names)
  | S k' =>
      statusFrom k' (S i) s
        (slots ++ [JBool (read (slotOccupied s) i)])
        (names ++ [JStr (default EmptyString (slotNames !! i))])
  end.

Section Handlers.

(** ArduinoJson: the [String] that [doc["action"]] converts to after
    [deserializeJson(doc, body)]. *)
Variable actionOf : string -> string.

Definition handleAdminAPI (plain : option string) (now : Z) (s : State)
  : State * Response :=
  match plain with
  | Some body =>
      let action := actionOf body in
      if String.eqb action "reset" then
        let s1 := set_totalDetections 0 s in
        let s2 := set_systemStartTime now s1 in
        let s3 := resetFrom SENSOR_COUNT 0 s2 in
        let s4 := updateOccupancyCounters SENSOR_COUNT s3 in
        let s5 := updateLEDStatus SENSOR_COUNT s4 in
        (Serial_println SystemResetMsg s5,
         {| code := 200; contentType := "application/json";
            content := Document [("success", JBool true);
                                 ("message", JStr "System reset successfully")]%string |})
      else
        (s,
         {| code := 200; contentType := "application/json";
            content := Document [("success", JBool false);
                                 ("message", JStr "Unknown action")]%string |})
  | None =>
      (s,
       {| code := 400; contentType := "application/json";
          content := Text invalidRequestText |})
  end.

(** [freeHeap] is [ESP.getFreeHeap()]. *)
Definition handleStatusAPI (now freeHeap : Z) (s : State) : Response :=
  let arrays := statusFrom SENSOR_COUNT 0 s [] [] in
  {| code := 200; contentType := "application/json";
     content := Document
       [("occupied", JNum (occupiedCount s));
        ("available", JNum (availableSlots s));
        ("total", JNum (Z.of_nat SENSOR_COUNT));
        ("uptime", JNum (ulong_sub now (systemStartTime s) / 1000));
        ("totalDetections", JNum (totalDetections s));
        ("freeMemory", JNum freeHeap);
        ("slots", JArr (fst arrays));
        ("slotNames", JArr (snd arrays))]%string |}.

(** What one pass of [loop()] reads.  [server.handleClient()] serves the
    pending request, if there is one. *)
Record Tick : Type := {
  request : option Request;
  millisRequest : Z;
  freeHeap : Z;
  pins : Pins
}.

Definition handleClient (t : Tick) (s : State) : State * option Response :=
  match request t with
  | None => (s, None)
  | Some GetRoot =>
      (s, Some {| code := 200; contentType := "text/html"; content := DashboardPage |})
  | Some GetAdmin =>
      (s, Some {| code := 200; contentType := "text/html"; content := AdminPage |})
  | Some GetStatus => (s, Some (handleStatusAPI (millisRequest t) (freeHeap t) s))
  | Some (PostAdmin plain) =>
      let r := handleAdminAPI plain (millisRequest t) s in (fst r, Some (snd r))
  end.

Definition readSensors (io : Pins) (s : State) : State * bool :=
  scanSensors SENSOR_COUNT SENSOR_PINS (fun s' => s') io s.

Definition loop (t : Tick) (s : State) : State * option Response :=
  let c := handleClient t s in
  let r := readSensors (pins t) (fst c) in
  (if snd r
   then updateLEDStatus SENSOR_COUNT (updateOccupancyCounters SENSOR_COUNT (fst r))
   else fst r,
   snd c).

Definition run (ticks : list Tick) (s : State) : State :=
  foldl (fun st t => fst (loop t st)) s ticks.

End Handlers.

End Web.

(** ** The 6-slot sketch *)
Module Lot6.

Definition SENSOR_COUNT : nat := 6.
Definition SENSOR_PINS : list Z := [4; 5; 18; 19; 25; 26].

Definition updateLEDStatus (s : State) : State :=
  if occupiedCount s =? 0 then
    set_greenLed HIGH (set_redLed LOW s)
  else if occupiedCount s =? Z.of_nat SENSOR_COUNT then
    set_greenLed LOW (set_redLed HIGH s)
  else
    set_greenLed HIGH (set_redLed LOW s).

Definition setup (now : Z) : State :=
  set_systemStartTime now (setSystemReadyLEDs (initial SENSOR_COUNT)).

Definition readSensors (io : Pins) (s : State) : State * bool :=
  scanSensors SENSOR_COUNT SENSOR_PINS (fun s' => s') io s.

Definition loop (io : Pins) (s : State) : State :=
  let r := readSensors io s in
  if snd r
  then updateLEDStatus (updateOccupancyCounters SENSOR_COUNT (fst r))
  else fst r.

Definition run (ticks : list Pins) (s : State) : State :=
  foldl (fun st io => loop io st) s ticks.

End Lot6.

(** ** Text sent to a display

    A [print] call writes a string or the decimal digits of a number. *)
Inductive Piece : Type :=
| Str (text : string)
| Num (n : Z).

(** ** The display of the barrier sketch, LCD variant *)
Module BarrierLcd.

Definition SENSOR_COUNT : nat := 3.

Inductive Op : Type :=
| Clear
| SetCursor (col row : Z)
| Print (p : Piece).

(** [now] is the value of [millis()] in the second line; each branch reads
    it once. *)
Definition updateDisplay (now : Z) (s : State) : list Op :=
  [Clear; SetCursor 0 0]
  ++ (if occupiedCount s =? 0 then
        [Print (Str "All slots free")]
      else if occupiedCount s =? Z.of_nat SENSOR_COUNT then
        [Print (Str "PARKING FULL!")]
      else
        [Print (Num (occupiedCount s)); Print (Str "/");
         Print (Num (Z.of_nat SENSOR_COUNT)); Print (Str " slots used")])
  ++ [SetCursor 0 1]
  ++ (if barrierOpen s then
        let timeLeft :=
          ulong_sub BARRIER_OPEN_DURATION (ulong_sub now (barrierOpenTime s)) / 1000 in
        Print (Str "Gate:OPEN ")
        :: (if 0 <? timeLeft
            then [Print (Num timeLeft); Print (Str "s")]
            else [Print (Str "0s")])
      else
        let uptime := ulong_sub now (systemStartTime s) / 1000 in
        Print (Str "Gate:CLOSED ")
        :: (if uptime <? 60
            then [Print (Num uptime); Print (Str "s")]
            else [Print (Num (uptime / 60)); Print (Str "m")])).

End BarrierLcd.

(** ** The whole pass of the barrier sketch, OLED variant

    Besides the control code of [Barrier.loop], [loop()] runs three timed
    jobs.  What they print or draw reads the globals and writes none; a job
    is kept as the event that it ran, with the state it ran on. *)
Module BarrierOled.

Definition MEMORY_CLEANUP_INTERVAL : Z := 30000.
Definition DISPLAY_UPDATE_INTERVAL : Z := 10000.

Record Timers : Type := {
  lastMemoryCleanup : Z;
  lastDisplayUpdate : Z
}.

(** The values of [millis()] read by the timed jobs of one pass, in the
    order of the reads. *)
Record Clock : Type := {
  cleanupCheck : Z;     (* condition of handleMemoryCleanup *)
  cleanupSet : Z;       (* lastMemoryCleanup = millis() *)
  displayCheck : Z;     (* condition of the display job *)
  displayRender : Z;    (* inside updateDisplay *)
  displaySet : Z;       (* lastDisplayUpdate = millis(), display job *)
  reportCheck : Z;      (* condition of the report job *)
  reportSet : Z         (* lastDisplayUpdate = millis(), report job *)
}.

Inductive Event : Type :=
| MemoryCleanup                          (* performMemoryCleanup() *)
| DisplayUpdate (now : Z) (shown : State) (* updateDisplay() *)
| StatusReport (reported : State).        (* printParkingStatus() *)

(** The timers as their initialisers leave them; [setup()] writes
    neither. *)
Definition initialTimers : Timers :=
  {| lastMemoryCleanup := 0; lastDisplayUpdate := 0 |}.

Definition handleMemoryCleanup (c : Clock) (tm : Timers) : Timers * list Event :=
  if MEMORY_CLEANUP_INTERVAL <=? ulong_sub (cleanupCheck c) (lastMemoryCleanup tm)
  then ({| lastMemoryCleanup := cleanupSet c;
           lastDisplayUpdate := lastDisplayUpdate tm |}, [MemoryCleanup])
  else (tm, []).

(** "Update OLED display periodically". *)
Definition displayJob (c : Clock) (s : State) (tm : Timers) : Timers * list Event :=
  if DISPLAY_UPDATE_INTERVAL <? ulong_sub (displayCheck c) (lastDisplayUpdate tm)
  then ({| lastMemoryCleanup := lastMemoryCleanup tm;
           lastDisplayUpdate := displaySet c |}, [DisplayUpdate (displayRender c) s])
  else (tm, []).

(** "Print status every 10 seconds": the same timer variable as the
    display job. *)
Definition reportJob (c : Clock) (s : State) (tm : Timers) : Timers * list Event :=
  if DISPLAY_UPDATE_INTERVAL <? ulong_sub (reportCheck c) (lastDisplayUpdate tm)
  then ({| lastMemoryCleanup := lastMemoryCleanup tm;
           lastDisplayUpdate := reportSet c |}, [StatusReport s])
  else (tm, []).

Definition loop (t : Barrier.Tick) (c : Clock) (x : State * Timers)
  : (State * Timers) * list Event :=
  let r := Barrier.readSensors (Barrier.millisSensors t) (Barrier.pins t) (fst x) in
  let s1 := handleButtonPress (digitalRead (Barrier.pins t) BUTTON_PIN)
              (Barrier.millisButton t) (fst r) in
  let s2 := handleBarrierTiming (Barrier.millisTiming t) s1 in
  let cleanup := handleMemoryCleanup c (snd x) in
  let display := displayJob c s2 (fst cleanup) in
  let s3 := if snd r
            then updateLEDStatus Barrier.SENSOR_COUNT
                   (updateOccupancyCounters Barrier.SENSOR_COUNT s2)
            else s2 in
  let changed := if snd r then [StatusReport s3] else [] in
  let report := reportJob c s3 (fst display) in
  ((s3, fst report), snd cleanup ++ snd display ++ changed ++ snd report).

End BarrierOled.

(** ** WiFi start-up of the web sketch

    [status k] tells whether the read number [k] (from 0) of
    [WiFi.status()] returns [WL_CONNECTED].  The waiting loop reads it once
    per evaluation of its condition, so with [attempts] at [k] it is read
    number [k] that is tested; [left] is [20 - attempts]. *)
Fixpoint waitForWiFi (left attempts : nat) (status : nat -> bool) : nat :=
  match left with
  | O => attempts
  | S left' =>
      if negb (status attempts)
      then waitForWiFi left' (S attempts) status
      else attempts
  end.

Record WiFiStart : Type := {
  attempts : nat;       (* dots printed *)
  waited : Z;           (* milliseconds spent in delay(500) *)
  connected : bool      (* which branch of the final test ran *)
}.

(** After the loop, [WiFi.status()] is read once more for the final
    test. *)
Definition initializeWiFi (status : nat -> bool) : WiFiStart :=
  let a := waitForWiFi 20 0 status in
  {| attempts := a; waited := 500 * Z.of_nat a; connected := status (S a) |}.

(** ** Vocabulary of the properties *)

(** The number of slots marked occupied. *)
Definition occupiedSlots (slots : list bool) : Z :=
  Z.of_nat (length (List.filter (fun b : bool => b) slots)).

(** The counters agree with the slot array of a sketch with [n] slots. *)
Definition countersAgree (n : nat) (s : State) : Prop :=
  length (slotOccupied s) = n /\
  length (previousSlotState s) = n /\
  occupiedCount s = occupiedSlots (slotOccupied s) /\
  availableSlots s = Z.of_nat n - occupiedCount s.

(** The lines printed between state [s] and a later state [s']. *)
Definition emitted (s s' : State) : list Msg :=
  drop (length (serial s)) (serial s').

(** An occupancy edge of channel [i] is reported by one of two lines. *)
Definition isEdgeOf (i : nat) (m : Msg) : bool :=
  match m with
  | SlotOccupiedMsg j | SlotAvailableMsg j => Nat.eqb i j
  | _ => false
  end.

Definition edgesOf (i : nat) (l : list Msg) : list Msg :=
  List.filter (isEdgeOf i) l.

(** The edge line a sample [cur] calls for when the channel's recorded
    reading is [prev]. *)
Definition edgeFor (i : nat) (cur prev : bool) : list Msg :=
  if bool_ne cur prev
  then [if cur then SlotOccupiedMsg i else SlotAvailableMsg i]
  else [].

(** Some channel among [i], .., [i + k - 1] reads vacant while recorded
    occupied. *)
Definition vacatedIn (pinsOf : list Z) (io : Pins) (prev : list bool) (i k : nat) : bool :=
  existsb (fun j => negb (currentStateOf pinsOf io j) && read prev j) (seq i k).

(** The globals of the occupancy model and the LED pins. *)
Definition occupancyView (s : State) : list bool * list bool * Z * Z * Z * Z * Z * Z :=
  (slotOccupied s, previousSlotState s, occupiedCount s, availableSlots s,
   totalDetections s, systemStartTime s, redLed s, greenLed s).

(** No servo command repeats the one before it. *)
Fixpoint alternates (l : list Z) : bool :=
  match l with
  | a :: (b :: _) as rest => negb (a =? b) && alternates rest
  | _ => true
  end.

(** The angle that stands for a position. *)
Definition angleOf (open : bool) : Z :=
  if open then BARRIER_OPEN_ANGLE else BARRIER_CLOSED_ANGLE.

(** The last servo command is the one for the current position, and no
    command was ever issued twice in a row. *)
Definition servoFollows (s : State) : Prop :=
  last (servo s) = Some (angleOf (barrierOpen s)) /\ alternates (servo s) = true.

(** The time the debounce window of this call started: now if the raw
    reading differs from the last one, the recorded start otherwise. *)
Definition windowStart (level now : Z) (s : State) : Z :=
  if bool_ne (to_bool level) (lastButtonState s) then now else lastDebounceTime s.

(** This call accepts the raw reading as the new stable state. *)
Definition commits (level now : Z) (s : State) : bool :=
  (DEBOUNCE_DELAY <? ulong_sub now (windowStart level now s))
  && bool_ne (to_bool level) (buttonPressed s).

(** The button globals. *)
Definition buttonView (s : State) : bool * bool * Z :=
  (buttonPressed s, lastButtonState s, lastDebounceTime s).

(** Position, opening time and servo commands. *)
Definition barrierView (s : State) : bool * Z * list Z :=
  (barrierOpen s, barrierOpenTime s, servo s).

(** The states the barrier sketch can be in between two passes. *)
Inductive Barrier_reachable : State -> Prop :=
| Barrier_reach_setup (now : Z) : Barrier_reachable (Barrier.setup now)
| Barrier_reach_loop (t : Barrier.Tick) (s : State) :
    Barrier_reachable s -> Barrier_reachable (Barrier.loop t s).

Inductive Web_reachable (actionOf : string -> string) : State -> Prop :=
| Web_reach_setup (now : Z) : Web_reachable actionOf (Web.setup now)
| Web_reach_loop (t : Web.Tick) (s : State) :
    Web_reachable actionOf s -> Web_reachable actionOf (fst (Web.loop actionOf t s)).

Inductive Lot6_reachable : State -> Prop :=
| Lot6_reach_setup (now : Z) : Lot6_reachable (Lot6.setup now)
| Lot6_reach_loop (io : Pins) (s : State) :
    Lot6_reachable s -> Lot6_reachable (Lot6.loop io s).

(** A run of [handleButtonPress] over samples (level, time), oldest first. *)
Definition pressRun (samples : list (Z * Z)) (s : State) : State :=
  foldl (fun st x => handleButtonPress (fst x) (snd x) st) s samples.

(** What the sensors of a sketch with [n] channels read: occupied or
    not, channel by channel. *)
Definition samples (pinsOf : list Z) (io : Pins) (n : nat) : list bool :=
  map (currentStateOf pinsOf io) (seq 0 n).

(** The LEDs show the state the counter stands for. *)
Definition ledsAgree (n : nat) (s : State) : Prop :=
  if occupiedCount s =? Z.of_nat n
  then redLed s = HIGH /\ greenLed s = LOW
  else redLed s = LOW /\ greenLed s = HIGH.

(** The two slot arrays hold the same values and the LEDs agree with
    the counter. *)
Definition inStep (n : nat) (s : State) : Prop :=
  slotOccupied s = previousSlotState s /\ ledsAgree n s.

(** The "occupied" lines among the lines printed. *)
Definition isOccupiedLine (m : Msg) : bool :=
  match m with
  | SlotOccupiedMsg _ => true
  | _ => false
  end.

Definition occupiedLines (l : list Msg) : nat :=
  length (List.filter isOccupiedLine l).

(** The channels among [i], .., [i + k - 1] that read occupied while
    recorded vacant. *)
Definition risingIn (pinsOf : list Z) (io : Pins) (prev : list bool) (i k : nat) : nat :=
  length (List.filter (fun j => currentStateOf pinsOf io j && negb (read prev j)) (seq i k)).

(** The status reports among the events of a pass. *)
Definition reportsOf (events : list BarrierOled.Event) : list BarrierOled.Event :=
  List.filter (fun e => match e with BarrierOled.StatusReport _ => true | _ => false end)
    events.

(** A pass of the OLED variant in which every [millis()] of the timed
    jobs reads [now]. *)
Definition clockAt (now : Z) : BarrierOled.Clock :=
  {| BarrierOled.cleanupCheck := now; BarrierOled.cleanupSet := now;
     BarrierOled.displayCheck := now; BarrierOled.displayRender := now;
     BarrierOled.displaySet := now; BarrierOled.reportCheck := now;
     BarrierOled.reportSet := now |}.

(** ** Concrete inputs used in the examples *)

(** Nothing in front of a sensor, button released. *)
Definition idlePins : Pins := fun _ => HIGH.

(** The pin [p] reads LOW, every other pin HIGH. *)
Definition lowPin (p : Z) : Pins := fun q => if q =? p then LOW else HIGH.

(** A pass of the barrier sketch in which every [millis()] reads [now]. *)
Definition tickAt (io : Pins) (now : Z) : Barrier.Tick :=
  {| Barrier.pins := io; Barrier.millisSensors := now;
     Barrier.millisButton := now; Barrier.millisTiming := now |}.

(** A pass of the web sketch with no request pending. *)
Definition quietTick (io : Pins) : Web.Tick :=
  {| Web.request := None; Web.millisRequest := 0; Web.freeHeap := 0;
     Web.pins := io |}.

(** ** Proof steps used throughout *)

(** Case analysis on every condition of the goal. *)
Ltac split_ifs :=
  repeat match goal with
         | |- context [if ?b then _ else _] => destruct b eqn:?
         end.

(** A component of an equation between occupancy views. *)
Ltac by_view H :=
  let E := fresh "E" in
  pose proof H as E; unfold occupancyView in E; congruence.

(** * Properties *)

(** ** Basic facts *)

Lemma ulong_sub_self (a : Z) : ulong_sub a a = 0.
Proof. unfold ulong_sub, ulong. now rewrite Z.sub_diag. Qed.

Lemma ulong_sub_small (a b : Z) :
  0 <= b <= a -> a < ULONG_MAX1 -> ulong_sub a b = a - b.
Proof.
  intros Hb Ha. unfold ulong_sub, ulong. apply Z.mod_small. lia.
Qed.

Lemma bool_ne_true (a b : bool) : bool_ne a b = true <-> a <> b.
Proof. destruct a, b; unfold bool_ne; simpl; intuition congruence. Qed.

Lemma bool_ne_false (a b : bool) : bool_ne a b = false <-> a = b.
Proof. destruct a, b; unfold bool_ne; simpl; intuition congruence. Qed.

(** ** The barrier primitives *)

Lemma openBarrier_when_open (now : Z) (s : State) :
  barrierOpen s = true -> openBarrier now s = s.
Proof. intros H. unfold openBarrier. now rewrite H. Qed.

Lemma closeBarrier_when_closed (s : State) :
  barrierOpen s = false -> closeBarrier s = s.
Proof. intros H. unfold closeBarrier. now rewrite H. Qed.

Lemma openBarrier_when_closed (now : Z) (s : State) :
  barrierOpen s = false ->
  barrierOpen (openBarrier now s) = true /\
  barrierOpenTime (openBarrier now s) = now /\
  servo (openBarrier now s) = servo s ++ [BARRIER_OPEN_ANGLE].
Proof. intros H. unfold openBarrier. rewrite H. simpl. auto. Qed.

Lemma closeBarrier_when_open (s : State) :
  barrierOpen s = true ->
  barrierOpen (closeBarrier s) = false /\
  barrierOpenTime (closeBarrier s) = barrierOpenTime s /\
  servo (closeBarrier s) = servo s ++ [BARRIER_CLOSED_ANGLE].
Proof. intros H. unfold closeBarrier. rewrite H. simpl. auto. Qed.

(** ** The sensor scan *)
Section ScanFacts.

Variable n : nat.
Variable pinsOf : list Z.
Variable hook : State -> State.

(** The statement after the "AVAILABLE" line leaves the occupancy globals
    alone and prints no edge line. *)
Hypothesis hook_slots : forall s, slotOccupied (hook s) = slotOccupied s.
Hypothesis hook_prev : forall s, previousSlotState (hook s) = previousSlotState s.
Hypothesis hook_occupied : forall s, occupiedCount (hook s) = occupiedCount s.
Hypothesis hook_available : forall s, availableSlots (hook s) = availableSlots s.
Hypothesis hook_serial : forall s, exists extra,
  serial (hook s) = serial s ++ extra /\ forall j, edgesOf j extra = [].


Lemma scanSlot_cases (io : Pins) (i : nat) (acc : State * bool) :
  (bool_ne (currentStateOf pinsOf io i) (read (previousSlotState (fst acc)) i) = false
   /\ scanSlot pinsOf hook io i acc = acc)
  \/ (bool_ne (currentStateOf pinsOf io i) (read (previousSlotState (fst acc)) i) = true
      /\ snd (scanSlot pinsOf hook io i acc) = true
      /\ slotOccupied (fst (scanSlot pinsOf hook io i acc))
         = <[i := currentStateOf pinsOf io i]> (slotOccupied (fst acc))
      /\ previousSlotState (fst (scanSlot pinsOf hook io i acc))
         = <[i := currentStateOf pinsOf io i]> (previousSlotState (fst acc))).
Proof.
  unfold scanSlot.
  destruct (bool_ne _ _) eqn:E; [right | left; auto].
  split; [reflexivity |].
  destruct (currentStateOf pinsOf io i); simpl;
    rewrite ?hook_slots, ?hook_prev; simpl; auto.
Qed.

Lemma scanSlot_counters (io : Pins) (i : nat) (acc : State * bool) :
  occupiedCount (fst (scanSlot pinsOf hook io i acc)) = occupiedCount (fst acc) /\
  availableSlots (fst (scanSlot pinsOf hook io i acc)) = availableSlots (fst acc).
Proof.
  unfold scanSlot.
  destruct (bool_ne _ _); [| auto].
  destruct (currentStateOf pinsOf io i); simpl;
    rewrite ?hook_occupied, ?hook_available; simpl; auto.
Qed.

Lemma scanSlot_flag (io : Pins) (i : nat) (acc : State * bool) :
  snd acc = true -> snd (scanSlot pinsOf hook io i acc) = true.
Proof.
  intros H. destruct (scanSlot_cases io i acc) as [[_ ->] | (_ & -> & _)]; auto.
Qed.

Lemma scanFrom_flag (io : Pins) (k : nat) :
  forall i acc, snd acc = true -> snd (scanFrom pinsOf hook k i io acc) = true.
Proof.
  induction k as [| k IH]; intros i acc H; simpl; [exact H |].
  apply IH, scanSlot_flag, H.
Qed.

(** A pass that leaves [stateChanged] false has changed nothing. *)
Lemma scanFrom_unchanged (io : Pins) (k : nat) :
  forall i acc, snd (scanFrom pinsOf hook k i io acc) = false -> scanFrom pinsOf hook k i io acc = acc.
Proof.
  induction k as [| k IH]; intros i acc H; simpl in *; [reflexivity |].
  destruct (scanSlot_cases io i acc) as [[_ E] | (_ & E & _)].
  - rewrite E in *. now apply IH.
  - rewrite scanFrom_flag in H by exact E. discriminate.
Qed.

Lemma scanFrom_lengths (io : Pins) (k : nat) :
  forall i acc,
    length (slotOccupied (fst (scanFrom pinsOf hook k i io acc))) = length (slotOccupied (fst acc)) /\
    length (previousSlotState (fst (scanFrom pinsOf hook k i io acc)))
    = length (previousSlotState (fst acc)).
Proof.
  induction k as [| k IH]; intros i acc; simpl; [auto |].
  destruct (IH (S i) (scanSlot pinsOf hook io i acc)) as [-> ->].
  destruct (scanSlot_cases io i acc) as [[_ ->] | (_ & _ & -> & ->)]; [auto |].
  now rewrite !length_insert.
Qed.

Lemma scanFrom_counters (io : Pins) (k : nat) :
  forall i acc,
    occupiedCount (fst (scanFrom pinsOf hook k i io acc)) = occupiedCount (fst acc) /\
    availableSlots (fst (scanFrom pinsOf hook k i io acc)) = availableSlots (fst acc).
Proof.
  induction k as [| k IH]; intros i acc; simpl; [auto |].
  destruct (IH (S i) (scanSlot pinsOf hook io i acc)) as [-> ->].
  apply scanSlot_counters.
Qed.

Lemma read_insert_ne (l : list bool) (i j : nat) (v : bool) :
  i <> j -> read (<[i := v]> l) j = read l j.
Proof. intros H. unfold read. now rewrite list_lookup_insert_ne. Qed.

Lemma read_insert_eq (l : list bool) (i : nat) (v : bool) :
  (i < length l)%nat -> read (<[i := v]> l) i = v.
Proof. intros H. unfold read. now rewrite list_lookup_insert_eq. Qed.

Lemma scanSlot_prev_other (io : Pins) (i j : nat) (acc : State * bool) :
  i <> j ->
  read (previousSlotState (fst (scanSlot pinsOf hook io i acc))) j
  = read (previousSlotState (fst acc)) j.
Proof.
  intros H.
  destruct (scanSlot_cases io i acc) as [[_ ->] | (_ & _ & _ & ->)]; [auto |].
  now apply read_insert_ne.
Qed.

Lemma scanSlot_prev_same (io : Pins) (i : nat) (acc : State * bool) :
  (i < length (previousSlotState (fst acc)))%nat ->
  read (previousSlotState (fst (scanSlot pinsOf hook io i acc))) i
  = currentStateOf pinsOf io i.
Proof.
  intros H.
  destruct (scanSlot_cases io i acc) as [[E ->] | (_ & _ & _ & ->)].
  - symmetry. now apply bool_ne_false.
  - now apply read_insert_eq.
Qed.

Lemma scanSlot_slot_other (io : Pins) (i j : nat) (acc : State * bool) :
  i <> j ->
  read (slotOccupied (fst (scanSlot pinsOf hook io i acc))) j
  = read (slotOccupied (fst acc)) j.
Proof.
  intros H.
  destruct (scanSlot_cases io i acc) as [[_ ->] | (_ & _ & -> & _)]; [auto |].
  now apply read_insert_ne.
Qed.

Lemma scanFrom_prev_outside (io : Pins) (k : nat) :
  forall i j acc, (j < i)%nat ->
    read (previousSlotState (fst (scanFrom pinsOf hook k i io acc))) j
    = read (previousSlotState (fst acc)) j.
Proof.
  induction k as [| k IH]; intros i j acc H; simpl; [reflexivity |].
  rewrite IH by lia. apply scanSlot_prev_other. lia.
Qed.

Lemma scanFrom_slot_outside (io : Pins) (k : nat) :
  forall i j acc, (j < i)%nat ->
    read (slotOccupied (fst (scanFrom pinsOf hook k i io acc))) j
    = read (slotOccupied (fst acc)) j.
Proof.
  induction k as [| k IH]; intros i j acc H; simpl; [reflexivity |].
  rewrite IH by lia. apply scanSlot_slot_other. lia.
Qed.

(** After the pass, the recorded reading of every scanned channel is the
    sample of this pass. *)
Lemma scanFrom_prev_inside (io : Pins) (k : nat) :
  forall i j acc, (i <= j < i + k)%nat ->
    (j < length (previousSlotState (fst acc)))%nat ->
    read (previousSlotState (fst (scanFrom pinsOf hook k i io acc))) j
    = currentStateOf pinsOf io j.
Proof.
  induction k as [| k IH]; intros i j acc H Hlen; simpl; [lia |].
  destruct (decide (i = j)) as [E | Hne].
  - subst j. rewrite scanFrom_prev_outside by lia. now apply scanSlot_prev_same.
  - apply IH; [lia |].
    destruct (scanSlot_cases io i acc) as [[_ ->] | (_ & _ & _ & ->)]; [auto |].
    now rewrite length_insert.
Qed.

(** A slot's occupancy is rewritten exactly when its sample differs from the
    recorded reading. *)
Lemma scanFrom_slot_inside (io : Pins) (k : nat) :
  forall i j acc, (i <= j < i + k)%nat ->
    (j < length (slotOccupied (fst acc)))%nat ->
    read (slotOccupied (fst (scanFrom pinsOf hook k i io acc))) j
    = if bool_ne (currentStateOf pinsOf io j) (read (previousSlotState (fst acc)) j)
      then currentStateOf pinsOf io j
      else read (slotOccupied (fst acc)) j.
Proof.
  induction k as [| k IH]; intros i j acc H Hlen; simpl; [lia |].
  destruct (decide (i = j)) as [E | Hne].
  - subst j. clear IH.
    rewrite scanFrom_slot_outside by lia.
    destruct (scanSlot_cases io i acc) as [[E ->] | (E & _ & -> & _)]; rewrite E.
    + reflexivity.
    + now apply read_insert_eq.
  - rewrite IH; [| lia |].
    + now rewrite scanSlot_prev_other, scanSlot_slot_other.
    + destruct (scanSlot_cases io i acc) as [[_ ->] | (_ & _ & -> & _)]; [auto |].
      now rewrite length_insert.
Qed.

Lemma edgesOf_app (j : nat) (l1 l2 : list Msg) :
  edgesOf j (l1 ++ l2) = edgesOf j l1 ++ edgesOf j l2.
Proof. apply List.filter_app. Qed.

Lemma scanSlot_serial (io : Pins) (i : nat) (acc : State * bool) :
  exists new,
    serial (fst (scanSlot pinsOf hook io i acc)) = serial (fst acc) ++ new /\
    forall j, edgesOf j new
      = if Nat.eqb j i
        then edgeFor i (currentStateOf pinsOf io i) (read (previousSlotState (fst acc)) i)
        else [].
Proof.
  unfold scanSlot, edgeFor.
  destruct (bool_ne _ _).
  - destruct (currentStateOf pinsOf io i); simpl.
    + eexists; split; [reflexivity |]. intros j. unfold edgesOf. simpl.
      now destruct (Nat.eqb j i).
    + destruct (hook_serial (Serial_println (SlotAvailableMsg i)
        (set_slotOccupied (<[i := false]> (slotOccupied (fst acc)))
          (set_previousSlotState (<[i := false]> (previousSlotState (fst acc)))
            (fst acc))))) as (extra & -> & Hextra).
      simpl. rewrite <- app_assoc. eexists; split; [reflexivity |].
      intros j. rewrite edgesOf_app, Hextra, app_nil_r. unfold edgesOf. simpl.
      now destruct (Nat.eqb j i).
  - exists []. rewrite app_nil_r. split; [reflexivity |]. intros j.
    now destruct (Nat.eqb j i).
Qed.

(** The edge lines of a pass: for each scanned channel, one line if its
    sample differs from the recorded reading, none otherwise. *)
Lemma scanFrom_serial (io : Pins) (k : nat) :
  forall i acc, exists new,
    serial (fst (scanFrom pinsOf hook k i io acc)) = serial (fst acc) ++ new /\
    forall j, edgesOf j new
      = if (i <=? j)%nat && (j <? i + k)%nat
        then edgeFor j (currentStateOf pinsOf io j) (read (previousSlotState (fst acc)) j)
        else [].
Proof.
  induction k as [| k IH]; intros i acc; simpl.
  - exists []. rewrite app_nil_r. split; [reflexivity |]. intros j.
    destruct (Nat.leb_spec i j), (Nat.ltb_spec j (i + 0)); simpl; auto; lia.
  - destruct (IH (S i) (scanSlot pinsOf hook io i acc)) as (new2 & -> & H2).
    destruct (scanSlot_serial io i acc) as (new1 & -> & H1).
    exists (new1 ++ new2). rewrite app_assoc. split; [reflexivity |].
    intros j. rewrite edgesOf_app, H1, H2.
    destruct (Nat.eqb_spec j i) as [E | Hne].
    + subst j.
      replace ((S i <=? i)%nat && (i <? S i + k)%nat) with false
        by (symmetry; apply andb_false_iff; left; apply Nat.leb_gt; lia).
      replace ((i <=? i)%nat && (i <? i + S k)%nat) with true
        by (symmetry; apply andb_true_iff; split;
            [apply Nat.leb_le | apply Nat.ltb_lt]; lia).
      apply app_nil_r.
    + rewrite scanSlot_prev_other by auto.
      replace ((S i <=? j)%nat && (j <? S i + k)%nat)
        with ((i <=? j)%nat && (j <? i + S k)%nat); [reflexivity |].
      apply eq_true_iff_eq.
      rewrite !andb_true_iff, !Nat.leb_le, !Nat.ltb_lt. lia.
Qed.

End ScanFacts.

(** ** Frames of the barrier and button handlers *)

Lemma Serial_println_occupancy (m : Msg) (s : State) :
  occupancyView (Serial_println m s) = occupancyView s.
Proof. reflexivity. Qed.

Lemma openBarrier_occupancy (now : Z) (s : State) :
  occupancyView (openBarrier now s) = occupancyView s.
Proof. unfold openBarrier. now split_ifs. Qed.

Lemma closeBarrier_occupancy (s : State) :
  occupancyView (closeBarrier s) = occupancyView s.
Proof. unfold closeBarrier. now split_ifs. Qed.

Lemma handleBarrierTiming_occupancy (now : Z) (s : State) :
  occupancyView (handleBarrierTiming now s) = occupancyView s.
Proof.
  unfold handleBarrierTiming. split_ifs; auto using closeBarrier_occupancy.
Qed.

Lemma handleButtonPress_occupancy (level now : Z) (s : State) :
  occupancyView (handleButtonPress level now s) = occupancyView s.
Proof.
  unfold handleButtonPress, openBarrier, closeBarrier. simpl. now split_ifs.
Qed.

Lemma autoOpen_occupancy (now : Z) (s : State) :
  occupancyView (Barrier.autoOpen now s) = occupancyView s.
Proof. unfold Barrier.autoOpen, openBarrier. now split_ifs. Qed.

Lemma autoOpen_slots (now : Z) (s : State) :
  slotOccupied (Barrier.autoOpen now s) = slotOccupied s.
Proof. by_view (autoOpen_occupancy now s). Qed.

Lemma autoOpen_prev (now : Z) (s : State) :
  previousSlotState (Barrier.autoOpen now s) = previousSlotState s.
Proof. by_view (autoOpen_occupancy now s). Qed.

Lemma autoOpen_serial (now : Z) (s : State) :
  exists extra,
    serial (Barrier.autoOpen now s) = serial s ++ extra /\
    forall j, edgesOf j extra = [].
Proof.
  unfold Barrier.autoOpen, openBarrier.
  destruct (barrierOpen s); simpl.
  - exists []. now rewrite app_nil_r.
  - rewrite <- app_assoc. eexists; split; [reflexivity |]. reflexivity.
Qed.

(** ** The counters *)

Lemma occupiedSlots_cons (b : bool) (l : list bool) :
  occupiedSlots (b :: l) = (if b then 1 else 0) + occupiedSlots l.
Proof. unfold occupiedSlots. destruct b; simpl; lia. Qed.

Lemma countFrom_spec (k : nat) :
  forall i slots count,
    countFrom k i slots count = count + occupiedSlots (take k (drop i slots)).
Proof.
  induction k as [| k IH]; intros i slots count; simpl.
  - unfold occupiedSlots. simpl. lia.
  - rewrite IH. unfold read.
    destruct (slots !! i) as [b |] eqn:E; simpl.
    + rewrite (drop_S slots b i E). simpl. rewrite occupiedSlots_cons.
      destruct b; lia.
    + apply lookup_ge_None in E.
      rewrite !drop_ge by lia. now rewrite take_nil.
Qed.

Lemma countFrom_all (slots : list bool) :
  countFrom (length slots) 0 slots 0 = occupiedSlots slots.
Proof. rewrite countFrom_spec. simpl. now rewrite firstn_all. Qed.

Lemma updateOccupancyCounters_agree (n : nat) (s : State) :
  length (slotOccupied s) = n -> length (previousSlotState s) = n ->
  countersAgree n (updateOccupancyCounters n s).
Proof.
  intros H1 H2. unfold countersAgree, updateOccupancyCounters. simpl.
  subst n. rewrite countFrom_all. auto.
Qed.

Lemma updateLEDStatus_agree (n m : nat) (s : State) :
  countersAgree n s -> countersAgree n (updateLEDStatus m s).
Proof. unfold countersAgree, updateLEDStatus. now split_ifs. Qed.

Lemma countersAgree_view (n : nat) (s s' : State) :
  occupancyView s' = occupancyView s -> countersAgree n s -> countersAgree n s'.
Proof.
  unfold occupancyView, countersAgree. intros E. injection E as -> -> -> -> _ _ _ _.
  auto.
Qed.


Section LoopCounters.

Variable n : nat.
Variable pinsOf : list Z.
Variable hook : State -> State.
Hypothesis hook_view : forall s, occupancyView (hook s) = occupancyView s.

Lemma view_slots (s : State) : slotOccupied (hook s) = slotOccupied s.
Proof. by_view (hook_view s). Qed.

Lemma view_prev (s : State) : previousSlotState (hook s) = previousSlotState s.
Proof. by_view (hook_view s). Qed.

(** What the sensor loop leaves for the recount: arrays of the same
    length, counters untouched, and nothing touched at all if
    [stateChanged] stays false. *)
Lemma scanSensors_agree (io : Pins) (s : State) :
  countersAgree n s ->
  length (slotOccupied (fst (scanSensors n pinsOf hook io s))) = n /\
  length (previousSlotState (fst (scanSensors n pinsOf hook io s))) = n /\
  (snd (scanSensors n pinsOf hook io s) = false ->
   fst (scanSensors n pinsOf hook io s) = s).
Proof.
  intros (L1 & L2 & _). unfold scanSensors.
  destruct (scanFrom_lengths pinsOf hook view_slots view_prev io n 0 (s, false))
    as [-> ->].
  repeat split; auto.
  intros H. now rewrite (scanFrom_unchanged pinsOf hook view_slots view_prev).
Qed.

(** The tail of every [loop()]: recount and refresh the LEDs if the scan
    changed something.  [after] stands for the handlers that run in
    between. *)
Lemma recount_agree (m : nat) (io : Pins) (after : State -> State) (s : State) :
  (forall x, occupancyView (after x) = occupancyView x) ->
  countersAgree n s ->
  countersAgree n
    (if snd (scanSensors n pinsOf hook io s)
     then updateLEDStatus m (updateOccupancyCounters n (after (fst (scanSensors n pinsOf hook io s))))
     else after (fst (scanSensors n pinsOf hook io s))).
Proof.
  intros Hafter Hs.
  destruct (scanSensors_agree io s Hs) as (L1 & L2 & Hsame).
  destruct (snd (scanSensors n pinsOf hook io s)).
  - apply updateLEDStatus_agree, updateOccupancyCounters_agree.
    + rewrite <- L1. by_view (Hafter (fst (scanSensors n pinsOf hook io s))).
    + rewrite <- L2. by_view (Hafter (fst (scanSensors n pinsOf hook io s))).
  - rewrite Hsame by reflexivity.
    now apply (countersAgree_view n s).
Qed.

End LoopCounters.

Lemma initial_agree (n : nat) : countersAgree n (initial n).
Proof.
  unfold countersAgree, initial. simpl. rewrite !length_replicate.
  repeat split; try lia.
  unfold occupiedSlots. induction n as [| n IH]; simpl; auto.
Qed.

Lemma Barrier_loop_agree (t : Barrier.Tick) (s : State) :
  countersAgree Barrier.SENSOR_COUNT s ->
  countersAgree Barrier.SENSOR_COUNT (Barrier.loop t s).
Proof.
  intros H. unfold Barrier.loop, Barrier.readSensors.
  apply (recount_agree Barrier.SENSOR_COUNT Barrier.SENSOR_PINS
           (Barrier.autoOpen (Barrier.millisSensors t))
           (autoOpen_occupancy (Barrier.millisSensors t))
           Barrier.SENSOR_COUNT (Barrier.pins t)
           (fun x => handleBarrierTiming (Barrier.millisTiming t)
                       (handleButtonPress (digitalRead (Barrier.pins t) BUTTON_PIN)
                          (Barrier.millisButton t) x))); [| exact H].
  intros x. now rewrite handleBarrierTiming_occupancy, handleButtonPress_occupancy.
Qed.

Lemma Barrier_reachable_agree (s : State) :
  Barrier_reachable s -> countersAgree Barrier.SENSOR_COUNT s.
Proof.
  induction 1 as [now | t s _ IH].
  - (* setup writes the LED pins, the servo and the start time only *)
    exact (initial_agree Barrier.SENSOR_COUNT).
  - now apply Barrier_loop_agree.
Qed.

(** ** The admin handler of the web sketch *)

Lemma resetFrom_lengths (k : nat) :
  forall i s,
    length (slotOccupied (Web.resetFrom k i s)) = length (slotOccupied s) /\
    length (previousSlotState (Web.resetFrom k i s)) = length (previousSlotState s).
Proof.
  induction k as [| k IH]; intros i s; simpl; [auto |].
  destruct (IH (S i)
    (set_previousSlotState (<[i := false]> (previousSlotState s))
       (set_slotOccupied (<[i := false]> (slotOccupied s)) s))) as [-> ->].
  simpl. now rewrite !length_insert.
Qed.

(** The loop writes the two arrays and nothing else. *)
Lemma resetFrom_frame (k : nat) :
  forall i s,
    totalDetections (Web.resetFrom k i s) = totalDetections s /\
    systemStartTime (Web.resetFrom k i s) = systemStartTime s /\
    occupiedCount (Web.resetFrom k i s) = occupiedCount s /\
    availableSlots (Web.resetFrom k i s) = availableSlots s /\
    redLed (Web.resetFrom k i s) = redLed s /\
    greenLed (Web.resetFrom k i s) = greenLed s /\
    serial (Web.resetFrom k i s) = serial s /\
    barrierView (Web.resetFrom k i s) = barrierView s /\
    buttonView (Web.resetFrom k i s) = buttonView s.
Proof.
  induction k as [| k IH]; intros i s; simpl; [repeat split |].
  destruct (IH (S i)
    (set_previousSlotState (<[i := false]> (previousSlotState s))
       (set_slotOccupied (<[i := false]> (slotOccupied s)) s)))
    as (-> & -> & -> & -> & -> & -> & -> & -> & ->).
  repeat split.
Qed.

Lemma read_insert_false (l : list bool) (i j : nat) :
  read l j = false -> read (<[i := false]> l) j = false.
Proof.
  intros H. destruct (decide (i = j)) as [E | Hne].
  - subst j. unfold read in *.
    destruct (decide (i < length l)%nat).
    + now rewrite list_lookup_insert_eq.
    + now rewrite list_insert_ge by lia.
  - now rewrite read_insert_ne.
Qed.

Lemma read_insert_false_eq (l : list bool) (i : nat) :
  read (<[i := false]> l) i = false.
Proof.
  unfold read. destruct (decide (i < length l)%nat).
  - now rewrite list_lookup_insert_eq.
  - rewrite list_insert_ge by lia.
    now rewrite (proj2 (lookup_ge_None l i)) by lia.
Qed.

Lemma resetFrom_keeps_false (k : nat) :
  forall i s j,
    (read (slotOccupied s) j = false ->
     read (slotOccupied (Web.resetFrom k i s)) j = false) /\
    (read (previousSlotState s) j = false ->
     read (previousSlotState (Web.resetFrom k i s)) j = false).
Proof.
  induction k as [| k IH]; intros i s j; simpl; [auto |].
  split; intros H; apply IH; simpl; now apply read_insert_false.
Qed.

(** Every slot the loop visits ends vacant, in both arrays. *)
Lemma resetFrom_clears (k : nat) :
  forall i s j, (i <= j < i + k)%nat ->
    read (slotOccupied (Web.resetFrom k i s)) j = false /\
    read (previousSlotState (Web.resetFrom k i s)) j = false.
Proof.
  induction k as [| k IH]; intros i s j H; simpl; [lia |].
  destruct (decide (i = j)) as [E | Hne].
  - subst j. split; apply resetFrom_keeps_false; simpl; apply read_insert_false_eq.
  - apply IH. lia.
Qed.

Lemma countFrom_vacant (k : nat) :
  forall i slots count,
    (forall j, (i <= j < i + k)%nat -> read slots j = false) ->
    countFrom k i slots count = count.
Proof.
  induction k as [| k IH]; intros i slots count H; simpl; [reflexivity |].
  rewrite (H i) by lia. apply IH. intros j Hj. apply H. lia.
Qed.

Lemma String_eqb_neq (a b : string) : a <> b -> String.eqb a b = false.
Proof. intros H. now apply String.eqb_neq. Qed.

Lemma handleAdminAPI_agree (actionOf : string -> string) (plain : option string)
    (now : Z) (s : State) :
  countersAgree Web.SENSOR_COUNT s ->
  countersAgree Web.SENSOR_COUNT (fst (Web.handleAdminAPI actionOf plain now s)).
Proof.
  intros (L1 & L2 & H). unfold Web.handleAdminAPI.
  destruct plain as [body |]; [| unfold countersAgree; auto].
  destruct (String.eqb (actionOf body) "reset"); [| unfold countersAgree; auto].
  cbn [fst].
  apply (countersAgree_view _
    (updateLEDStatus Web.SENSOR_COUNT
       (updateOccupancyCounters Web.SENSOR_COUNT
          (Web.resetFrom Web.SENSOR_COUNT 0
             (set_systemStartTime now (set_totalDetections 0 s))))));
    [apply Serial_println_occupancy |].
  apply updateLEDStatus_agree, updateOccupancyCounters_agree.
  - now rewrite (proj1 (resetFrom_lengths _ _ _)).
  - now rewrite (proj2 (resetFrom_lengths _ _ _)).
Qed.

Lemma handleClient_agree (actionOf : string -> string) (t : Web.Tick) (s : State) :
  countersAgree Web.SENSOR_COUNT s ->
  countersAgree Web.SENSOR_COUNT (fst (Web.handleClient actionOf t s)).
Proof.
  intros H. unfold Web.handleClient.
  destruct (Web.request t) as [[| | | plain] |]; simpl; auto.
  now apply handleAdminAPI_agree.
Qed.

Lemma Web_loop_agree (actionOf : string -> string) (t : Web.Tick) (s : State) :
  countersAgree Web.SENSOR_COUNT s ->
  countersAgree Web.SENSOR_COUNT (fst (Web.loop actionOf t s)).
Proof.
  intros H. unfold Web.loop, Web.readSensors. cbn [fst].
  apply (recount_agree Web.SENSOR_COUNT Web.SENSOR_PINS (fun s' => s')
           (fun _ => eq_refl) Web.SENSOR_COUNT (Web.pins t) (fun x => x)
           (fst (Web.handleClient actionOf t s)) (fun _ => eq_refl)).
  now apply handleClient_agree.
Qed.

Lemma Web_reachable_agree (actionOf : string -> string) (s : State) :
  Web_reachable actionOf s -> countersAgree Web.SENSOR_COUNT s.
Proof.
  induction 1 as [now | t s _ IH].
  - exact (initial_agree Web.SENSOR_COUNT).
  - now apply Web_loop_agree.
Qed.

Lemma Lot6_updateLEDStatus_agree (s : State) :
  countersAgree Lot6.SENSOR_COUNT s ->
  countersAgree Lot6.SENSOR_COUNT (Lot6.updateLEDStatus s).
Proof. unfold countersAgree, Lot6.updateLEDStatus. now split_ifs. Qed.

Lemma Lot6_loop_agree (io : Pins) (s : State) :
  countersAgree Lot6.SENSOR_COUNT s ->
  countersAgree Lot6.SENSOR_COUNT (Lot6.loop io s).
Proof.
  intros H. unfold Lot6.loop, Lot6.readSensors.
  destruct (scanSensors_agree Lot6.SENSOR_COUNT Lot6.SENSOR_PINS (fun s' => s')
              (fun _ => eq_refl) io s H) as (L1 & L2 & Hsame).
  destruct (snd (scanSensors _ _ _ io s)).
  - now apply Lot6_updateLEDStatus_agree, updateOccupancyCounters_agree.
  - now rewrite Hsame.
Qed.

Lemma Lot6_reachable_agree (s : State) :
  Lot6_reachable s -> countersAgree Lot6.SENSOR_COUNT s.
Proof.
  induction 1 as [now | io s _ IH].
  - exact (initial_agree Lot6.SENSOR_COUNT).
  - now apply Lot6_loop_agree.
Qed.

(** C4.  Between two passes of any of the sketches, [occupiedCount] is the
    number of slots marked occupied and [availableSlots] is the slot count
    minus it, so the two add up to the slot count; and the counters come
    from a recount that reads the slot array only: the values the counters
    held before do not enter the result. *)
Theorem counters_agree_with_slots :
  (forall s, Barrier_reachable s ->
     countersAgree Barrier.SENSOR_COUNT s /\
     occupiedCount s + availableSlots s = Z.of_nat Barrier.SENSOR_COUNT) /\
  (forall actionOf s, Web_reachable actionOf s ->
     countersAgree Web.SENSOR_COUNT s /\
     occupiedCount s + availableSlots s = Z.of_nat Web.SENSOR_COUNT) /\
  (forall s, Lot6_reachable s ->
     countersAgree Lot6.SENSOR_COUNT s /\
     occupiedCount s + availableSlots s = Z.of_nat Lot6.SENSOR_COUNT) /\
  (forall n s occupied available,
     let stale := set_availableSlots available (set_occupiedCount occupied s) in
     occupiedCount (updateOccupancyCounters n stale)
       = occupiedCount (updateOccupancyCounters n s) /\
     availableSlots (updateOccupancyCounters n stale)
       = availableSlots (updateOccupancyCounters n s) /\
     (length (slotOccupied s) = n ->
      occupiedCount (updateOccupancyCounters n s) = occupiedSlots (slotOccupied s))).
Proof.
  assert (Hsum : forall n s, countersAgree n s ->
            countersAgree n s /\ occupiedCount s + availableSlots s = Z.of_nat n).
  { intros n s H. split; [exact H |]. destruct H as (_ & _ & _ & ->). lia. }
  split; [| split; [| split]].
  - intros s H. apply Hsum. now apply Barrier_reachable_agree.
  - intros actionOf s H. apply Hsum. now apply (Web_reachable_agree actionOf).
  - intros s H. apply Hsum. now apply Lot6_reachable_agree.
  - intros n s occupied available stale. split; [reflexivity |]. split; [reflexivity |].
    intros <-. simpl. apply countFrom_all.
Qed.

Lemma counters_agree_witness :
  countersAgree Barrier.SENSOR_COUNT
    (Barrier.loop (tickAt (lowPin 4) 2200) (Barrier.setup 2000)) /\
  occupiedCount (Barrier.loop (tickAt (lowPin 4) 2200) (Barrier.setup 2000))
  + availableSlots (Barrier.loop (tickAt (lowPin 4) 2200) (Barrier.setup 2000))
  = Z.of_nat Barrier.SENSOR_COUNT.
Proof.
  apply (proj1 counters_agree_with_slots).
  apply Barrier_reach_loop, Barrier_reach_setup.
Defined.

(** Scenario 2 of the specification: slot 0 becomes occupied, one slot is
    counted, the barrier stays closed. *)
Example one_car_parks :
  let s := Barrier.loop (tickAt (lowPin 4) 2200) (Barrier.setup 2000) in
  slotOccupied s = [true; false; false] /\ occupiedCount s = 1 /\
  availableSlots s = 2 /\ barrierOpen s = false /\
  redLed s = LOW /\ greenLed s = HIGH.
Proof. vm_compute. repeat split. Qed.

(** Scenario 1 of the specification: after [setup()] no slot is counted,
    the green LED is lit and the barrier is closed. *)
Example after_setup :
  let s := Barrier.setup 2000 in
  occupiedCount s = 0 /\ availableSlots s = 3 /\
  redLed s = LOW /\ greenLed s = HIGH /\ barrierOpen s = false.
Proof. vm_compute. repeat split. Qed.

(** Inside a pass the counters lag: between the sensor loop and the
    recount at the end of [loop()] the slot array is already updated. *)
Example counters_lag_inside_pass :
  let r := Barrier.readSensors 2200 (lowPin 4) (Barrier.setup 2000) in
  snd r = true /\ slotOccupied (fst r) = [true; false; false] /\
  occupiedCount (fst r) = 0 /\ availableSlots (fst r) = 3.
Proof. vm_compute. repeat split. Qed.

(** ** The LEDs *)

(** C5.  The LEDs are a function of [occupiedCount] alone with two values:
    red on and green off when every slot is occupied, green on and red off
    for every other count, zero included; this holds for the two-branch
    [updateLEDStatus] of the 3-slot sketches and for the three-branch one
    of the 6-slot sketch, and the function writes nothing but the two
    pins. *)
Theorem led_projection_is_binary (n : nat) (s : State) :
  (occupiedCount s = Z.of_nat n ->
   redLed (updateLEDStatus n s) = HIGH /\ greenLed (updateLEDStatus n s) = LOW) /\
  (occupiedCount s <> Z.of_nat n ->
   redLed (updateLEDStatus n s) = LOW /\ greenLed (updateLEDStatus n s) = HIGH) /\
  (occupiedCount s = Z.of_nat Lot6.SENSOR_COUNT ->
   redLed (Lot6.updateLEDStatus s) = HIGH /\ greenLed (Lot6.updateLEDStatus s) = LOW) /\
  (occupiedCount s <> Z.of_nat Lot6.SENSOR_COUNT ->
   redLed (Lot6.updateLEDStatus s) = LOW /\ greenLed (Lot6.updateLEDStatus s) = HIGH) /\
  (forall s2, occupiedCount s2 = occupiedCount s ->
     redLed (updateLEDStatus n s2) = redLed (updateLEDStatus n s) /\
     greenLed (updateLEDStatus n s2) = greenLed (updateLEDStatus n s)) /\
  (slotOccupied (updateLEDStatus n s), previousSlotState (updateLEDStatus n s),
   occupiedCount (updateLEDStatus n s), availableSlots (updateLEDStatus n s),
   totalDetections (updateLEDStatus n s), systemStartTime (updateLEDStatus n s),
   serial (updateLEDStatus n s))
  = (slotOccupied s, previousSlotState s, occupiedCount s, availableSlots s,
     totalDetections s, systemStartTime s, serial s) /\
  barrierView (updateLEDStatus n s) = barrierView s /\
  buttonView (updateLEDStatus n s) = buttonView s.
Proof.
  unfold updateLEDStatus, Lot6.updateLEDStatus.
  repeat apply conj.
  - intros ->. now rewrite Z.eqb_refl.
  - intros H. apply Z.eqb_neq in H. now rewrite H.
  - intros ->. now rewrite Z.eqb_refl.
  - intros H. apply Z.eqb_neq in H. rewrite H. now destruct (occupiedCount s =? 0).
  - intros s2 ->. now destruct (occupiedCount s =? Z.of_nat n).
  - now destruct (occupiedCount s =? Z.of_nat n).
  - now destruct (occupiedCount s =? Z.of_nat n).
  - now destruct (occupiedCount s =? Z.of_nat n).
Qed.

Lemma led_projection_witness :
  (redLed (updateLEDStatus 3 (set_occupiedCount 3 (initial 3))) = HIGH /\
   greenLed (updateLEDStatus 3 (set_occupiedCount 3 (initial 3))) = LOW) /\
  (redLed (updateLEDStatus 3 (set_occupiedCount 0 (initial 3))) = LOW /\
   greenLed (updateLEDStatus 3 (set_occupiedCount 0 (initial 3))) = HIGH) /\
  (redLed (Lot6.updateLEDStatus (set_occupiedCount 6 (initial 6))) = HIGH /\
   greenLed (Lot6.updateLEDStatus (set_occupiedCount 6 (initial 6))) = LOW) /\
  (redLed (Lot6.updateLEDStatus (set_occupiedCount 2 (initial 6))) = LOW /\
   greenLed (Lot6.updateLEDStatus (set_occupiedCount 2 (initial 6))) = HIGH).
Proof.
  split; [| split; [| split]].
  - destruct (led_projection_is_binary 3 (set_occupiedCount 3 (initial 3)))
      as (H & _). apply H. reflexivity.
  - destruct (led_projection_is_binary 3 (set_occupiedCount 0 (initial 3)))
      as (_ & H & _). apply H. intros E; discriminate E.
  - destruct (led_projection_is_binary 3 (set_occupiedCount 6 (initial 6)))
      as (_ & _ & H & _). apply H. reflexivity.
  - destruct (led_projection_is_binary 3 (set_occupiedCount 2 (initial 6)))
      as (_ & _ & _ & H & _). apply H. intros E; discriminate E.
Defined.

(** Scenario 6 of the specification: with every slot occupied the red LED
    is lit; as soon as one slot is vacated the green one is. *)
Example full_then_one_leaves :
  let full := Lot6.loop (fun _ => LOW) (Lot6.setup 2000) in
  let one_left := Lot6.loop (fun q => if q =? 18 then HIGH else LOW) full in
  occupiedCount full = 6 /\ redLed full = HIGH /\ greenLed full = LOW /\
  occupiedCount one_left = 5 /\ redLed one_left = LOW /\ greenLed one_left = HIGH.
Proof. vm_compute. repeat split. Qed.

(** ** The admin interface *)

(** C9.  The reset action of the admin API marks every slot vacant (in
    both arrays), zeroes [totalDetections], sets [systemStartTime] to the
    current [millis()] (the uptime served from then on starts at zero) and
    recounts, so [occupiedCount] is 0 and [availableSlots] the slot count;
    it writes neither the barrier position, nor its opening time, nor the
    servo. *)
Theorem admin_reset_leaves_barrier (actionOf : string -> string) (body : string)
    (now : Z) (s : State) :
  actionOf body = "reset"%string ->
  let s' := fst (Web.handleAdminAPI actionOf (Some body) now s) in
  (forall i, (i < Web.SENSOR_COUNT)%nat ->
     read (slotOccupied s') i = false /\ read (previousSlotState s') i = false) /\
  totalDetections s' = 0 /\
  systemStartTime s' = now /\
  ulong_sub now (systemStartTime s') / 1000 = 0 /\
  barrierView s' = barrierView s /\
  occupiedCount s' = 0 /\
  availableSlots s' = Z.of_nat Web.SENSOR_COUNT.
Proof.
  intros Haction s'. subst s'. unfold Web.handleAdminAPI.
  rewrite Haction. cbn [String.eqb Ascii.eqb Bool.eqb fst].
  set (s2 := set_systemStartTime now (set_totalDetections 0 s)).
  pose proof (resetFrom_frame Web.SENSOR_COUNT 0 s2)
    as (Htotal & Hstart & _ & _ & _ & _ & _ & Hbarrier & _).
  assert (Hcount : countFrom Web.SENSOR_COUNT 0
            (slotOccupied (Web.resetFrom Web.SENSOR_COUNT 0 s2)) 0 = 0).
  { apply countFrom_vacant. intros j Hj. now apply resetFrom_clears. }
  unfold updateLEDStatus, updateOccupancyCounters.
  rewrite Hcount.
  repeat apply conj.
  - intros i Hi.
    destruct (resetFrom_clears Web.SENSOR_COUNT 0 s2 i) as [H1 H2]; [lia |].
    split; [exact H1 | exact H2].
  - exact Htotal.
  - exact Hstart.
  - change (ulong_sub now (systemStartTime (Web.resetFrom Web.SENSOR_COUNT 0 s2)) / 1000 = 0).
    rewrite Hstart. simpl. now rewrite ulong_sub_self.
  - exact Hbarrier.
  - reflexivity.
  - reflexivity.
Qed.

Lemma admin_reset_witness :
  let s := fst (Web.loop (fun b => b) (quietTick (lowPin 5)) (Web.setup 1000)) in
  let s' := fst (Web.handleAdminAPI (fun b => b) (Some "reset"%string) 7000 s) in
  (forall i, (i < Web.SENSOR_COUNT)%nat ->
     read (slotOccupied s') i = false /\ read (previousSlotState s') i = false) /\
  totalDetections s' = 0 /\
  systemStartTime s' = 7000 /\
  ulong_sub 7000 (systemStartTime s') / 1000 = 0 /\
  barrierView s' = barrierView s /\
  occupiedCount s' = 0 /\
  availableSlots s' = Z.of_nat Web.SENSOR_COUNT.
Proof.
  intros s.
  apply (admin_reset_leaves_barrier (fun b => b) "reset"%string 7000 s).
  reflexivity.
Defined.

(** The state the reset above starts from has a car in slot A2 and one
    detection counted; the reset answers with [success]. *)
Example admin_reset_run :
  let s := fst (Web.loop (fun b => b) (quietTick (lowPin 5)) (Web.setup 1000)) in
  let r := Web.handleAdminAPI (fun b => b) (Some "reset"%string) 7000 s in
  slotOccupied s = [false; true; false] /\ occupiedCount s = 1 /\
  totalDetections s = 1 /\ systemStartTime s = 1000 /\
  slotOccupied (fst r) = [false; false; false] /\
  previousSlotState (fst r) = [false; false; false] /\
  greenLed (fst r) = HIGH /\ redLed (fst r) = LOW /\
  snd r = {| Web.code := 200; Web.contentType := "application/json";
             Web.content := Web.Document
               [("success", Web.JBool true);
                ("message", Web.JStr "System reset successfully")]%string |}.
Proof. vm_compute. repeat split. Qed.

(** C10.  A request to the admin API whose action is not [reset] changes
    no global at all and is answered 200 with [success] false and the
    message [Unknown action]; a request without a body changes no global
    either and is answered 400. *)
Theorem admin_other_requests_change_nothing (actionOf : string -> string)
    (now : Z) (s : State) :
  (forall body, actionOf body <> "reset"%string ->
     Web.handleAdminAPI actionOf (Some body) now s
     = (s, {| Web.code := 200; Web.contentType := "application/json";
              Web.content := Web.Document
                [("success", Web.JBool false);
                 ("message", Web.JStr "Unknown action")]%string |})) /\
  Web.handleAdminAPI actionOf None now s
  = (s, {| Web.code := 400; Web.contentType := "application/json";
           Web.content := Web.Text Web.invalidRequestText |}).
Proof.
  split; [| reflexivity].
  intros body H. unfold Web.handleAdminAPI.
  now rewrite (String_eqb_neq _ _ H).
Qed.

Lemma admin_other_requests_witness :
  let s := fst (Web.loop (fun b => b) (quietTick (lowPin 5)) (Web.setup 1000)) in
  Web.handleAdminAPI (fun b => b) (Some "open"%string) 7000 s
  = (s, {| Web.code := 200; Web.contentType := "application/json";
           Web.content := Web.Document
             [("success", Web.JBool false);
              ("message", Web.JStr "Unknown action")]%string |}).
Proof.
  intros s.
  apply (proj1 (admin_other_requests_change_nothing (fun b => b) 7000 s)).
  intros E; discriminate E.
Defined.

(** ** The barrier in the sensor loop *)

Lemma vacatedIn_spec (pinsOf : list Z) (io : Pins) (prev : list bool) (k : nat) :
  forall i,
    vacatedIn pinsOf io prev i k = true <->
    exists j, (i <= j < i + k)%nat /\
              currentStateOf pinsOf io j = false /\ read prev j = true.
Proof.
  unfold vacatedIn. intros i. rewrite existsb_exists. split.
  - intros (j & Hin & H). apply in_seq in Hin.
    apply andb_true_iff in H as [H1 H2]. apply negb_true_iff in H1. eauto.
  - intros (j & Hj & H1 & H2). exists j. split; [apply in_seq; lia |].
    now rewrite H1, H2.
Qed.

Lemma vacatedIn_ext (pinsOf : list Z) (io : Pins) (p1 p2 : list bool) (i k : nat) :
  (forall j, (i <= j < i + k)%nat -> read p1 j = read p2 j) ->
  vacatedIn pinsOf io p1 i k = vacatedIn pinsOf io p2 i k.
Proof.
  intros H. apply eq_true_iff_eq. rewrite !vacatedIn_spec.
  split; intros (j & Hj & H1 & H2); exists j;
    (split; [exact Hj | split; [exact H1 |]]).
  - now rewrite <- (H j Hj).
  - now rewrite (H j Hj).
Qed.

Lemma autoOpen_barrier (now : Z) (s : State) :
  barrierView (Barrier.autoOpen now s)
  = if barrierOpen s then barrierView s
    else (true, now, servo s ++ [BARRIER_OPEN_ANGLE]).
Proof. unfold Barrier.autoOpen, openBarrier. now destruct (barrierOpen s). Qed.

Lemma Barrier_scanSlot_barrier (now : Z) (io : Pins) (i : nat) (acc : State * bool) :
  barrierView (fst (scanSlot Barrier.SENSOR_PINS (Barrier.autoOpen now) io i acc))
  = if barrierOpen (fst acc) then barrierView (fst acc)
    else if negb (currentStateOf Barrier.SENSOR_PINS io i)
            && read (previousSlotState (fst acc)) i
         then (true, now, servo (fst acc) ++ [BARRIER_OPEN_ANGLE])
         else barrierView (fst acc).
Proof.
  unfold scanSlot.
  destruct (currentStateOf Barrier.SENSOR_PINS io i),
    (read (previousSlotState (fst acc)) i); unfold bool_ne; simpl;
    try (now destruct (barrierOpen (fst acc))).
  rewrite autoOpen_barrier. simpl. now destruct (barrierOpen (fst acc)).
Qed.

(** The barrier after the sensor loop: untouched if it was open or no
    channel was vacated, opened otherwise. *)
Lemma Barrier_scanFrom_barrier (now : Z) (io : Pins) (k : nat) :
  forall i acc,
    barrierView (fst (scanFrom Barrier.SENSOR_PINS (Barrier.autoOpen now) k i io acc))
    = if barrierOpen (fst acc) then barrierView (fst acc)
      else if vacatedIn Barrier.SENSOR_PINS io (previousSlotState (fst acc)) i k
           then (true, now, servo (fst acc) ++ [BARRIER_OPEN_ANGLE])
           else barrierView (fst acc).
Proof.
  induction k as [| k IH]; intros i acc.
  - simpl. now destruct (barrierOpen (fst acc)).
  - cbn [scanFrom]. rewrite IH. clear IH.
    pose proof (Barrier_scanSlot_barrier now io i acc) as Hstep.
    assert (Hrest : vacatedIn Barrier.SENSOR_PINS io
              (previousSlotState
                 (fst (scanSlot Barrier.SENSOR_PINS (Barrier.autoOpen now) io i acc)))
              (S i) k
            = vacatedIn Barrier.SENSOR_PINS io (previousSlotState (fst acc)) (S i) k).
    { apply vacatedIn_ext. intros j Hj.
      apply scanSlot_prev_other;
        [apply autoOpen_slots | apply autoOpen_prev | lia]. }
    rewrite Hrest.
    change (vacatedIn Barrier.SENSOR_PINS io (previousSlotState (fst acc)) i (S k))
      with (negb (currentStateOf Barrier.SENSOR_PINS io i)
              && read (previousSlotState (fst acc)) i
            || vacatedIn Barrier.SENSOR_PINS io (previousSlotState (fst acc)) (S i) k).
    set (acc' := scanSlot Barrier.SENSOR_PINS (Barrier.autoOpen now) io i acc) in *.
    unfold barrierView in *.
    destruct (barrierOpen (fst acc)).
    + injection Hstep as -> -> ->. reflexivity.
    + destruct (negb (currentStateOf Barrier.SENSOR_PINS io i)
                && read (previousSlotState (fst acc)) i).
      * injection Hstep as -> -> ->. reflexivity.
      * injection Hstep as -> -> ->. reflexivity.
Qed.

(** ** Edge lines of one pass *)
Section ScanEdges.

Variable n : nat.
Variable pinsOf : list Z.
Variable hook : State -> State.
Hypothesis hook_slots : forall s, slotOccupied (hook s) = slotOccupied s.
Hypothesis hook_prev : forall s, previousSlotState (hook s) = previousSlotState s.
Hypothesis hook_serial : forall s, exists extra,
  serial (hook s) = serial s ++ extra /\ forall j, edgesOf j extra = [].

Lemma scanSensors_edges (io : Pins) (s : State) (j : nat) :
  edgesOf j (emitted s (fst (scanSensors n pinsOf hook io s)))
  = if (j <? n)%nat
    then edgeFor j (currentStateOf pinsOf io j) (read (previousSlotState s) j)
    else [].
Proof.
  unfold scanSensors, emitted.
  destruct (scanFrom_serial pinsOf hook hook_slots hook_prev hook_serial io n 0 (s, false))
    as (new & -> & Hnew).
  cbn [fst]. rewrite drop_app_length, Hnew. reflexivity.
Qed.

Lemma scanSensors_recorded (io : Pins) (s : State) (j : nat) :
  (j < n)%nat -> length (previousSlotState s) = n ->
  read (previousSlotState (fst (scanSensors n pinsOf hook io s))) j
  = currentStateOf pinsOf io j.
Proof.
  intros Hj Hlen. unfold scanSensors.
  apply (scanFrom_prev_inside pinsOf hook hook_slots hook_prev); cbn [fst]; lia.
Qed.

Lemma scanSensors_slot (io : Pins) (s : State) (j : nat) :
  (j < n)%nat -> length (slotOccupied s) = n ->
  read (slotOccupied (fst (scanSensors n pinsOf hook io s))) j
  = if bool_ne (currentStateOf pinsOf io j) (read (previousSlotState s) j)
    then currentStateOf pinsOf io j
    else read (slotOccupied s) j.
Proof.
  intros Hj Hlen. unfold scanSensors.
  apply (scanFrom_slot_inside pinsOf hook hook_slots hook_prev io n 0 j (s, false));
    cbn [fst]; lia.
Qed.

(** The rule of the sensor loop, for any of its instances: one edge line
    when the sample differs from the recorded reading, none otherwise, and
    the sample becomes the recorded reading. *)
Lemma scanSensors_edge_rule (io : Pins) (s : State) (j : nat) :
  (j < n)%nat -> length (previousSlotState s) = n ->
  edgesOf j (emitted s (fst (scanSensors n pinsOf hook io s)))
    = edgeFor j (currentStateOf pinsOf io j) (read (previousSlotState s) j) /\
  (length (edgesOf j (emitted s (fst (scanSensors n pinsOf hook io s)))) <= 1)%nat /\
  read (previousSlotState (fst (scanSensors n pinsOf hook io s))) j
    = currentStateOf pinsOf io j /\
  (forall io2, currentStateOf pinsOf io2 j = currentStateOf pinsOf io j ->
     edgesOf j (emitted (fst (scanSensors n pinsOf hook io s))
                  (fst (scanSensors n pinsOf hook io2
                          (fst (scanSensors n pinsOf hook io s))))) = []).
Proof.
  intros Hj Hlen.
  assert (Hlt : (j <? n)%nat = true) by now apply Nat.ltb_lt.
  repeat apply conj.
  - now rewrite scanSensors_edges, Hlt.
  - rewrite scanSensors_edges, Hlt. unfold edgeFor. destruct (bool_ne _ _); simpl; lia.
  - now apply scanSensors_recorded.
  - intros io2 Hsame.
    rewrite scanSensors_edges, Hlt, scanSensors_recorded, Hsame by assumption.
    unfold edgeFor.
    now rewrite (proj2 (bool_ne_false _ _) eq_refl).
Qed.

End ScanEdges.

Lemma In_edgesOf_available (j : nat) (l : list Msg) :
  In (SlotAvailableMsg j) l <-> In (SlotAvailableMsg j) (edgesOf j l).
Proof.
  unfold edgesOf. rewrite List.filter_In. simpl. rewrite Nat.eqb_refl. tauto.
Qed.

Lemma In_edgeFor_available (j : nat) (cur prev : bool) :
  In (SlotAvailableMsg j) (edgeFor j cur prev) <-> cur = false /\ prev = true.
Proof.
  unfold edgeFor, bool_ne. destruct cur, prev; simpl; intuition congruence.
Qed.

(** A "vacated" line of channel [j] is printed in a pass of the barrier
    sketch's sensor loop exactly when [j] is a channel of the sketch whose
    sample reads vacant while it is recorded occupied. *)
Lemma Barrier_vacated_line (now : Z) (io : Pins) (s : State) (j : nat) :
  In (SlotAvailableMsg j) (emitted s (fst (Barrier.readSensors now io s))) <->
  (j < Barrier.SENSOR_COUNT)%nat /\
  currentStateOf Barrier.SENSOR_PINS io j = false /\
  read (previousSlotState s) j = true.
Proof.
  rewrite In_edgesOf_available. unfold Barrier.readSensors.
  rewrite (scanSensors_edges Barrier.SENSOR_COUNT Barrier.SENSOR_PINS
             (Barrier.autoOpen now) (autoOpen_slots now) (autoOpen_prev now)
             (autoOpen_serial now)).
  destruct (Nat.ltb_spec j Barrier.SENSOR_COUNT).
  - rewrite In_edgeFor_available. tauto.
  - simpl. split; [tauto | lia].
Qed.

Lemma Barrier_vacated_lines (now : Z) (io : Pins) (s : State) :
  (exists j, In (SlotAvailableMsg j) (emitted s (fst (Barrier.readSensors now io s)))) <->
  vacatedIn Barrier.SENSOR_PINS io (previousSlotState s) 0 Barrier.SENSOR_COUNT = true.
Proof.
  rewrite vacatedIn_spec. split.
  - intros (j & H). apply Barrier_vacated_line in H as (H1 & H2 & H3).
    exists j. repeat split; auto; lia.
  - intros (j & H1 & H2 & H3). exists j. apply Barrier_vacated_line.
    repeat split; auto; lia.
Qed.

(** C6.  In a pass of the sensor loop that starts with the barrier
    closed: if a "vacated" edge is reported for some slot, the loop leaves
    the barrier open with [barrierOpenTime] the current [millis()] and one
    servo command issued; if none is reported (the edges of the pass, if
    any, are all "occupied" ones), position, opening time and servo are
    untouched.  A "vacated" line for slot [j] means that [j]'s sample reads
    vacant while its recorded reading is occupied. *)
Theorem auto_open_only_on_vacated (now : Z) (io : Pins) (s : State) :
  barrierOpen s = false ->
  let s' := fst (Barrier.readSensors now io s) in
  ((exists j, In (SlotAvailableMsg j) (emitted s s')) ->
   barrierOpen s' = true /\ barrierOpenTime s' = now /\
   servo s' = servo s ++ [BARRIER_OPEN_ANGLE]) /\
  (~ (exists j, In (SlotAvailableMsg j) (emitted s s')) ->
   barrierView s' = barrierView s) /\
  (forall j, In (SlotAvailableMsg j) (emitted s s') <->
     (j < Barrier.SENSOR_COUNT)%nat /\
     currentStateOf Barrier.SENSOR_PINS io j = false /\
     read (previousSlotState s) j = true).
Proof.
  intros Hclosed s'. subst s'.
  pose proof (Barrier_scanFrom_barrier now io Barrier.SENSOR_COUNT 0 (s, false)) as Hb.
  cbn [fst] in Hb. rewrite Hclosed in Hb.
  fold (scanSensors Barrier.SENSOR_COUNT Barrier.SENSOR_PINS (Barrier.autoOpen now) io s) in Hb.
  fold (Barrier.readSensors now io s) in Hb.
  repeat apply conj.
  - intros H. apply Barrier_vacated_lines in H. rewrite H in Hb.
    unfold barrierView in Hb. injection Hb as -> -> ->. auto.
  - intros H. rewrite Barrier_vacated_lines in H.
    apply not_true_is_false in H. now rewrite H in Hb.
  - intros j. apply Barrier_vacated_line.
Qed.

Lemma auto_open_witness :
  let s := Barrier.loop (tickAt (lowPin 5) 2200) (Barrier.setup 2000) in
  let s' := fst (Barrier.readSensors 2400 idlePins s) in
  barrierOpen s' = true /\ barrierOpenTime s' = 2400 /\
  servo s' = servo s ++ [BARRIER_OPEN_ANGLE].
Proof.
  intros s s'.
  destruct (auto_open_only_on_vacated 2400 idlePins s eq_refl) as (H & _).
  apply H. exists 1%nat. vm_compute. left. reflexivity.
Defined.

(** Scenarios 3 and 4 of the specification: slot A2, occupied, is vacated
    while the barrier is closed: the barrier opens; 5000 ms later, with no
    further input, it closes. *)
Example vacated_slot_opens_then_times_out :
  let s := Barrier.loop (tickAt (lowPin 5) 2200) (Barrier.setup 2000) in
  let opened := Barrier.loop (tickAt idlePins 2400) s in
  let still := Barrier.loop (tickAt idlePins 7200) opened in
  let closed := Barrier.loop (tickAt idlePins 7400) still in
  barrierView s = (false, 0, [0]) /\
  barrierView opened = (true, 2400, [0; 90]) /\
  barrierView still = (true, 2400, [0; 90]) /\
  barrierView closed = (false, 2400, [0; 90; 0]).
Proof. vm_compute. repeat split. Qed.

(** ** Occupancy edges *)

(** C7, as the code has it.  A channel's occupancy edge is reported in
    the first pass whose sample differs from the channel's recorded
    reading, which is the sample of the pass before: one line for that
    channel ("occupied" if the sample reads occupied, "vacated" if not),
    and none in a pass whose sample equals the recorded reading.  So a
    channel gets at most one edge per pass, and a signal that keeps its
    value gets no second edge.  This holds for the sensor loop of the
    barrier sketch and for that of the web sketch. *)
Theorem sensor_edge_on_first_differing_sample (now now2 : Z) (io : Pins)
    (s : State) (j : nat) :
  (j < 3)%nat ->
  length (previousSlotState s) = 3%nat -> length (slotOccupied s) = 3%nat ->
  let b := fst (Barrier.readSensors now io s) in
  let w := fst (Web.readSensors io s) in
  (edgesOf j (emitted s b)
     = edgeFor j (currentStateOf Barrier.SENSOR_PINS io j) (read (previousSlotState s) j) /\
   (length (edgesOf j (emitted s b)) <= 1)%nat /\
   read (slotOccupied b) j
     = (if bool_ne (currentStateOf Barrier.SENSOR_PINS io j) (read (previousSlotState s) j)
        then currentStateOf Barrier.SENSOR_PINS io j
        else read (slotOccupied s) j) /\
   read (previousSlotState b) j = currentStateOf Barrier.SENSOR_PINS io j /\
   (forall io2, currentStateOf Barrier.SENSOR_PINS io2 j = currentStateOf Barrier.SENSOR_PINS io j ->
      edgesOf j (emitted b (fst (Barrier.readSensors now2 io2 b))) = [])) /\
  (edgesOf j (emitted s w)
     = edgeFor j (currentStateOf Web.SENSOR_PINS io j) (read (previousSlotState s) j) /\
   (length (edgesOf j (emitted s w)) <= 1)%nat /\
   read (slotOccupied w) j
     = (if bool_ne (currentStateOf Web.SENSOR_PINS io j) (read (previousSlotState s) j)
        then currentStateOf Web.SENSOR_PINS io j
        else read (slotOccupied s) j) /\
   read (previousSlotState w) j = currentStateOf Web.SENSOR_PINS io j /\
   (forall io2, currentStateOf Web.SENSOR_PINS io2 j = currentStateOf Web.SENSOR_PINS io j ->
      edgesOf j (emitted w (fst (Web.readSensors io2 w))) = [])).
Proof.
  intros Hj Hlen Hlen' b w. subst b w.
  assert (Hlt : (j <? 3)%nat = true) by now apply Nat.ltb_lt.
  pose proof (scanSensors_edge_rule Barrier.SENSOR_COUNT Barrier.SENSOR_PINS
                (Barrier.autoOpen now) (autoOpen_slots now) (autoOpen_prev now)
                (autoOpen_serial now) io s j Hj Hlen) as (B1 & B2 & B3 & _).
  pose proof (scanSensors_slot Barrier.SENSOR_COUNT Barrier.SENSOR_PINS
                (Barrier.autoOpen now) (autoOpen_slots now) (autoOpen_prev now)
                io s j Hj Hlen') as B5.
  assert (Hid : forall x : State, exists extra,
            serial x = serial x ++ extra /\ forall i, edgesOf i extra = []).
  { intros x. exists []. now rewrite app_nil_r. }
  pose proof (scanSensors_edge_rule Web.SENSOR_COUNT Web.SENSOR_PINS
                (fun s' => s') (fun _ => eq_refl) (fun _ => eq_refl) Hid io s j Hj Hlen)
    as (W1 & W2 & W3 & W4).
  pose proof (scanSensors_slot Web.SENSOR_COUNT Web.SENSOR_PINS
                (fun s' => s') (fun _ => eq_refl) (fun _ => eq_refl)
                io s j Hj Hlen') as W5.
  split;
    [split; [exact B1 | split; [exact B2 | split; [exact B5 | split; [exact B3 |]]]] |
     split; [exact W1 | split; [exact W2 | split; [exact W5 | split; [exact W3 | exact W4]]]]].
  intros io2 Hsame. unfold Barrier.readSensors in *.
  rewrite (scanSensors_edges Barrier.SENSOR_COUNT Barrier.SENSOR_PINS
             (Barrier.autoOpen now2) (autoOpen_slots now2) (autoOpen_prev now2)
             (autoOpen_serial now2)).
  change ((j <? Barrier.SENSOR_COUNT)%nat) with ((j <? 3)%nat).
  rewrite Hlt, B3, Hsame. unfold edgeFor.
  now rewrite (proj2 (bool_ne_false _ _) eq_refl).
Qed.

Lemma sensor_edge_witness :
  let s := Barrier.loop (tickAt idlePins 2200) (Barrier.setup 2000) in
  let b := fst (Barrier.readSensors 2400 (lowPin 4) s) in
  edgesOf 0 (emitted s b) = [SlotOccupiedMsg 0] /\
  (length (edgesOf 0 (emitted s b)) <= 1)%nat /\
  read (slotOccupied b) 0 = true /\
  read (previousSlotState b) 0 = true /\
  edgesOf 0 (emitted b (fst (Barrier.readSensors 2600 (lowPin 4) b))) = [].
Proof.
  intros s b.
  destruct (sensor_edge_on_first_differing_sample 2400 2600 (lowPin 4) s 0
              ltac:(lia) eq_refl eq_refl) as ((H1 & H2 & H3 & H4 & H5) & _).
  split; [exact H1 | split; [exact H2 | split; [exact H3 | split; [exact H4 |]]]].
  apply H5. reflexivity.
Defined.

(** The claim C7 as the specification words it asks for two consecutive
    passes that agree before the edge fires.  Here the first pass samples
    slot A1 vacant and the second occupied: the two disagree, and the edge
    is reported in the second all the same. *)
Lemma sensor_edge_needs_no_agreement :
  let s1 := Barrier.loop (tickAt idlePins 2200) (Barrier.setup 2000) in
  let s2 := Barrier.loop (tickAt (lowPin 4) 2400) s1 in
  ~ (edgesOf 0 (emitted s1 s2) <> [] ->
     currentStateOf Barrier.SENSOR_PINS idlePins 0
     = currentStateOf Barrier.SENSOR_PINS (lowPin 4) 0).
Proof.
  intros s1 s2 H.
  assert (E : edgesOf 0 (emitted s1 s2) <> []) by (vm_compute; discriminate).
  specialize (H E). vm_compute in H. discriminate H.
Qed.

(** The same run, spelled out, with a third pass that agrees with the
    second: the edge came with the second pass and the third reports
    nothing. *)
Example sensor_edge_run :
  let s1 := Barrier.loop (tickAt idlePins 2200) (Barrier.setup 2000) in
  let s2 := Barrier.loop (tickAt (lowPin 4) 2400) s1 in
  let s3 := Barrier.loop (tickAt (lowPin 4) 2600) s2 in
  emitted (Barrier.setup 2000) s1 = [] /\
  emitted s1 s2 = [SlotOccupiedMsg 0] /\ slotOccupied s2 = [true; false; false] /\
  emitted s2 s3 = [].
Proof. vm_compute. repeat split. Qed.

(** A sample that differs for a single pass produces both edges: nothing
    is filtered. *)
Example one_pass_glitch :
  let s1 := Barrier.loop (tickAt idlePins 2200) (Barrier.setup 2000) in
  let s2 := Barrier.loop (tickAt (lowPin 4) 2400) s1 in
  let s3 := Barrier.loop (tickAt idlePins 2600) s2 in
  emitted s1 s3 = [SlotOccupiedMsg 0; SlotAvailableMsg 0; BarrierOpenedMsg;
                   BarrierAutoOpenedMsg] /\
  barrierOpen s3 = true /\ totalDetections s3 = 1.
Proof. vm_compute. repeat split. Qed.

(** ** The button handler *)

Lemma barrierView_eq (s : State) (open : bool) (time : Z) (commands : list Z) :
  barrierView s = (open, time, commands) ->
  barrierOpen s = open /\ barrierOpenTime s = time /\ servo s = commands.
Proof. unfold barrierView. intros E. injection E as -> -> ->. auto. Qed.

Lemma handleButtonPress_button (level now : Z) (s : State) :
  buttonView (handleButtonPress level now s)
  = (if commits level now s then to_bool level else buttonPressed s,
     to_bool level,
     windowStart level now s).
Proof.
  unfold handleButtonPress, commits, windowStart, buttonView, openBarrier, closeBarrier.
  destruct (bool_ne (to_bool level) (lastButtonState s)); simpl;
    destruct (DEBOUNCE_DELAY <? ulong_sub now _); simpl; try reflexivity;
    destruct (bool_ne (to_bool level) (buttonPressed s)); simpl; try reflexivity;
    destruct (of_bool (to_bool level) =? LOW); simpl; try reflexivity;
    destruct (barrierOpen s); reflexivity.
Qed.

Lemma handleButtonPress_barrier (level now : Z) (s : State) :
  barrierView (handleButtonPress level now s)
  = if commits level now s && negb (to_bool level)
    then (negb (barrierOpen s),
          if barrierOpen s then barrierOpenTime s else now,
          servo s ++ [angleOf (negb (barrierOpen s))])
    else barrierView s.
Proof.
  unfold handleButtonPress, commits, windowStart, barrierView, openBarrier, closeBarrier.
  destruct (bool_ne (to_bool level) (lastButtonState s)); simpl;
    destruct (DEBOUNCE_DELAY <? ulong_sub now _); simpl; try reflexivity;
    destruct (bool_ne (to_bool level) (buttonPressed s)); simpl; try reflexivity;
    destruct (to_bool level); simpl; try reflexivity;
    destruct (barrierOpen s); reflexivity.
Qed.

(** A raw reading that differs from the last one cannot be accepted in
    the same call: its window has just started. *)
Lemma commits_needs_steady_reading (level now : Z) (s : State) :
  commits level now s = true ->
  to_bool level = lastButtonState s /\
  DEBOUNCE_DELAY < ulong_sub now (lastDebounceTime s) /\
  to_bool level <> buttonPressed s.
Proof.
  unfold commits, windowStart. intros H.
  apply andb_true_iff in H as [H1 H2]. apply bool_ne_true in H2.
  destruct (bool_ne (to_bool level) (lastButtonState s)) eqn:E.
  - rewrite ulong_sub_self in H1. discriminate H1.
  - apply (proj1 (bool_ne_false _ _)) in E. apply Z.ltb_lt in H1.
    split; [exact E | split; [exact H1 | exact H2]].
Qed.

Lemma stable_change_is_commit (level now : Z) (s : State) :
  buttonPressed (handleButtonPress level now s) <> buttonPressed s ->
  commits level now s = true /\
  buttonPressed (handleButtonPress level now s) = to_bool level.
Proof.
  pose proof (f_equal (fun v => fst (fst v)) (handleButtonPress_button level now s)) as E.
  unfold buttonView in E. cbn [fst] in E. rewrite E.
  destruct (commits level now s); [auto | congruence].
Qed.

(** C2.  When a call of [handleButtonPress] commits a Pressed edge (the
    stable state goes from HIGH to LOW), a closed barrier is opened, with
    [barrierOpenTime] the current [millis()], and an open barrier is
    closed, whatever its opening time; when it commits a Released edge
    (LOW to HIGH), position, opening time and servo are untouched. *)
Theorem button_press_toggles_barrier (level now : Z) (s : State) :
  let s' := handleButtonPress level now s in
  (buttonPressed s = true -> buttonPressed s' = false ->
   (barrierOpen s = false ->
    barrierOpen s' = true /\ barrierOpenTime s' = now /\
    servo s' = servo s ++ [BARRIER_OPEN_ANGLE]) /\
   (barrierOpen s = true ->
    barrierOpen s' = false /\ servo s' = servo s ++ [BARRIER_CLOSED_ANGLE])) /\
  (buttonPressed s = false -> buttonPressed s' = true ->
   barrierView s' = barrierView s).
Proof.
  intros s'. subst s'.
  pose proof (handleButtonPress_barrier level now s) as Hb.
  split.
  - intros H1 H2.
    destruct (stable_change_is_commit level now s) as [Hc Hr]; [congruence |].
    rewrite H2 in Hr. rewrite Hc, <- Hr in Hb. cbn [andb negb] in Hb.
    apply barrierView_eq in Hb as (E1 & E2 & E3). rewrite E1, E2, E3.
    split; intros ->; auto.
  - intros H1 H2.
    destruct (stable_change_is_commit level now s) as [Hc Hr]; [congruence |].
    rewrite H2 in Hr. rewrite Hc, <- Hr in Hb. exact Hb.
Qed.

Lemma button_press_witness :
  let s0 := Barrier.loop (tickAt idlePins 2200) (Barrier.setup 2000) in
  let s1 := handleButtonPress LOW 2400 s0 in
  let s2 := handleButtonPress LOW 2600 s1 in
  let s3 := handleButtonPress HIGH 2800 s2 in
  let s4 := handleButtonPress HIGH 3000 s3 in
  let s5 := handleButtonPress LOW 3200 s4 in
  let s6 := handleButtonPress LOW 3400 s5 in
  (barrierOpen s2 = true /\ barrierOpenTime s2 = 2600 /\
   servo s2 = servo s1 ++ [BARRIER_OPEN_ANGLE]) /\
  barrierView s4 = barrierView s3 /\
  (barrierOpen s6 = false /\ servo s6 = servo s5 ++ [BARRIER_CLOSED_ANGLE]).
Proof.
  intros s0 s1 s2 s3 s4 s5 s6.
  split; [| split].
  - destruct (button_press_toggles_barrier LOW 2600 s1) as [H _].
    destruct (H eq_refl eq_refl) as [Hopen _]. apply Hopen. reflexivity.
  - destruct (button_press_toggles_barrier HIGH 3000 s3) as [_ H].
    apply H; reflexivity.
  - destruct (button_press_toggles_barrier LOW 3400 s5) as [H _].
    destruct (H eq_refl eq_refl) as [_ Hclose]. apply Hclose. reflexivity.
Defined.

(** Scenario 5 of the specification, with the press committed 800 ms
    after the opening: the barrier closes at once. *)
Example press_closes_open_barrier :
  let s0 := Barrier.loop (tickAt idlePins 2200) (Barrier.setup 2000) in
  let s2 := Barrier.run [tickAt (lowPin 25) 2400; tickAt (lowPin 25) 2600] s0 in
  let s4 := Barrier.run [tickAt idlePins 2800; tickAt idlePins 3000] s2 in
  let s6 := Barrier.run [tickAt (lowPin 25) 3200; tickAt (lowPin 25) 3400] s4 in
  barrierView s2 = (true, 2600, [0; 90]) /\
  barrierView s4 = (true, 2600, [0; 90]) /\
  barrierView s6 = (false, 2600, [0; 90; 0]).
Proof. vm_compute. repeat split. Qed.

(** The position the press acts on is the one at the entry of the
    handler.  Here slot A1 is left in the very pass that commits the
    press: the sensor loop opens the barrier and the handler, finding it
    open, closes it. *)
Example press_in_the_pass_of_a_vacated_edge :
  let both : Pins := fun q => if (q =? 4) || (q =? 25) then LOW else HIGH in
  let s := Barrier.run [tickAt idlePins 2200; tickAt both 2400] (Barrier.setup 2000) in
  let s' := Barrier.loop (tickAt (lowPin 25) 2600) s in
  barrierView s = (false, 0, [0]) /\
  emitted s s' = [SlotAvailableMsg 0; BarrierOpenedMsg; BarrierAutoOpenedMsg;
                  ButtonPressedMsg; BarrierClosedMsg; ManualCloseMsg] /\
  barrierView s' = (false, 2600, [0; 90; 0]).
Proof. vm_compute. repeat split. Qed.

(** ** Debouncing of the button *)

Lemma step_views (level now : Z) (s : State) :
  buttonPressed (handleButtonPress level now s)
    = (if commits level now s then to_bool level else buttonPressed s) /\
  lastButtonState (handleButtonPress level now s) = to_bool level /\
  lastDebounceTime (handleButtonPress level now s) = windowStart level now s.
Proof.
  pose proof (handleButtonPress_button level now s) as E.
  set (s' := handleButtonPress level now s) in *. clearbody s'.
  unfold buttonView in E. injection E as -> -> ->. auto.
Qed.

Lemma handleButtonPress_no_commit (level now : Z) (s : State) :
  commits level now s = false ->
  handleButtonPress level now s
  = set_lastButtonState (to_bool level)
      (if bool_ne (to_bool level) (lastButtonState s)
       then set_lastDebounceTime now s else s).
Proof.
  unfold commits, windowStart, handleButtonPress.
  destruct (bool_ne (to_bool level) (lastButtonState s)); simpl;
    destruct (DEBOUNCE_DELAY <? ulong_sub now _); simpl; try reflexivity;
    destruct (bool_ne (to_bool level) (buttonPressed s)); simpl;
    try reflexivity; discriminate.
Qed.

(** Whenever the stable state differs from the last raw reading, the
    samples split into an older part and a window over which the raw
    reading kept its present value and the stable state did not move; the
    recorded window start is the time of the window's first sample, or the
    start recorded before the run if the window reaches back that far. *)
Lemma window_invariant (samples : list (Z * Z)) :
  forall s0,
    buttonPressed (pressRun samples s0) <> lastButtonState (pressRun samples s0) ->
    exists pre win,
      samples = pre ++ win /\
      Forall (fun x => to_bool (fst x) = lastButtonState (pressRun samples s0)) win /\
      ((exists x rest, win = x :: rest /\
                       lastDebounceTime (pressRun samples s0) = snd x) \/
       (pre = [] /\
        lastDebounceTime (pressRun samples s0) = lastDebounceTime s0 /\
        lastButtonState (pressRun samples s0) = lastButtonState s0)) /\
      (forall w1 w2, win = w1 ++ w2 ->
         buttonPressed (pressRun (pre ++ w1) s0) = buttonPressed (pressRun samples s0)).
Proof.
  induction samples as [| x tail IH]; intros s0 Hne.
  - exists [], []. split; [reflexivity |]. split; [constructor |].
    split; [right; auto |].
    intros w1 w2 Hw. symmetry in Hw. apply app_eq_nil in Hw as [-> _]. reflexivity.
  - change (pressRun (x :: tail) s0)
      with (pressRun tail (handleButtonPress (fst x) (snd x) s0)) in *.
    destruct (step_views (fst x) (snd x) s0) as (V1 & V2 & V3).
    set (s1 := handleButtonPress (fst x) (snd x) s0) in *.
    destruct (IH s1 Hne) as (pre & win & Htail & Hall & Hstart & Hstable).
    destruct Hstart as [(y & rest & Hwin & Htime) | (Hpre & Htime & Hlast)].
    + exists (x :: pre), win. split; [simpl; now rewrite Htail |].
      split; [exact Hall |]. split; [left; eauto |].
      intros w1 w2 Hw. exact (Hstable w1 w2 Hw).
    + subst pre. simpl in Htail. subst win.
      exists [], (x :: tail). split; [reflexivity |].
      split; [constructor; [congruence | exact Hall] |].
      split.
      * unfold windowStart in V3.
        destruct (bool_ne (to_bool (fst x)) (lastButtonState s0)) eqn:E.
        -- left. exists x, tail. split; [reflexivity | congruence].
        -- right. apply (proj1 (bool_ne_false _ _)) in E.
           split; [reflexivity | split; congruence].
      * intros w1 w2 Hw. destruct w1 as [| y w1].
        -- change (pressRun ([] ++ []) s0) with s0.
           pose proof (Hstable [] tail eq_refl) as Hs1.
           change (pressRun ([] ++ []) s1) with s1 in Hs1.
           destruct (commits (fst x) (snd x) s0).
           ++ exfalso. apply Hne. congruence.
           ++ congruence.
        -- simpl in Hw. injection Hw as <- ->.
           exact (Hstable w1 w2 eq_refl).
Qed.

(** C8.  Over any sequence of samples of the button, a call changes the
    stable state only if the new stable state is the raw reading, more
    than [DEBOUNCE_DELAY] (so at least the 50 ms window) has passed since
    the recorded window start, and the samples end with a window, starting
    at that time, over which every raw reading had the value now accepted
    and the stable state had the other one.  A raw reading that differs
    from the one before restarts the window at the current [millis()],
    commits nothing, leaves the barrier alone and prints nothing. *)
Theorem button_debounce_window (s0 : State) (samples : list (Z * Z))
    (level now : Z) :
  let s := pressRun samples s0 in
  let s' := handleButtonPress level now s in
  (buttonPressed s' <> buttonPressed s ->
   buttonPressed s' = to_bool level /\
   DEBOUNCE_DELAY < ulong_sub now (lastDebounceTime s) /\
   exists pre win,
     samples = pre ++ win /\
     Forall (fun x => to_bool (fst x) = to_bool level) win /\
     ((exists x rest, win = x :: rest /\ lastDebounceTime s = snd x) \/
      (pre = [] /\ lastDebounceTime s = lastDebounceTime s0 /\
       to_bool level = lastButtonState s0)) /\
     (forall w1 w2, win = w1 ++ w2 ->
        buttonPressed (pressRun (pre ++ w1) s0) <> to_bool level)) /\
  (to_bool level <> lastButtonState s ->
   lastDebounceTime s' = now /\ buttonPressed s' = buttonPressed s /\
   barrierView s' = barrierView s /\ serial s' = serial s).
Proof.
  intros s s'. split.
  - intros Hchange.
    destruct (stable_change_is_commit level now s Hchange) as [Hc Hr].
    destruct (commits_needs_steady_reading level now s Hc) as (Hsteady & Hlong & Hdiff).
    split; [exact Hr |]. split; [exact Hlong |].
    destruct (window_invariant samples s0) as (pre & win & Hsplit & Hall & Hstart & Hstable).
    { fold s. congruence. }
    fold s in Hall, Hstart, Hstable.
    exists pre, win. split; [exact Hsplit |].
    split; [now rewrite Hsteady |].
    split.
    + destruct Hstart as [H | (H1 & H2 & H3)]; [left; exact H |].
      right. split; [exact H1 | split; [exact H2 | congruence]].
    + intros w1 w2 Hw. rewrite (Hstable w1 w2 Hw). congruence.
  - intros Hraw. apply bool_ne_true in Hraw.
    assert (Hc : commits level now s = false).
    { unfold commits, windowStart. rewrite Hraw, ulong_sub_self. reflexivity. }
    subst s'. rewrite (handleButtonPress_no_commit level now s Hc), Hraw.
    repeat split.
Qed.

Lemma button_debounce_witness :
  let s0 := Barrier.setup 2000 in
  let samples := [(HIGH, 2200); (LOW, 2400); (LOW, 2420); (LOW, 2440)] in
  let s := pressRun samples s0 in
  let s' := handleButtonPress LOW 2460 s in
  buttonPressed s' = to_bool LOW /\
  DEBOUNCE_DELAY < ulong_sub 2460 (lastDebounceTime s) /\
  exists pre win,
    samples = pre ++ win /\
    Forall (fun x => to_bool (fst x) = to_bool LOW) win /\
    ((exists x rest, win = x :: rest /\ lastDebounceTime s = snd x) \/
     (pre = [] /\ lastDebounceTime s = lastDebounceTime s0 /\
      to_bool LOW = lastButtonState s0)) /\
    (forall w1 w2, win = w1 ++ w2 ->
       buttonPressed (pressRun (pre ++ w1) s0) <> to_bool LOW).
Proof.
  intros s0 samples s s'.
  apply (button_debounce_window s0 samples LOW 2460).
  vm_compute. discriminate.
Defined.

(** The run of the witness: the press is first sampled at 2400; the calls
    at 2420 and 2440 are inside the window and commit nothing; the call at
    2460 commits it and opens the barrier.  A reading that flips back
    restarts the window. *)
Example debounce_run :
  let s0 := Barrier.setup 2000 in
  let stable (l : list (Z * Z)) := buttonPressed (pressRun l s0) in
  stable [(HIGH, 2200)] = true /\
  stable [(HIGH, 2200); (LOW, 2400)] = true /\
  stable [(HIGH, 2200); (LOW, 2400); (LOW, 2420)] = true /\
  stable [(HIGH, 2200); (LOW, 2400); (LOW, 2420); (LOW, 2440)] = true /\
  stable [(HIGH, 2200); (LOW, 2400); (LOW, 2420); (LOW, 2440); (LOW, 2460)] = false /\
  barrierOpen (pressRun [(HIGH, 2200); (LOW, 2400); (LOW, 2420); (LOW, 2440);
                         (LOW, 2460)] s0) = true /\
  stable [(HIGH, 2200); (LOW, 2400); (LOW, 2440); (HIGH, 2445); (LOW, 2460);
          (LOW, 2500)] = true.
Proof. vm_compute. repeat split. Qed.

(** ** The barrier over a pass *)

Lemma handleBarrierTiming_barrier (now : Z) (s : State) :
  barrierView (handleBarrierTiming now s)
  = if barrierOpen s && (BARRIER_OPEN_DURATION <=? ulong_sub now (barrierOpenTime s))
    then (false, barrierOpenTime s, servo s ++ [BARRIER_CLOSED_ANGLE])
    else barrierView s.
Proof.
  unfold handleBarrierTiming, closeBarrier.
  destruct (barrierOpen s) eqn:E; simpl; [| reflexivity].
  destruct (BARRIER_OPEN_DURATION <=? ulong_sub now (barrierOpenTime s)); reflexivity.
Qed.

Lemma recount_barrier (n m : nat) (s : State) :
  barrierView (updateLEDStatus m (updateOccupancyCounters n s)) = barrierView s.
Proof. unfold updateLEDStatus. now destruct (_ =? _). Qed.

Lemma Barrier_loop_barrier (t : Barrier.Tick) (s : State) :
  barrierView (Barrier.loop t s)
  = barrierView
      (handleBarrierTiming (Barrier.millisTiming t)
         (handleButtonPress (digitalRead (Barrier.pins t) BUTTON_PIN)
            (Barrier.millisButton t)
            (fst (Barrier.readSensors (Barrier.millisSensors t) (Barrier.pins t) s)))).
Proof.
  unfold Barrier.loop.
  destruct (snd (Barrier.readSensors _ _ s)); [apply recount_barrier | reflexivity].
Qed.

Lemma handleBarrierTiming_young (now : Z) (s : State) :
  barrierOpen (handleBarrierTiming now s) = true ->
  ulong_sub now (barrierOpenTime (handleBarrierTiming now s)) < BARRIER_OPEN_DURATION.
Proof.
  intros H.
  pose proof (handleBarrierTiming_barrier now s) as E.
  destruct (barrierOpen s && (BARRIER_OPEN_DURATION <=? ulong_sub now (barrierOpenTime s)))
    eqn:C.
  - apply barrierView_eq in E as (E1 & _). congruence.
  - change (barrierView s) with (barrierOpen s, barrierOpenTime s, servo s) in E.
    apply barrierView_eq in E as (E1 & E2 & _). rewrite E2.
    apply andb_false_iff in C as [C | C].
    + congruence.
    + now apply Z.leb_gt in C.
Qed.

Lemma Barrier_loop_young (t : Barrier.Tick) (s : State) :
  barrierOpen (Barrier.loop t s) = true ->
  ulong_sub (Barrier.millisTiming t) (barrierOpenTime (Barrier.loop t s))
  < BARRIER_OPEN_DURATION.
Proof.
  intros H.
  pose proof (Barrier_loop_barrier t s) as E.
  set (s2 := handleButtonPress _ _ _) in E.
  pose proof (handleBarrierTiming_young (Barrier.millisTiming t) s2) as Hy.
  unfold barrierView in E.
  set (a := Barrier.loop t s) in *. set (b := handleBarrierTiming _ s2) in *.
  clearbody a b. injection E as E1 E2 _. rewrite E2. apply Hy. congruence.
Qed.

(** Without wrap-around: if the clock has not overflowed since the
    opening, the plain difference is below the duration. *)
Lemma Barrier_loop_young_plain (t : Barrier.Tick) (s : State) :
  barrierOpen (Barrier.loop t s) = true ->
  0 <= barrierOpenTime (Barrier.loop t s) <= Barrier.millisTiming t ->
  Barrier.millisTiming t < ULONG_MAX1 ->
  Barrier.millisTiming t - barrierOpenTime (Barrier.loop t s) < BARRIER_OPEN_DURATION.
Proof.
  intros H Hle Hmax. rewrite <- ulong_sub_small by assumption.
  now apply Barrier_loop_young.
Qed.

(** C1, as the code has it.  After every pass of [loop()], an open
    barrier was opened less than [BARRIER_OPEN_DURATION] before the
    [millis()] of the pass's timing check (difference on [unsigned long]);
    a barrier that enters the check open with that much or more elapsed
    leaves it closed, with one servo command; and the barrier is closed
    after [setup()].  So every reachable state with the barrier open is the
    result of a pass whose check saw less than 5000 ms elapsed.  Nothing is
    said of a closed barrier: its [barrierOpenTime] is just the time of the
    last opening. *)
Theorem open_barrier_is_within_duration (t : Barrier.Tick) (s : State) :
  (barrierOpen (Barrier.loop t s) = true ->
   ulong_sub (Barrier.millisTiming t) (barrierOpenTime (Barrier.loop t s))
   < BARRIER_OPEN_DURATION) /\
  (barrierOpen s = true ->
   BARRIER_OPEN_DURATION <= ulong_sub (Barrier.millisTiming t) (barrierOpenTime s) ->
   barrierOpen (handleBarrierTiming (Barrier.millisTiming t) s) = false /\
   servo (handleBarrierTiming (Barrier.millisTiming t) s)
   = servo s ++ [BARRIER_CLOSED_ANGLE]) /\
  (forall now, barrierOpen (Barrier.setup now) = false) /\
  (Barrier_reachable s -> barrierOpen s = true ->
   exists t0 s0, s = Barrier.loop t0 s0 /\
     ulong_sub (Barrier.millisTiming t0) (barrierOpenTime s) < BARRIER_OPEN_DURATION).
Proof.
  split; [apply Barrier_loop_young |]. split; [| split].
  - intros Hopen Hlong.
    pose proof (handleBarrierTiming_barrier (Barrier.millisTiming t) s) as E.
    rewrite Hopen in E. apply Z.leb_le in Hlong. rewrite Hlong in E.
    apply barrierView_eq in E as (-> & _ & ->). auto.
  - reflexivity.
  - intros Hreach Hopen. destruct Hreach as [now | t0 s0 _].
    + discriminate Hopen.
    + exists t0, s0. split; [reflexivity |]. now apply Barrier_loop_young.
Qed.

Lemma open_barrier_witness :
  let s := Barrier.loop (tickAt (lowPin 5) 2200) (Barrier.setup 2000) in
  let t := tickAt idlePins 2400 in
  ulong_sub (Barrier.millisTiming t) (barrierOpenTime (Barrier.loop t s))
  < BARRIER_OPEN_DURATION.
Proof.
  intros s t.
  apply (proj1 (open_barrier_is_within_duration t s)).
  reflexivity.
Defined.

(** The claim C1 as the specification words it is an equivalence.  Slot
    A1 is taken at 2200 and left at 2400, which opens the barrier; the
    button, sampled pressed at 2600 and 2800, closes it at 2800.  The
    barrier is then closed although only 400 ms have passed since it
    opened. *)
Lemma closed_barrier_within_duration :
  let t := tickAt (lowPin 25) 2800 in
  let s := Barrier.loop t
             (Barrier.run [tickAt (lowPin 4) 2200; tickAt idlePins 2400;
                           tickAt (lowPin 25) 2600] (Barrier.setup 2000)) in
  Barrier_reachable s /\
  ~ (barrierOpen s = true <->
     ulong_sub (Barrier.millisTiming t) (barrierOpenTime s) < BARRIER_OPEN_DURATION).
Proof.
  intros t s. split.
  - unfold s, Barrier.run. simpl foldl.
    repeat apply Barrier_reach_loop. apply Barrier_reach_setup.
  - intros [_ H].
    assert (E : barrierOpen s = true) by (apply H; vm_compute; reflexivity).
    vm_compute in E. discriminate E.
Qed.

(** The states of that run, and the state right after [setup()], where
    the barrier is closed and [barrierOpenTime] still holds its
    initialiser. *)
Example closed_barrier_run :
  let s3 := Barrier.run [tickAt (lowPin 4) 2200; tickAt idlePins 2400;
                         tickAt (lowPin 25) 2600] (Barrier.setup 2000) in
  let s4 := Barrier.loop (tickAt (lowPin 25) 2800) s3 in
  barrierView s3 = (true, 2400, [0; 90]) /\
  barrierView s4 = (false, 2400, [0; 90; 0]) /\
  ulong_sub 2800 (barrierOpenTime s4) = 400 /\
  barrierView (Barrier.setup 2000) = (false, 0, [0]).
Proof. vm_compute. repeat split. Qed.

(** ** Servo commands follow the position *)

Lemma alternates_snoc (l : list Z) (a b : Z) :
  alternates l = true -> last l = Some a -> a <> b -> alternates (l ++ [b]) = true.
Proof.
  induction l as [| c l IH]; intros Halt Hlast Hne; [discriminate Hlast |].
  destruct l as [| d l].
  - simpl in *. injection Hlast as ->.
    apply Z.eqb_neq in Hne. now rewrite Hne.
  - change (alternates (c :: d :: l)) with (negb (c =? d) && alternates (d :: l)) in Halt.
    apply andb_true_iff in Halt as [H1 H2].
    change (alternates ((c :: d :: l) ++ [b]))
      with (negb (c =? d) && alternates ((d :: l) ++ [b])).
    rewrite H1. simpl andb. apply IH; auto.
Qed.

Lemma servoFollows_same (s s' : State) :
  barrierOpen s' = barrierOpen s -> servo s' = servo s ->
  servoFollows s -> servoFollows s'.
Proof. unfold servoFollows. now intros -> ->. Qed.

Lemma servoFollows_toggle (s s' : State) :
  barrierOpen s' = negb (barrierOpen s) ->
  servo s' = servo s ++ [angleOf (negb (barrierOpen s))] ->
  servoFollows s -> servoFollows s'.
Proof.
  unfold servoFollows. intros -> -> [Hlast Halt]. split.
  - apply last_snoc.
  - apply (alternates_snoc _ _ _ Halt Hlast).
    destruct (barrierOpen s); discriminate.
Qed.

Lemma servoFollows_view (s s' : State) :
  barrierView s' = barrierView s -> servoFollows s -> servoFollows s'.
Proof.
  intros E. change (barrierView s) with (barrierOpen s, barrierOpenTime s, servo s) in E.
  apply barrierView_eq in E as (E1 & _ & E3). now apply servoFollows_same.
Qed.

Lemma readSensors_follows (now : Z) (io : Pins) (s : State) :
  servoFollows s -> servoFollows (fst (Barrier.readSensors now io s)).
Proof.
  intros H.
  pose proof (Barrier_scanFrom_barrier now io Barrier.SENSOR_COUNT 0 (s, false)) as E.
  cbn [fst] in E.
  fold (scanSensors Barrier.SENSOR_COUNT Barrier.SENSOR_PINS (Barrier.autoOpen now) io s) in E.
  fold (Barrier.readSensors now io s) in E.
  destruct (barrierOpen s) eqn:Hopen; [now apply (servoFollows_view s) |].
  destruct (vacatedIn _ _ _ _ _); [| now apply (servoFollows_view s)].
  apply barrierView_eq in E as (E1 & _ & E3).
  apply (servoFollows_toggle s); rewrite ?Hopen; auto.
Qed.

Lemma handleButtonPress_follows (level now : Z) (s : State) :
  servoFollows s -> servoFollows (handleButtonPress level now s).
Proof.
  intros H. pose proof (handleButtonPress_barrier level now s) as E.
  destruct (commits level now s && negb (to_bool level));
    [| now apply (servoFollows_view s)].
  apply barrierView_eq in E as (E1 & _ & E3).
  now apply (servoFollows_toggle s).
Qed.

Lemma handleBarrierTiming_follows (now : Z) (s : State) :
  servoFollows s -> servoFollows (handleBarrierTiming now s).
Proof.
  intros H. pose proof (handleBarrierTiming_barrier now s) as E.
  destruct (barrierOpen s) eqn:Hopen; simpl andb in E;
    [| now apply (servoFollows_view s)].
  destruct (BARRIER_OPEN_DURATION <=? _); [| now apply (servoFollows_view s)].
  apply barrierView_eq in E as (E1 & _ & E3).
  apply (servoFollows_toggle s); rewrite ?Hopen; auto.
Qed.

Lemma Barrier_reachable_follows (s : State) :
  Barrier_reachable s -> servoFollows s.
Proof.
  induction 1 as [now | t s _ IH].
  - split; reflexivity.
  - apply (servoFollows_view _ _ (Barrier_loop_barrier t s)).
    now apply handleBarrierTiming_follows, handleButtonPress_follows, readSensors_follows.
Qed.

(** C3.  While the barrier is open, an open trigger does nothing:
    [openBarrier] and the auto-open of the sensor loop return the state
    they got, and a whole pass of the sensor loop, whatever edges it
    reports, leaves position, opening time and servo as they were.
    Closing a closed barrier does nothing either.  [openBarrier] and
    [closeBarrier] write to the servo exactly when they change the
    position, and in every reachable state the servo commands issued so far
    never repeat the one before and end with the command of the current
    position. *)
Theorem second_trigger_is_no_op (now : Z) (io : Pins) (s : State) :
  (barrierOpen s = true ->
   openBarrier now s = s /\ Barrier.autoOpen now s = s /\
   barrierView (fst (Barrier.readSensors now io s)) = barrierView s) /\
  (barrierOpen s = false -> closeBarrier s = s) /\
  (servo (openBarrier now s) = servo s /\ barrierOpen (openBarrier now s) = barrierOpen s
   \/ servo (openBarrier now s) = servo s ++ [BARRIER_OPEN_ANGLE] /\
      barrierOpen s = false /\ barrierOpen (openBarrier now s) = true) /\
  (servo (closeBarrier s) = servo s /\ barrierOpen (closeBarrier s) = barrierOpen s
   \/ servo (closeBarrier s) = servo s ++ [BARRIER_CLOSED_ANGLE] /\
      barrierOpen s = true /\ barrierOpen (closeBarrier s) = false) /\
  (Barrier_reachable s -> servoFollows s).
Proof.
  split; [| split; [| split; [| split]]].
  - intros Hopen. split; [now apply openBarrier_when_open |].
    split; [unfold Barrier.autoOpen; now rewrite Hopen |].
    pose proof (Barrier_scanFrom_barrier now io Barrier.SENSOR_COUNT 0 (s, false)) as E.
    cbn [fst] in E. now rewrite Hopen in E.
  - apply closeBarrier_when_closed.
  - destruct (barrierOpen s) eqn:Hopen.
    + left. now rewrite openBarrier_when_open.
    + right. destruct (openBarrier_when_closed now s Hopen) as (H1 & _ & H3). auto.
  - destruct (barrierOpen s) eqn:Hopen.
    + right. destruct (closeBarrier_when_open s Hopen) as (H1 & _ & H3). auto.
    + left. now rewrite closeBarrier_when_closed.
  - apply Barrier_reachable_follows.
Qed.

Lemma second_trigger_witness :
  let s := Barrier.run [tickAt (lowPin 4) 2200; tickAt (lowPin 5) 2400;
                        tickAt (lowPin 5) 2600] (Barrier.setup 2000) in
  barrierOpen s = true /\
  openBarrier 2800 s = s /\ Barrier.autoOpen 2800 s = s /\
  barrierView (fst (Barrier.readSensors 2800 idlePins s)) = barrierView s /\
  closeBarrier (Barrier.setup 2000) = Barrier.setup 2000.
Proof.
  intros s.
  destruct (second_trigger_is_no_op 2800 idlePins s) as (Hopen & _).
  destruct (second_trigger_is_no_op 2800 idlePins (Barrier.setup 2000)) as (_ & Hclosed & _).
  destruct (Hopen eq_refl) as (H1 & H2 & H3).
  split; [reflexivity |]. split; [exact H1 |]. split; [exact H2 |].
  split; [exact H3 |]. apply Hclosed. reflexivity.
Defined.

(** The run of the witness: slot A1 is left while the barrier is closed,
    which opens it; then slot A2 is left while the barrier is open: a
    second "vacated" edge is reported, no servo command is issued and the
    opening time stays. *)
Example second_vacated_edge :
  let s := Barrier.run [tickAt (lowPin 4) 2200; tickAt (lowPin 5) 2400;
                        tickAt (lowPin 5) 2600] (Barrier.setup 2000) in
  let s' := Barrier.loop (tickAt idlePins 2800) s in
  slotOccupied s = [false; true; false] /\
  barrierView s = (true, 2400, [0; 90]) /\
  emitted s s' = [SlotAvailableMsg 1] /\
  barrierView s' = (true, 2400, [0; 90]).
Proof. vm_compute. repeat split. Qed.

(** * Further properties of the sketches *)

(** ** The two slot arrays, the LEDs and the samples *)

Lemma read_ext (l : list bool) (f : nat -> bool) (n : nat) :
  length l = n -> (forall j, (j < n)%nat -> read l j = f j) -> l = map f (seq 0 n).
Proof.
  intros Hlen H. apply list_eq. intros j.
  destruct (decide (j < n)%nat) as [Hj | Hj].
  - rewrite list_lookup_fmap, lookup_seq_lt by exact Hj. simpl.
    specialize (H j Hj). unfold read in H.
    destruct (l !! j) as [b |] eqn:E.
    + simpl in H. now rewrite H.
    + apply lookup_ge_None in E. lia.
  - rewrite list_lookup_fmap, lookup_seq_ge by lia.
    apply lookup_ge_None. lia.
Qed.

Section PassFacts.

Variable n : nat.
Variable pinsOf : list Z.
Variable hook : State -> State.
Hypothesis hook_view : forall s, occupancyView (hook s) = occupancyView s.

Lemma hook_keeps_slots (s : State) : slotOccupied (hook s) = slotOccupied s.
Proof. by_view (hook_view s). Qed.

Lemma hook_keeps_prev (s : State) : previousSlotState (hook s) = previousSlotState s.
Proof. by_view (hook_view s). Qed.

(** The sensor loop writes the two arrays together. *)
Lemma scanFrom_synced (io : Pins) (k : nat) :
  forall i acc,
    slotOccupied (fst acc) = previousSlotState (fst acc) ->
    slotOccupied (fst (scanFrom pinsOf hook k i io acc))
    = previousSlotState (fst (scanFrom pinsOf hook k i io acc)).
Proof.
  induction k as [| k IH]; intros i acc H; simpl; [exact H |].
  apply IH.
  destruct (scanSlot_cases pinsOf hook hook_keeps_slots hook_keeps_prev io i acc)
    as [[_ ->] | (_ & _ & -> & ->)]; [exact H |].
  now rewrite H.
Qed.

(** With the arrays in step, the loop leaves in [slotOccupied] exactly
    what the sensors read. *)
Lemma scanSensors_samples (io : Pins) (s : State) :
  length (slotOccupied s) = n -> length (previousSlotState s) = n ->
  slotOccupied s = previousSlotState s ->
  slotOccupied (fst (scanSensors n pinsOf hook io s)) = samples pinsOf io n.
Proof.
  intros L1 L2 Hsync. unfold samples. apply read_ext.
  - unfold scanSensors.
    now rewrite (proj1 (scanFrom_lengths pinsOf hook hook_keeps_slots hook_keeps_prev
                          io n 0 (s, false))).
  - intros j Hj.
    rewrite (scanSensors_slot n pinsOf hook hook_keeps_slots hook_keeps_prev io s j Hj L1).
    destruct (bool_ne _ _) eqn:E; [reflexivity |].
    apply (proj1 (bool_ne_false _ _)) in E. now rewrite Hsync.
Qed.

End PassFacts.

Lemma updateLEDStatus_leds (n : nat) (s : State) : ledsAgree n (updateLEDStatus n s).
Proof.
  unfold ledsAgree, updateLEDStatus.
  destruct (occupiedCount s =? Z.of_nat n) eqn:E; simpl; rewrite E; auto.
Qed.

Lemma Lot6_updateLEDStatus_leds (s : State) :
  ledsAgree Lot6.SENSOR_COUNT (Lot6.updateLEDStatus s).
Proof.
  unfold ledsAgree, Lot6.updateLEDStatus.
  destruct (occupiedCount s =? 0) eqn:E0;
    destruct (occupiedCount s =? Z.of_nat Lot6.SENSOR_COUNT) eqn:E; simpl;
    rewrite E; auto.
  apply Z.eqb_eq in E0, E. rewrite E0 in E. discriminate E.
Qed.

Lemma ledsAgree_view (n : nat) (s s' : State) :
  occupancyView s' = occupancyView s -> ledsAgree n s -> ledsAgree n s'.
Proof.
  unfold ledsAgree. intros E.
  assert (occupiedCount s' = occupiedCount s) as -> by by_view E.
  assert (redLed s' = redLed s) as -> by by_view E.
  assert (greenLed s' = greenLed s) as -> by by_view E.
  auto.
Qed.

Lemma recount_slots (n m : nat) (s : State) :
  slotOccupied (updateLEDStatus m (updateOccupancyCounters n s)) = slotOccupied s /\
  previousSlotState (updateLEDStatus m (updateOccupancyCounters n s))
  = previousSlotState s.
Proof. unfold updateLEDStatus. now destruct (_ =? _). Qed.

Lemma Lot6_recount_slots (n : nat) (s : State) :
  slotOccupied (Lot6.updateLEDStatus (updateOccupancyCounters n s)) = slotOccupied s /\
  previousSlotState (Lot6.updateLEDStatus (updateOccupancyCounters n s))
  = previousSlotState s.
Proof. unfold Lot6.updateLEDStatus. now split_ifs. Qed.

Lemma handlers_occupancy (t : Barrier.Tick) (s : State) :
  occupancyView
    (handleBarrierTiming (Barrier.millisTiming t)
       (handleButtonPress (digitalRead (Barrier.pins t) BUTTON_PIN)
          (Barrier.millisButton t) s))
  = occupancyView s.
Proof. now rewrite handleBarrierTiming_occupancy, handleButtonPress_occupancy. Qed.

(** One pass of the barrier sketch, from a state with agreeing counters
    and arrays in step. *)
Lemma Barrier_loop_inStep (t : Barrier.Tick) (s : State) :
  countersAgree Barrier.SENSOR_COUNT s -> inStep Barrier.SENSOR_COUNT s ->
  inStep Barrier.SENSOR_COUNT (Barrier.loop t s) /\
  slotOccupied (Barrier.loop t s)
  = samples Barrier.SENSOR_PINS (Barrier.pins t) Barrier.SENSOR_COUNT.
Proof.
  intros (L1 & L2 & _) [Hsync Hleds].
  pose proof (scanFrom_synced Barrier.SENSOR_PINS (Barrier.autoOpen (Barrier.millisSensors t))
                (autoOpen_occupancy (Barrier.millisSensors t)) (Barrier.pins t)
                Barrier.SENSOR_COUNT 0 (s, false) Hsync) as Hsync'.
  pose proof (scanSensors_samples Barrier.SENSOR_COUNT Barrier.SENSOR_PINS
                (Barrier.autoOpen (Barrier.millisSensors t))
                (autoOpen_occupancy (Barrier.millisSensors t)) (Barrier.pins t) s
                L1 L2 Hsync) as Hsamples.
  pose proof (scanFrom_unchanged Barrier.SENSOR_PINS (Barrier.autoOpen (Barrier.millisSensors t))
                (autoOpen_slots (Barrier.millisSensors t))
                (autoOpen_prev (Barrier.millisSensors t)) (Barrier.pins t)
                Barrier.SENSOR_COUNT 0 (s, false)) as Hsame.
  unfold Barrier.loop, Barrier.readSensors.
  fold (scanSensors Barrier.SENSOR_COUNT Barrier.SENSOR_PINS
          (Barrier.autoOpen (Barrier.millisSensors t)) (Barrier.pins t) s) in *.
  set (r := scanSensors _ _ _ (Barrier.pins t) s) in *.
  unfold inStep.
  pose proof (handlers_occupancy t (fst r)) as Hview.
  set (s2 := handleBarrierTiming _ _) in *.
  assert (E1 : slotOccupied s2 = slotOccupied (fst r)) by by_view Hview.
  assert (E2 : previousSlotState s2 = previousSlotState (fst r)) by by_view Hview.
  destruct (snd r).
  - destruct (recount_slots Barrier.SENSOR_COUNT Barrier.SENSOR_COUNT s2) as [-> ->].
    repeat split; try congruence. apply updateLEDStatus_leds.
  - repeat split; try congruence.
    apply (ledsAgree_view _ s); [| exact Hleds].
    rewrite Hview. now rewrite Hsame.
Qed.

Lemma Barrier_reachable_inStep (s : State) :
  Barrier_reachable s -> inStep Barrier.SENSOR_COUNT s.
Proof.
  induction 1 as [now | t s Hreach IH].
  - split; [reflexivity |]. unfold ledsAgree. simpl. auto.
  - apply Barrier_loop_inStep; [now apply Barrier_reachable_agree | exact IH].
Qed.

Lemma Lot6_loop_inStep (io : Pins) (s : State) :
  countersAgree Lot6.SENSOR_COUNT s -> inStep Lot6.SENSOR_COUNT s ->
  inStep Lot6.SENSOR_COUNT (Lot6.loop io s) /\
  slotOccupied (Lot6.loop io s) = samples Lot6.SENSOR_PINS io Lot6.SENSOR_COUNT.
Proof.
  intros (L1 & L2 & _) [Hsync Hleds].
  pose proof (scanFrom_synced Lot6.SENSOR_PINS (fun s' => s') (fun _ => eq_refl) io
                Lot6.SENSOR_COUNT 0 (s, false) Hsync) as Hsync'.
  pose proof (scanSensors_samples Lot6.SENSOR_COUNT Lot6.SENSOR_PINS (fun s' => s')
                (fun _ => eq_refl) io s L1 L2 Hsync) as Hsamples.
  pose proof (scanFrom_unchanged Lot6.SENSOR_PINS (fun s' => s') (fun _ => eq_refl)
                (fun _ => eq_refl) io Lot6.SENSOR_COUNT 0 (s, false)) as Hsame.
  unfold Lot6.loop, Lot6.readSensors.
  fold (scanSensors Lot6.SENSOR_COUNT Lot6.SENSOR_PINS (fun s' => s') io s) in *.
  set (r := scanSensors _ _ _ io s) in *.
  unfold inStep.
  destruct (snd r).
  - destruct (Lot6_recount_slots Lot6.SENSOR_COUNT (fst r)) as [-> ->].
    repeat split; try congruence. apply Lot6_updateLEDStatus_leds.
  - repeat split; try congruence. now rewrite Hsame.
Qed.

Lemma Lot6_reachable_inStep (s : State) :
  Lot6_reachable s -> inStep Lot6.SENSOR_COUNT s.
Proof.
  induction 1 as [now | io s Hreach IH].
  - split; [reflexivity |]. unfold ledsAgree. simpl. auto.
  - apply Lot6_loop_inStep; [now apply Lot6_reachable_agree | exact IH].
Qed.

Lemma resetFrom_synced (k : nat) :
  forall i s, slotOccupied s = previousSlotState s ->
    slotOccupied (Web.resetFrom k i s) = previousSlotState (Web.resetFrom k i s).
Proof.
  induction k as [| k IH]; intros i s H; simpl; [exact H |].
  apply IH. simpl. now rewrite H.
Qed.

Lemma Serial_println_slots (m : Msg) (s : State) :
  slotOccupied (Serial_println m s) = slotOccupied s /\
  previousSlotState (Serial_println m s) = previousSlotState s.
Proof. split; reflexivity. Qed.

Lemma handleAdminAPI_inStep (actionOf : string -> string) (plain : option string)
    (now : Z) (s : State) :
  inStep Web.SENSOR_COUNT s ->
  inStep Web.SENSOR_COUNT (fst (Web.handleAdminAPI actionOf plain now s)).
Proof.
  intros Hstep. unfold Web.handleAdminAPI.
  destruct plain as [body |]; [| exact Hstep].
  destruct (String.eqb (actionOf body) "reset"); [| exact Hstep].
  cbn [fst]. destruct Hstep as [Hsync _].
  set (s3 := Web.resetFrom Web.SENSOR_COUNT 0
               (set_systemStartTime now (set_totalDetections 0 s))).
  split.
  - destruct (Serial_println_slots SystemResetMsg
                (updateLEDStatus Web.SENSOR_COUNT
                   (updateOccupancyCounters Web.SENSOR_COUNT s3))) as [-> ->].
    destruct (recount_slots Web.SENSOR_COUNT Web.SENSOR_COUNT s3) as [-> ->].
    apply resetFrom_synced. exact Hsync.
  - apply (ledsAgree_view _ _ _ (Serial_println_occupancy _ _)).
    apply updateLEDStatus_leds.
Qed.

Lemma handleClient_inStep (actionOf : string -> string) (t : Web.Tick) (s : State) :
  inStep Web.SENSOR_COUNT s ->
  inStep Web.SENSOR_COUNT (fst (Web.handleClient actionOf t s)).
Proof.
  intros Hstep. unfold Web.handleClient.
  destruct (Web.request t) as [[| | | plain] |]; cbn [fst]; try exact Hstep.
  now apply handleAdminAPI_inStep.
Qed.

Lemma Web_loop_inStep (actionOf : string -> string) (t : Web.Tick) (s : State) :
  countersAgree Web.SENSOR_COUNT s -> inStep Web.SENSOR_COUNT s ->
  inStep Web.SENSOR_COUNT (fst (Web.loop actionOf t s)) /\
  slotOccupied (fst (Web.loop actionOf t s))
  = samples Web.SENSOR_PINS (Web.pins t) Web.SENSOR_COUNT.
Proof.
  intros Hagree Hstep.
  pose proof (handleClient_agree actionOf t s Hagree) as (L1 & L2 & _).
  pose proof (handleClient_inStep actionOf t s Hstep) as [Hsync Hleds].
  set (s0 := fst (Web.handleClient actionOf t s)) in *.
  pose proof (scanFrom_synced Web.SENSOR_PINS (fun s' => s') (fun _ => eq_refl)
                (Web.pins t) Web.SENSOR_COUNT 0 (s0, false) Hsync) as Hsync'.
  pose proof (scanSensors_samples Web.SENSOR_COUNT Web.SENSOR_PINS (fun s' => s')
                (fun _ => eq_refl) (Web.pins t) s0 L1 L2 Hsync) as Hsamples.
  pose proof (scanFrom_unchanged Web.SENSOR_PINS (fun s' => s') (fun _ => eq_refl)
                (fun _ => eq_refl) (Web.pins t) Web.SENSOR_COUNT 0 (s0, false)) as Hsame.
  unfold Web.loop, Web.readSensors. cbn [fst]. fold s0.
  fold (scanSensors Web.SENSOR_COUNT Web.SENSOR_PINS (fun s' => s') (Web.pins t) s0) in *.
  set (r := scanSensors _ _ _ (Web.pins t) s0) in *.
  unfold inStep.
  destruct (snd r).
  - destruct (recount_slots Web.SENSOR_COUNT Web.SENSOR_COUNT (fst r)) as [-> ->].
    repeat split; try congruence. apply updateLEDStatus_leds.
  - repeat split; try congruence. now rewrite Hsame.
Qed.

Lemma Web_reachable_inStep (actionOf : string -> string) (s : State) :
  Web_reachable actionOf s -> inStep Web.SENSOR_COUNT s.
Proof.
  induction 1 as [now | t s Hreach IH].
  - split; [reflexivity |]. unfold ledsAgree. simpl. auto.
  - apply Web_loop_inStep; [now apply (Web_reachable_agree actionOf) | exact IH].
Qed.

(** X1.  Between two passes of any of the three sketches the LEDs show
    what the counter says: red on and green off if [occupiedCount] is the
    slot count, green on and red off otherwise.  The LEDs are only written
    on a change, yet they never lag behind the counter. *)
Theorem leds_follow_counter :
  (forall s, Barrier_reachable s -> ledsAgree Barrier.SENSOR_COUNT s) /\
  (forall actionOf s, Web_reachable actionOf s -> ledsAgree Web.SENSOR_COUNT s) /\
  (forall s, Lot6_reachable s -> ledsAgree Lot6.SENSOR_COUNT s).
Proof.
  split; [| split].
  - intros s H. now apply Barrier_reachable_inStep.
  - intros actionOf s H. now apply (Web_reachable_inStep actionOf).
  - intros s H. now apply Lot6_reachable_inStep.
Qed.

Lemma leds_follow_counter_witness :
  ledsAgree Lot6.SENSOR_COUNT (Lot6.loop (fun _ => LOW) (Lot6.setup 2000)) /\
  ledsAgree Barrier.SENSOR_COUNT
    (Barrier.loop (tickAt (lowPin 4) 2200) (Barrier.setup 2000)).
Proof.
  destruct leds_follow_counter as (HB & _ & HL). split.
  - apply HL. apply Lot6_reach_loop, Lot6_reach_setup.
  - apply HB. apply Barrier_reach_loop, Barrier_reach_setup.
Defined.

(** X2.  Between two passes of any of the three sketches
    [previousSlotState] and [slotOccupied] hold the same values: the
    reading an edge is detected against is the occupancy that is reported.
    The admin reset of the web sketch keeps them together too. *)
Theorem slot_arrays_in_step :
  (forall s, Barrier_reachable s -> slotOccupied s = previousSlotState s) /\
  (forall actionOf s, Web_reachable actionOf s -> slotOccupied s = previousSlotState s) /\
  (forall s, Lot6_reachable s -> slotOccupied s = previousSlotState s).
Proof.
  split; [| split].
  - intros s H. now apply Barrier_reachable_inStep.
  - intros actionOf s H. now apply (Web_reachable_inStep actionOf).
  - intros s H. now apply Lot6_reachable_inStep.
Qed.

Lemma slot_arrays_witness :
  let s := fst (Web.loop (fun b => b)
                  {| Web.request := Some (Web.PostAdmin (Some "reset"%string));
                     Web.millisRequest := 3000; Web.freeHeap := 0;
                     Web.pins := lowPin 5 |}
                  (fst (Web.loop (fun b => b) (quietTick (lowPin 4)) (Web.setup 1000)))) in
  slotOccupied s = previousSlotState s.
Proof.
  intros s. apply (proj1 (proj2 slot_arrays_in_step) (fun b => b)).
  apply Web_reach_loop, Web_reach_loop, Web_reach_setup.
Defined.

(** X3.  After every pass, of any of the three sketches, [slotOccupied]
    is exactly what the sensors read in that pass, channel by channel, and
    [occupiedCount] is the number of sensors that read LOW; nothing of the
    occupancy of earlier passes is left, also when the pass of the web
    sketch served a reset. *)
Theorem pass_tracks_sensors :
  (forall t s, Barrier_reachable s ->
     slotOccupied (Barrier.loop t s)
       = samples Barrier.SENSOR_PINS (Barrier.pins t) Barrier.SENSOR_COUNT /\
     occupiedCount (Barrier.loop t s)
       = occupiedSlots (samples Barrier.SENSOR_PINS (Barrier.pins t) Barrier.SENSOR_COUNT)) /\
  (forall actionOf t s, Web_reachable actionOf s ->
     slotOccupied (fst (Web.loop actionOf t s))
       = samples Web.SENSOR_PINS (Web.pins t) Web.SENSOR_COUNT /\
     occupiedCount (fst (Web.loop actionOf t s))
       = occupiedSlots (samples Web.SENSOR_PINS (Web.pins t) Web.SENSOR_COUNT)) /\
  (forall io s, Lot6_reachable s ->
     slotOccupied (Lot6.loop io s) = samples Lot6.SENSOR_PINS io Lot6.SENSOR_COUNT /\
     occupiedCount (Lot6.loop io s)
       = occupiedSlots (samples Lot6.SENSOR_PINS io Lot6.SENSOR_COUNT)).
Proof.
  split; [| split].
  - intros t s H.
    destruct (Barrier_loop_inStep t s (Barrier_reachable_agree s H)
                (Barrier_reachable_inStep s H)) as [_ E].
    split; [exact E |]. rewrite <- E.
    now apply Barrier_loop_agree, Barrier_reachable_agree.
  - intros actionOf t s H.
    destruct (Web_loop_inStep actionOf t s (Web_reachable_agree actionOf s H)
                (Web_reachable_inStep actionOf s H)) as [_ E].
    split; [exact E |]. rewrite <- E.
    now apply Web_loop_agree, (Web_reachable_agree actionOf).
  - intros io s H.
    destruct (Lot6_loop_inStep io s (Lot6_reachable_agree s H)
                (Lot6_reachable_inStep s H)) as [_ E].
    split; [exact E |]. rewrite <- E.
    now apply Lot6_loop_agree, Lot6_reachable_agree.
Qed.

Lemma pass_tracks_sensors_witness :
  let s := Barrier.loop (tickAt (lowPin 4) 2200) (Barrier.setup 2000) in
  let t := tickAt (lowPin 18) 2400 in
  slotOccupied (Barrier.loop t s) = [false; false; true] /\
  occupiedCount (Barrier.loop t s) = 1.
Proof.
  intros s t.
  apply (proj1 pass_tracks_sensors t s).
  apply Barrier_reach_loop, Barrier_reach_setup.
Defined.

(** ** The detection counter *)

Lemma occupiedLines_app (l1 l2 : list Msg) :
  occupiedLines (l1 ++ l2) = (occupiedLines l1 + occupiedLines l2)%nat.
Proof. unfold occupiedLines. now rewrite List.filter_app, length_app. Qed.

Lemma ulong_incr_ulong (x : Z) : ulong_incr (ulong x) = ulong (x + 1).
Proof.
  unfold ulong_incr, ulong. rewrite Zplus_mod_idemp_l. reflexivity.
Qed.

Section DetectionFacts.

Variable pinsOf : list Z.
Variable hook : State -> State.
Hypothesis hook_total : forall s, totalDetections (hook s) = totalDetections s.
Hypothesis hook_lines : forall s, exists extra,
  serial (hook s) = serial s ++ extra /\ occupiedLines extra = 0%nat.

Lemma scanSlot_counted (io : Pins) (i : nat) (acc : State * bool) :
  totalDetections (fst acc) = ulong (Z.of_nat (occupiedLines (serial (fst acc)))) ->
  totalDetections (fst (scanSlot pinsOf hook io i acc))
  = ulong (Z.of_nat (occupiedLines (serial (fst (scanSlot pinsOf hook io i acc))))).
Proof.
  intros H. unfold scanSlot.
  destruct (bool_ne _ _); [| exact H].
  destruct (currentStateOf pinsOf io i); cbn [fst].
  - simpl. rewrite occupiedLines_app, H, ulong_incr_ulong.
    change (occupiedLines [SlotOccupiedMsg i]) with 1%nat.
    f_equal. lia.
  - rewrite hook_total.
    destruct (hook_lines (Serial_println (SlotAvailableMsg i)
      (set_slotOccupied (<[i := false]> (slotOccupied (fst acc)))
        (set_previousSlotState (<[i := false]> (previousSlotState (fst acc)))
          (fst acc))))) as (extra & -> & Hextra).
    simpl. rewrite !occupiedLines_app, Hextra, H.
    change (occupiedLines [SlotAvailableMsg i]) with 0%nat.
    f_equal. lia.
Qed.

Lemma scanFrom_counted (io : Pins) (k : nat) :
  forall i acc,
    totalDetections (fst acc) = ulong (Z.of_nat (occupiedLines (serial (fst acc)))) ->
    totalDetections (fst (scanFrom pinsOf hook k i io acc))
    = ulong (Z.of_nat (occupiedLines (serial (fst (scanFrom pinsOf hook k i io acc))))).
Proof.
  induction k as [| k IH]; intros i acc H; simpl; [exact H |].
  apply IH. now apply scanSlot_counted.
Qed.

End DetectionFacts.

Lemma autoOpen_lines (now : Z) (s : State) :
  exists extra,
    serial (Barrier.autoOpen now s) = serial s ++ extra /\ occupiedLines extra = 0%nat.
Proof.
  unfold Barrier.autoOpen, openBarrier.
  destruct (barrierOpen s); simpl.
  - exists []. now rewrite app_nil_r.
  - rewrite <- app_assoc. eexists; split; reflexivity.
Qed.

Lemma autoOpen_total (now : Z) (s : State) :
  totalDetections (Barrier.autoOpen now s) = totalDetections s.
Proof. by_view (autoOpen_occupancy now s). Qed.

Lemma println_lines (m : Msg) (s : State) :
  isOccupiedLine m = false ->
  occupiedLines (serial (Serial_println m s)) = occupiedLines (serial s).
Proof.
  intros H. unfold Serial_println, occupiedLines. simpl.
  rewrite List.filter_app, length_app. simpl. rewrite H. simpl. lia.
Qed.

Lemma closeBarrier_lines (s : State) :
  occupiedLines (serial (closeBarrier s)) = occupiedLines (serial s).
Proof.
  unfold closeBarrier. destruct (barrierOpen s); [| reflexivity].
  now rewrite println_lines.
Qed.

Lemma openBarrier_lines (now : Z) (s : State) :
  occupiedLines (serial (openBarrier now s)) = occupiedLines (serial s).
Proof.
  unfold openBarrier. destruct (barrierOpen s); [reflexivity |].
  cbn [negb]. now rewrite println_lines.
Qed.

Lemma handleBarrierTiming_lines (now : Z) (s : State) :
  occupiedLines (serial (handleBarrierTiming now s)) = occupiedLines (serial s).
Proof.
  unfold handleBarrierTiming. destruct (_ && _); [apply closeBarrier_lines | reflexivity].
Qed.

Lemma handleButtonPress_lines (level now : Z) (s : State) :
  occupiedLines (serial (handleButtonPress level now s)) = occupiedLines (serial s).
Proof.
  destruct (commits level now s) eqn:C.
  - unfold handleButtonPress.
    unfold commits, windowStart in C. apply andb_true_iff in C as [C1 C2].
    destruct (bool_ne (to_bool level) (lastButtonState s)) eqn:E.
    + rewrite ulong_sub_self in C1. discriminate C1.
    + change (lastDebounceTime s) with (lastDebounceTime s) in C1.
      cbn zeta. rewrite C1, C2.
      change (serial (set_lastButtonState (to_bool level) ?x)) with (serial x).
      destruct (of_bool (buttonPressed (set_buttonPressed (to_bool level) s)) =? LOW);
        [| reflexivity].
      destruct (barrierOpen (Serial_println ButtonPressedMsg
                               (set_buttonPressed (to_bool level) s))).
      * rewrite println_lines, closeBarrier_lines, println_lines by reflexivity.
        reflexivity.
      * rewrite println_lines, openBarrier_lines, println_lines by reflexivity.
        reflexivity.
  - rewrite (handleButtonPress_no_commit level now s C).
    now destruct (bool_ne (to_bool level) (lastButtonState s)).
Qed.

Lemma recount_detections (n m : nat) (s : State) :
  totalDetections (updateLEDStatus m (updateOccupancyCounters n s)) = totalDetections s /\
  serial (updateLEDStatus m (updateOccupancyCounters n s)) = serial s.
Proof. unfold updateLEDStatus. now destruct (_ =? _). Qed.

Lemma Lot6_recount_detections (n : nat) (s : State) :
  totalDetections (Lot6.updateLEDStatus (updateOccupancyCounters n s)) = totalDetections s /\
  serial (Lot6.updateLEDStatus (updateOccupancyCounters n s)) = serial s.
Proof. unfold Lot6.updateLEDStatus. now split_ifs. Qed.

Lemma Barrier_loop_counted (t : Barrier.Tick) (s : State) :
  totalDetections s = ulong (Z.of_nat (occupiedLines (serial s))) ->
  totalDetections (Barrier.loop t s)
  = ulong (Z.of_nat (occupiedLines (serial (Barrier.loop t s)))).
Proof.
  intros H.
  pose proof (scanFrom_counted Barrier.SENSOR_PINS (Barrier.autoOpen (Barrier.millisSensors t))
                (autoOpen_total (Barrier.millisSensors t))
                (autoOpen_lines (Barrier.millisSensors t)) (Barrier.pins t)
                Barrier.SENSOR_COUNT 0 (s, false) H) as Hscan.
  unfold Barrier.loop, Barrier.readSensors, scanSensors.
  set (r := scanFrom _ _ _ _ (Barrier.pins t) (s, false)) in *.
  pose proof (handlers_occupancy t (fst r)) as Hview.
  assert (Hlines : occupiedLines (serial
            (handleBarrierTiming (Barrier.millisTiming t)
               (handleButtonPress (digitalRead (Barrier.pins t) BUTTON_PIN)
                  (Barrier.millisButton t) (fst r))))
          = occupiedLines (serial (fst r)))
    by now rewrite handleBarrierTiming_lines, handleButtonPress_lines.
  set (s2 := handleBarrierTiming _ _) in *.
  assert (Htotal : totalDetections s2 = totalDetections (fst r)) by by_view Hview.
  destruct (snd r).
  - destruct (recount_detections Barrier.SENSOR_COUNT Barrier.SENSOR_COUNT s2) as [-> ->].
    congruence.
  - congruence.
Qed.

Lemma Lot6_loop_counted (io : Pins) (s : State) :
  totalDetections s = ulong (Z.of_nat (occupiedLines (serial s))) ->
  totalDetections (Lot6.loop io s)
  = ulong (Z.of_nat (occupiedLines (serial (Lot6.loop io s)))).
Proof.
  intros H.
  assert (Hid : forall x : State, exists extra,
            serial x = serial x ++ extra /\ occupiedLines extra = 0%nat).
  { intros x. exists []. now rewrite app_nil_r. }
  pose proof (scanFrom_counted Lot6.SENSOR_PINS (fun s' => s') (fun _ => eq_refl) Hid io
                Lot6.SENSOR_COUNT 0 (s, false) H) as Hscan.
  unfold Lot6.loop, Lot6.readSensors, scanSensors.
  set (r := scanFrom _ _ _ _ io (s, false)) in *.
  destruct (snd r); [| exact Hscan].
  destruct (Lot6_recount_detections Lot6.SENSOR_COUNT (fst r)) as [-> ->].
  exact Hscan.
Qed.

(** X4.  In the barrier sketch and in the 6-slot sketch, between two
    passes, [totalDetections] is the number of "occupied" edges reported
    since the start, as an [unsigned long]: every vacant-to-occupied edge
    counts once, and nothing else (a vacated edge, the button, the barrier)
    moves the counter. *)
Theorem detections_count_occupied_edges :
  (forall s, Barrier_reachable s ->
     totalDetections s = ulong (Z.of_nat (occupiedLines (serial s)))) /\
  (forall s, Lot6_reachable s ->
     totalDetections s = ulong (Z.of_nat (occupiedLines (serial s)))).
Proof.
  split.
  - induction 1 as [now | t s _ IH]; [reflexivity | now apply Barrier_loop_counted].
  - induction 1 as [now | io s _ IH]; [reflexivity | now apply Lot6_loop_counted].
Qed.

Lemma detections_count_witness :
  let s := Barrier.run [tickAt (lowPin 4) 2200; tickAt idlePins 2400;
                        tickAt (lowPin 4) 2600; tickAt (lowPin 25) 2800]
             (Barrier.setup 2000) in
  totalDetections s = 2 /\ occupiedLines (serial s) = 2%nat.
Proof.
  intros s. split; [| reflexivity].
  rewrite (proj1 detections_count_occupied_edges s).
  - reflexivity.
  - unfold s, Barrier.run. simpl foldl.
    repeat apply Barrier_reach_loop. apply Barrier_reach_setup.
Defined.

(** ** A button that is held *)

Lemma steady_button_is_ignored (samples : list (Z * Z)) :
  forall s r,
    buttonPressed s = r ->
    Forall (fun x => to_bool (fst x) = r) samples ->
    barrierView (pressRun samples s) = barrierView s /\
    buttonPressed (pressRun samples s) = r.
Proof.
  induction samples as [| x tail IH]; intros s r Hs Hall; [auto |].
  apply Forall_cons in Hall as [Hx Htail].
  change (pressRun (x :: tail) s)
    with (pressRun tail (handleButtonPress (fst x) (snd x) s)).
  assert (Hc : commits (fst x) (snd x) s = false).
  { unfold commits. rewrite Hx, Hs, (proj2 (bool_ne_false r r) eq_refl).
    apply andb_false_r. }
  destruct (step_views (fst x) (snd x) s) as (V1 & _).
  rewrite Hc in V1.
  pose proof (handleButtonPress_barrier (fst x) (snd x) s) as Hb.
  rewrite Hc in Hb. cbn [andb] in Hb.
  destruct (IH (handleButtonPress (fst x) (snd x) s) r) as [E1 E2];
    [congruence | exact Htail |].
  split; congruence.
Qed.

(** X5.  Over any run of calls of [handleButtonPress] whose samples all
    read the same level, however many and however far apart, the servo
    gets at most one command: a button that is held toggles the barrier
    once and does not repeat.  Once the stable state is the level read, the
    run changes neither position, opening time nor servo. *)
Theorem held_button_toggles_once (samples : list (Z * Z)) (r : bool) (s : State) :
  Forall (fun x => to_bool (fst x) = r) samples ->
  (servo (pressRun samples s) = servo s \/
   exists angle, servo (pressRun samples s) = servo s ++ [angle]) /\
  (buttonPressed s = r -> barrierView (pressRun samples s) = barrierView s).
Proof.
  intros Hall. split; [| intros Hs; now apply (steady_button_is_ignored samples s r)].
  revert s. induction samples as [| x tail IH]; intros s; [now left |].
  apply Forall_cons in Hall as [Hx Htail].
  change (pressRun (x :: tail) s)
    with (pressRun tail (handleButtonPress (fst x) (snd x) s)).
  pose proof (handleButtonPress_barrier (fst x) (snd x) s) as Hb.
  destruct (step_views (fst x) (snd x) s) as (V1 & _).
  destruct (commits (fst x) (snd x) s) eqn:Hc.
  - destruct (steady_button_is_ignored tail (handleButtonPress (fst x) (snd x) s) r)
      as [E _]; [congruence | exact Htail |].
    change (barrierView (handleButtonPress (fst x) (snd x) s))
      with (barrierOpen (handleButtonPress (fst x) (snd x) s),
            barrierOpenTime (handleButtonPress (fst x) (snd x) s),
            servo (handleButtonPress (fst x) (snd x) s)) in E.
    apply barrierView_eq in E as (_ & _ & ->).
    destruct (negb (to_bool (fst x))); cbn [andb] in Hb.
    + apply barrierView_eq in Hb as (_ & _ & ->). right. eauto.
    + change (barrierView s) with (barrierOpen s, barrierOpenTime s, servo s) in Hb.
      apply barrierView_eq in Hb as (_ & _ & ->). now left.
  - cbn [andb] in Hb.
    change (barrierView s) with (barrierOpen s, barrierOpenTime s, servo s) in Hb.
    apply barrierView_eq in Hb as (_ & _ & E).
    rewrite <- E. apply (IH Htail).
Qed.

Lemma held_button_witness :
  let s := Barrier.loop (tickAt idlePins 2200) (Barrier.setup 2000) in
  let held := [(LOW, 2400); (LOW, 2600); (LOW, 5000); (LOW, 9000); (LOW, 60000)] in
  servo (pressRun held s) = servo s \/
  exists angle, servo (pressRun held s) = servo s ++ [angle].
Proof.
  intros s held.
  apply (held_button_toggles_once held false s).
  repeat constructor.
Defined.

(** The run of the witness: the press is committed at 2600 and opens the
    barrier; the samples that follow, all pressed, leave it alone. *)
Example held_button_run :
  let s := Barrier.loop (tickAt idlePins 2200) (Barrier.setup 2000) in
  servo s = [0] /\
  servo (pressRun [(LOW, 2400); (LOW, 2600)] s) = [0; 90] /\
  servo (pressRun [(LOW, 2400); (LOW, 2600); (LOW, 5000); (LOW, 9000); (LOW, 60000)] s)
  = [0; 90].
Proof. vm_compute. repeat split. Qed.

(** ** What moves the barrier *)

Lemma emitted_app (s s' : State) (l : list Msg) :
  serial s' = serial s ++ l -> emitted s s' = l.
Proof. intros E. unfold emitted. rewrite E. apply drop_app_length. Qed.

Lemma handleBarrierTiming_prints (now : Z) (s : State) :
  exists extra, serial (handleBarrierTiming now s) = serial s ++ extra.
Proof.
  unfold handleBarrierTiming, closeBarrier.
  destruct (barrierOpen s); cbn [andb].
  - destruct (_ <=? _).
    + eexists. reflexivity.
    + exists []. now rewrite app_nil_r.
  - exists []. now rewrite app_nil_r.
Qed.

(** The "BUTTON PRESSED" line is printed exactly by a call that commits a
    press. *)
Lemma handleButtonPress_prints (level now : Z) (s : State) :
  exists extra,
    serial (handleButtonPress level now s) = serial s ++ extra /\
    (In ButtonPressedMsg extra <->
     commits level now s && negb (to_bool level) = true).
Proof.
  destruct (commits level now s) eqn:C.
  - pose proof C as C'.
    unfold commits, windowStart in C'. apply andb_true_iff in C' as [C1 C2].
    destruct (bool_ne (to_bool level) (lastButtonState s)) eqn:E;
      [rewrite ulong_sub_self in C1; discriminate C1 |].
    unfold handleButtonPress. cbn zeta. rewrite E, C1, C2.
    change (serial (set_lastButtonState (to_bool level) ?x)) with (serial x).
    change (buttonPressed (set_buttonPressed (to_bool level) s)) with (to_bool level).
    destruct (to_bool level); cbn [of_bool negb andb].
    + change (1 =? LOW) with false. cbn iota.
      exists []. rewrite app_nil_r. split; [reflexivity |].
      simpl. intuition discriminate.
    + change (0 =? LOW) with true. cbn iota.
      change (barrierOpen (Serial_println ButtonPressedMsg (set_buttonPressed false s)))
        with (barrierOpen s).
      unfold closeBarrier, openBarrier.
      change (barrierOpen (Serial_println ButtonPressedMsg (set_buttonPressed false s)))
        with (barrierOpen s).
      destruct (barrierOpen s); cbn [negb]; simpl serial; rewrite <- !app_assoc;
        (eexists; split; [reflexivity |]); simpl; intuition.
  - rewrite (handleButtonPress_no_commit level now s C).
    exists []. rewrite app_nil_r. split.
    + now destruct (bool_ne (to_bool level) (lastButtonState s)).
    + simpl. intuition discriminate.
Qed.

(** A pass that reports no "vacated" edge and no button press reaches its
    timing check with position, opening time and servo as they were. *)
Lemma quiet_pass_reaches_timer (t : Barrier.Tick) (s : State) :
  (forall j, ~ In (SlotAvailableMsg j) (emitted s (Barrier.loop t s))) ->
  ~ In ButtonPressedMsg (emitted s (Barrier.loop t s)) ->
  barrierView
    (handleButtonPress (digitalRead (Barrier.pins t) BUTTON_PIN) (Barrier.millisButton t)
       (fst (Barrier.readSensors (Barrier.millisSensors t) (Barrier.pins t) s)))
  = barrierView s.
Proof.
  intros Hvac Hpress.
  assert (Hserial : serial (Barrier.loop t s)
            = serial (handleBarrierTiming (Barrier.millisTiming t)
                (handleButtonPress (digitalRead (Barrier.pins t) BUTTON_PIN)
                   (Barrier.millisButton t)
                   (fst (Barrier.readSensors (Barrier.millisSensors t) (Barrier.pins t) s))))).
  { unfold Barrier.loop. destruct (snd _); [| reflexivity].
    apply (proj2 (recount_detections _ _ _)). }
  set (r := fst (Barrier.readSensors (Barrier.millisSensors t) (Barrier.pins t) s)) in *.
  set (level := digitalRead (Barrier.pins t) BUTTON_PIN) in *.
  destruct (scanFrom_serial Barrier.SENSOR_PINS (Barrier.autoOpen (Barrier.millisSensors t))
              (autoOpen_slots _) (autoOpen_prev _) (autoOpen_serial _)
              (Barrier.pins t) Barrier.SENSOR_COUNT 0 (s, false)) as (n1 & E1 & _).
  change (fst (scanFrom Barrier.SENSOR_PINS (Barrier.autoOpen (Barrier.millisSensors t))
                 Barrier.SENSOR_COUNT 0 (Barrier.pins t) (s, false))) with r in E1.
  cbn [fst] in E1.
  destruct (handleButtonPress_prints level (Barrier.millisButton t) r) as (n2 & E2 & Hn2).
  destruct (handleBarrierTiming_prints (Barrier.millisTiming t)
              (handleButtonPress level (Barrier.millisButton t) r)) as (n3 & E3).
  assert (Hall : emitted s (Barrier.loop t s) = n1 ++ n2 ++ n3).
  { apply emitted_app. rewrite Hserial, E3, E2, E1. now rewrite <- !app_assoc. }
  rewrite Hall in Hvac, Hpress.
  (* the sensor loop *)
  assert (Hscan : barrierView r = barrierView s).
  { pose proof (Barrier_scanFrom_barrier (Barrier.millisSensors t) (Barrier.pins t)
                  Barrier.SENSOR_COUNT 0 (s, false)) as Hb.
    change (fst (scanFrom Barrier.SENSOR_PINS (Barrier.autoOpen (Barrier.millisSensors t))
                   Barrier.SENSOR_COUNT 0 (Barrier.pins t) (s, false))) with r in Hb.
    cbn [fst] in Hb.
    destruct (barrierOpen s); [exact Hb |].
    destruct (vacatedIn _ _ _ _ _) eqn:V; [| exact Hb].
    exfalso.
    apply (proj2 (Barrier_vacated_lines (Barrier.millisSensors t) (Barrier.pins t) s))
      in V as (j & Hj).
    fold r in Hj. rewrite (emitted_app s r n1 E1) in Hj.
    apply (Hvac j). apply in_or_app. now left. }
  (* the button *)
  rewrite handleButtonPress_barrier.
  destruct (commits level (Barrier.millisButton t) r && negb (to_bool level)) eqn:C;
    [| exact Hscan].
  exfalso. apply Hpress. apply in_or_app. right. apply in_or_app. left.
  now apply Hn2.
Qed.

(** X6.  A pass of the barrier sketch that reports no "vacated" edge and
    no button press, and whose timing check does not find an open barrier
    5000 ms or more after its opening, leaves position, opening time and
    servo as they were: nothing but these three events moves the barrier. *)
Theorem barrier_moves_only_on_triggers (t : Barrier.Tick) (s : State) :
  (forall j, ~ In (SlotAvailableMsg j) (emitted s (Barrier.loop t s))) ->
  ~ In ButtonPressedMsg (emitted s (Barrier.loop t s)) ->
  (barrierOpen s = true ->
   ulong_sub (Barrier.millisTiming t) (barrierOpenTime s) < BARRIER_OPEN_DURATION) ->
  barrierView (Barrier.loop t s) = barrierView s.
Proof.
  intros Hvac Hpress Htime.
  pose proof (quiet_pass_reaches_timer t s Hvac Hpress) as Hs1.
  rewrite Barrier_loop_barrier, handleBarrierTiming_barrier.
  set (s1 := handleButtonPress _ _ _) in *.
  change (barrierView s) with (barrierOpen s, barrierOpenTime s, servo s) in Hs1.
  pose proof Hs1 as Hs1'.
  apply barrierView_eq in Hs1' as (Ho & Ht & Hv).
  rewrite Ho, Ht.
  destruct (barrierOpen s) eqn:Hopen; cbn [andb];
    [| unfold barrierView; congruence].
  specialize (Htime eq_refl). apply Z.leb_gt in Htime. rewrite Htime.
  unfold barrierView; congruence.
Qed.

Lemma barrier_moves_witness :
  let s := Barrier.run [tickAt (lowPin 4) 2200; tickAt idlePins 2400] (Barrier.setup 2000) in
  let t := tickAt (lowPin 5) 4000 in
  barrierView (Barrier.loop t s) = barrierView s.
Proof.
  intros s t. apply (barrier_moves_only_on_triggers t s).
  - intros j H. vm_compute in H. intuition discriminate.
  - intros H. vm_compute in H. intuition discriminate.
  - intros _. vm_compute. reflexivity.
Defined.

(** ** The web sketch: status snapshot and reset *)

(** X7.  Between two passes of the web sketch, the document served by
    the status route is consistent: [occupied] is the number of [true]
    entries of [slots], [available] is [total] minus [occupied], [slots]
    lists the three slots in order and [slotNames] their names. *)
Theorem status_snapshot_is_consistent (actionOf : string -> string)
    (now heap : Z) (s : State) :
  Web_reachable actionOf s ->
  Web.handleStatusAPI now heap s
  = {| Web.code := 200; Web.contentType := "application/json";
       Web.content := Web.Document
         [("occupied", Web.JNum (occupiedSlots (slotOccupied s)));
          ("available", Web.JNum (3 - occupiedSlots (slotOccupied s)));
          ("total", Web.JNum 3);
          ("uptime", Web.JNum (ulong_sub now (systemStartTime s) / 1000));
          ("totalDetections", Web.JNum (totalDetections s));
          ("freeMemory", Web.JNum heap);
          ("slots", Web.JArr (map Web.JBool (slotOccupied s)));
          ("slotNames", Web.JArr [Web.JStr "A1"; Web.JStr "A2"; Web.JStr "B1"])]%string |}.
Proof.
  intros H. apply (Web_reachable_agree actionOf) in H as (L1 & _ & Hocc & Hav).
  unfold Web.handleStatusAPI. rewrite Hav, Hocc.
  cbn [Web.statusFrom Web.SENSOR_COUNT fst snd].
  destruct (slotOccupied s) as [| a [| b [| c [| d l]]]]; try discriminate L1.
  reflexivity.
Qed.

Lemma status_snapshot_witness :
  let s := fst (Web.loop (fun b => b) (quietTick (lowPin 5)) (Web.setup 1000)) in
  Web.handleStatusAPI 9000 52000 s
  = {| Web.code := 200; Web.contentType := "application/json";
       Web.content := Web.Document
         [("occupied", Web.JNum 1);
          ("available", Web.JNum 2);
          ("total", Web.JNum 3);
          ("uptime", Web.JNum 8);
          ("totalDetections", Web.JNum 1);
          ("freeMemory", Web.JNum 52000);
          ("slots", Web.JArr [Web.JBool false; Web.JBool true; Web.JBool false]);
          ("slotNames", Web.JArr [Web.JStr "A1"; Web.JStr "A2"; Web.JStr "B1"])]%string |}.
Proof.
  intros s.
  apply (status_snapshot_is_consistent (fun b => b) 9000 52000 s).
  apply Web_reach_loop, Web_reach_setup.
Defined.

Lemma filter_map_length (f : nat -> bool) (l : list nat) :
  length (List.filter (fun b : bool => b) (map f l)) = length (List.filter f l).
Proof.
  induction l as [| x l IH]; [reflexivity |].
  simpl. destruct (f x); simpl; now rewrite IH.
Qed.

Lemma risingIn_ext (pinsOf : list Z) (io : Pins) (p1 p2 : list bool) (i k : nat) :
  (forall j, (i <= j < i + k)%nat -> read p1 j = read p2 j) ->
  risingIn pinsOf io p1 i k = risingIn pinsOf io p2 i k.
Proof.
  intros H. unfold risingIn. f_equal. apply List.filter_ext_in.
  intros j Hin. apply in_seq in Hin. now rewrite H.
Qed.

Lemma risingIn_le (pinsOf : list Z) (io : Pins) (prev : list bool) (i k : nat) :
  (risingIn pinsOf io prev i k <= k)%nat.
Proof.
  unfold risingIn.
  pose proof (List.filter_length_le
                (fun j => currentStateOf pinsOf io j && negb (read prev j)) (seq i k)) as H.
  now rewrite length_seq in H.
Qed.

Section RisingFacts.

Variable pinsOf : list Z.
Variable hook : State -> State.
Hypothesis hook_view : forall s, occupancyView (hook s) = occupancyView s.

Lemma scanSlot_total (io : Pins) (i : nat) (acc : State * bool) :
  totalDetections (fst (scanSlot pinsOf hook io i acc))
  = if currentStateOf pinsOf io i && negb (read (previousSlotState (fst acc)) i)
    then ulong_incr (totalDetections (fst acc))
    else totalDetections (fst acc).
Proof.
  unfold scanSlot, bool_ne.
  destruct (currentStateOf pinsOf io i), (read (previousSlotState (fst acc)) i);
    simpl; try reflexivity.
  set (x := Serial_println (SlotAvailableMsg i) _).
  assert (E : totalDetections (hook x) = totalDetections x) by by_view (hook_view x).
  rewrite E. reflexivity.
Qed.

(** As long as the counter does not overflow, a pass of the sensor loop
    adds to it the number of channels that read occupied while recorded
    vacant. *)
Lemma scanFrom_rising (io : Pins) (k : nat) :
  forall i acc,
    0 <= totalDetections (fst acc) ->
    totalDetections (fst acc)
    + Z.of_nat (risingIn pinsOf io (previousSlotState (fst acc)) i k) < ULONG_MAX1 ->
    totalDetections (fst (scanFrom pinsOf hook k i io acc))
    = totalDetections (fst acc)
      + Z.of_nat (risingIn pinsOf io (previousSlotState (fst acc)) i k).
Proof.
  induction k as [| k IH]; intros i acc H0 Hmax.
  - unfold risingIn. simpl. lia.
  - cbn [scanFrom].
    assert (Hsplit : risingIn pinsOf io (previousSlotState (fst acc)) i (S k)
              = ((if currentStateOf pinsOf io i
                     && negb (read (previousSlotState (fst acc)) i)
                  then 1 else 0)
                 + risingIn pinsOf io (previousSlotState (fst acc)) (S i) k)%nat).
    { unfold risingIn. cbn [seq List.filter].
      now destruct (currentStateOf pinsOf io i && negb (read (previousSlotState (fst acc)) i)). }
    assert (Hrest : risingIn pinsOf io
              (previousSlotState (fst (scanSlot pinsOf hook io i acc))) (S i) k
              = risingIn pinsOf io (previousSlotState (fst acc)) (S i) k).
    { apply risingIn_ext. intros j Hj.
      apply (scanSlot_prev_other pinsOf hook (hook_keeps_slots hook hook_view)
               (hook_keeps_prev hook hook_view)). lia. }
    pose proof (scanSlot_total io i acc) as Hstep.
    rewrite Hsplit in *.
    rewrite IH; rewrite ?Hrest, ?Hstep;
      destruct (currentStateOf pinsOf io i && negb (read (previousSlotState (fst acc)) i));
      unfold ulong_incr, ulong; rewrite ?Z.mod_small; lia.
Qed.

End RisingFacts.

Lemma handleAdminAPI_reset_state (actionOf : string -> string) (body : string)
    (now : Z) (s : State) :
  actionOf body = "reset"%string ->
  totalDetections (fst (Web.handleAdminAPI actionOf (Some body) now s)) = 0 /\
  forall j, (j < Web.SENSOR_COUNT)%nat ->
    read (previousSlotState (fst (Web.handleAdminAPI actionOf (Some body) now s))) j = false.
Proof.
  intros Haction. unfold Web.handleAdminAPI.
  rewrite Haction. cbn [String.eqb Ascii.eqb Bool.eqb fst].
  set (s2 := set_systemStartTime now (set_totalDetections 0 s)).
  set (s3 := Web.resetFrom Web.SENSOR_COUNT 0 s2).
  pose proof (resetFrom_frame Web.SENSOR_COUNT 0 s2) as (Htotal & _).
  fold s3 in Htotal.
  destruct (Serial_println_slots SystemResetMsg
              (updateLEDStatus Web.SENSOR_COUNT
                 (updateOccupancyCounters Web.SENSOR_COUNT s3))) as [_ ->].
  destruct (recount_slots Web.SENSOR_COUNT Web.SENSOR_COUNT s3) as [_ ->].
  split.
  - change (totalDetections (updateLEDStatus Web.SENSOR_COUNT
                               (updateOccupancyCounters Web.SENSOR_COUNT s3)) = 0).
    rewrite (proj1 (recount_detections _ _ _)). exact Htotal.
  - intros j Hj. apply (resetFrom_clears Web.SENSOR_COUNT 0 s2 j). lia.
Qed.

(** X8.  A pass of the web sketch that serves a reset ends with the cars
    that are parked counted again: the sensor loop of the same pass finds
    every sensor that reads LOW recorded vacant, so after the pass
    [totalDetections] and [occupiedCount] are both the number of sensors
    that read LOW.  The zeroes of the reset last only if the lot is
    empty. *)
Theorem reset_pass_recounts_parked_cars (actionOf : string -> string)
    (t : Web.Tick) (s : State) (body : string) :
  Web_reachable actionOf s ->
  Web.request t = Some (Web.PostAdmin (Some body)) ->
  actionOf body = "reset"%string ->
  totalDetections (fst (Web.loop actionOf t s))
  = occupiedSlots (samples Web.SENSOR_PINS (Web.pins t) Web.SENSOR_COUNT) /\
  occupiedCount (fst (Web.loop actionOf t s))
  = occupiedSlots (samples Web.SENSOR_PINS (Web.pins t) Web.SENSOR_COUNT).
Proof.
  intros Hreach Hreq Haction. split.
  - unfold Web.loop, Web.handleClient, Web.readSensors, scanSensors.
    rewrite Hreq. cbn [fst snd].
    destruct (handleAdminAPI_reset_state actionOf body (Web.millisRequest t) s Haction)
      as [Hzero Hprev].
    set (s0 := fst (Web.handleAdminAPI actionOf (Some body) (Web.millisRequest t) s)) in *.
    assert (Hrise : risingIn Web.SENSOR_PINS (Web.pins t) (previousSlotState s0)
                      0 Web.SENSOR_COUNT
                    = length (List.filter (currentStateOf Web.SENSOR_PINS (Web.pins t))
                                (seq 0 Web.SENSOR_COUNT))).
    { unfold risingIn. f_equal. apply List.filter_ext_in.
      intros j Hin. apply in_seq in Hin. rewrite Hprev by lia. apply andb_true_r. }
    pose proof (scanFrom_rising Web.SENSOR_PINS (fun s' => s') (fun _ => eq_refl)
                  (Web.pins t) Web.SENSOR_COUNT 0 (s0, false)) as Hscan.
    cbn [fst] in Hscan. rewrite Hzero, Hrise in Hscan.
    pose proof (List.filter_length_le (currentStateOf Web.SENSOR_PINS (Web.pins t))
                  (seq 0 Web.SENSOR_COUNT)) as Hle.
    rewrite length_seq in Hle.
    assert (Hsmall : 0 + Z.of_nat (length (List.filter
                       (currentStateOf Web.SENSOR_PINS (Web.pins t))
                       (seq 0 Web.SENSOR_COUNT))) < ULONG_MAX1).
    { unfold ULONG_MAX1, Web.SENSOR_COUNT in *. lia. }
    specialize (Hscan (Z.le_refl 0) Hsmall).
    set (r := scanFrom _ _ _ _ (Web.pins t) (s0, false)) in *.
    assert (Hfinal : totalDetections
              (if snd r
               then updateLEDStatus Web.SENSOR_COUNT
                      (updateOccupancyCounters Web.SENSOR_COUNT (fst r))
               else fst r)
            = totalDetections (fst r)).
    { destruct (snd r); [apply (proj1 (recount_detections _ _ _)) | reflexivity]. }
    rewrite Hfinal, Hscan. unfold occupiedSlots, samples.
    now rewrite filter_map_length.
  - destruct (Web_loop_inStep actionOf t s (Web_reachable_agree actionOf s Hreach)
                (Web_reachable_inStep actionOf s Hreach)) as [_ E].
    rewrite <- E.
    now apply Web_loop_agree, (Web_reachable_agree actionOf).
Qed.

Lemma reset_pass_witness :
  let s := fst (Web.loop (fun b => b) (quietTick (fun _ => LOW)) (Web.setup 1000)) in
  let t := {| Web.request := Some (Web.PostAdmin (Some "reset"%string));
              Web.millisRequest := 3000; Web.freeHeap := 0;
              Web.pins := fun q => if q =? 18 then HIGH else LOW |} in
  totalDetections (fst (Web.loop (fun b => b) t s)) = 2 /\
  occupiedCount (fst (Web.loop (fun b => b) t s)) = 2.
Proof.
  intros s t.
  apply (reset_pass_recounts_parked_cars (fun b => b) t s "reset"%string).
  - apply Web_reach_loop, Web_reach_setup.
  - reflexivity.
  - reflexivity.
Defined.

(** The run of the witness: three cars parked and three detections
    counted; the reset is served while two of them are still there. *)
Example reset_pass_run :
  let s := fst (Web.loop (fun b => b) (quietTick (fun _ => LOW)) (Web.setup 1000)) in
  let t := {| Web.request := Some (Web.PostAdmin (Some "reset"%string));
              Web.millisRequest := 3000; Web.freeHeap := 0;
              Web.pins := fun q => if q =? 18 then HIGH else LOW |} in
  totalDetections s = 3 /\ occupiedCount s = 3 /\
  slotOccupied (fst (Web.loop (fun b => b) t s)) = [true; true; false] /\
  systemStartTime (fst (Web.loop (fun b => b) t s)) = 3000.
Proof. vm_compute. repeat split. Qed.

(** ** WiFi start-up *)




(** A connection that comes up after the last poll of the loop is still
    caught by the final test; one that drops right after the loop is
    missed. *)
Example wifi_final_read :
  connected (initializeWiFi (fun k => (21 <=? k)%nat)) = true /\
  attempts (initializeWiFi (fun k => (21 <=? k)%nat)) = 20%nat /\
  connected (initializeWiFi (fun k => Nat.eqb k 3)) = false /\
  attempts (initializeWiFi (fun k => Nat.eqb k 3)) = 3%nat.
Proof. vm_compute. repeat split. Qed.

(** ** The time left on the display *)

Lemma ulong_sub_plain (a b : Z) :
  0 <= b <= a -> a < ULONG_MAX1 -> ulong_sub a b = a - b.
Proof. intros H1 H2. unfold ulong_sub, ulong. apply Z.mod_small. lia. Qed.

Lemma ulong_sub_wrapped (a b : Z) :
  0 <= a < b -> b < ULONG_MAX1 -> ulong_sub a b = ULONG_MAX1 + a - b.
Proof.
  intros H1 H2. unfold ulong_sub, ulong.
  replace (a - b) with ((ULONG_MAX1 + a - b) + (-1) * ULONG_MAX1) by lia.
  rewrite Z.mod_add by (unfold ULONG_MAX1; lia).
  apply Z.mod_small. lia.
Qed.

(** X10.  With the barrier open, the second line of the display is
    "Gate:OPEN " followed by the time left: with [e] the milliseconds
    elapsed since the opening, the whole seconds of [5000 - e] (1 to 5) up
    to 4000 ms, the text "0s" from there to 5000 ms, and past 5000 ms the
    subtraction wraps on [unsigned long]: the whole seconds of
    [2^32 + 5000 - e] are shown, at least 4294962 during the 5 s that
    follow.  When the display reads the clock of the timing check of a pass
    that left the barrier open, the first two cases are the only ones. *)
Theorem display_time_left (now : Z) (s : State) :
  barrierOpen s = true ->
  let e := ulong_sub now (barrierOpenTime s) in
  exists line1 shown,
    BarrierLcd.updateDisplay now s
    = [BarrierLcd.Clear; BarrierLcd.SetCursor 0 0] ++ line1
      ++ [BarrierLcd.SetCursor 0 1; BarrierLcd.Print (Str "Gate:OPEN ")] ++ shown /\
    (e <= 4000 ->
     shown = [BarrierLcd.Print (Num ((5000 - e) / 1000)); BarrierLcd.Print (Str "s")] /\
     1 <= (5000 - e) / 1000 <= 5) /\
    (4000 < e <= 5000 -> shown = [BarrierLcd.Print (Str "0s")]) /\
    (5000 < e ->
     shown = [BarrierLcd.Print (Num ((ULONG_MAX1 + 5000 - e) / 1000));
              BarrierLcd.Print (Str "s")] /\
     (e <= 10000 -> 4294962 <= (ULONG_MAX1 + 5000 - e) / 1000)) /\
    (forall t s0, s = Barrier.loop t s0 -> now = Barrier.millisTiming t -> e < 5000).
Proof.
  intros Hopen e.
  assert (He : 0 <= e < ULONG_MAX1) by (apply Z.mod_pos_bound; reflexivity).
  unfold BarrierLcd.updateDisplay. rewrite Hopen. fold e.
  eexists. eexists. split; [reflexivity |].
  unfold BARRIER_OPEN_DURATION, ULONG_MAX1 in *.
  split; [| split; [| split]].
  - intros Hle. rewrite ulong_sub_plain by (unfold ULONG_MAX1; lia).
    assert (1 <= (5000 - e) / 1000 <= 5).
    { split; [apply Z.div_le_lower_bound | apply Z.div_le_upper_bound]; lia. }
    destruct (Z.ltb_spec 0 ((5000 - e) / 1000)); [auto | lia].
  - intros [Hlo Hhi]. rewrite ulong_sub_plain by (unfold ULONG_MAX1; lia).
    assert ((5000 - e) / 1000 = 0) by (apply Z.div_small; lia).
    destruct (Z.ltb_spec 0 ((5000 - e) / 1000)); [lia | reflexivity].
  - intros Hlt. rewrite ulong_sub_wrapped by (unfold ULONG_MAX1; lia).
    unfold ULONG_MAX1.
    assert (5 <= (2 ^ 32 + 5000 - e) / 1000).
    { apply Z.div_le_lower_bound; lia. }
    destruct (Z.ltb_spec 0 ((2 ^ 32 + 5000 - e) / 1000)); [| lia].
    split; [reflexivity |]. intros Hle. apply Z.div_le_lower_bound; lia.
  - intros t s0 -> ->. apply Barrier_loop_young. exact Hopen.
Qed.

Lemma display_time_left_witness :
  let s := Barrier.run [tickAt (lowPin 4) 2200; tickAt idlePins 2400] (Barrier.setup 2000) in
  exists line1 shown,
    BarrierLcd.updateDisplay 4500 s
    = [BarrierLcd.Clear; BarrierLcd.SetCursor 0 0] ++ line1
      ++ [BarrierLcd.SetCursor 0 1; BarrierLcd.Print (Str "Gate:OPEN ")] ++ shown /\
    shown = [BarrierLcd.Print (Num 2); BarrierLcd.Print (Str "s")].
Proof.
  intros s.
  destruct (display_time_left 4500 s eq_refl) as (line1 & shown & E & H & _).
  exists line1, shown. split; [exact E |].
  apply H. vm_compute. discriminate.
Defined.

(** The three cases on a barrier opened at 2400: 2 s left at 4500, "0s"
    at 7000, and a wrapped value at 7405, 5 ms after the duration. *)
Example display_time_left_run :
  let s := Barrier.run [tickAt (lowPin 4) 2200; tickAt idlePins 2400] (Barrier.setup 2000) in
  BarrierLcd.updateDisplay 4500 s
  = [BarrierLcd.Clear; BarrierLcd.SetCursor 0 0;
     BarrierLcd.Print (Str "All slots free"); BarrierLcd.SetCursor 0 1;
     BarrierLcd.Print (Str "Gate:OPEN "); BarrierLcd.Print (Num 2);
     BarrierLcd.Print (Str "s")] /\
  BarrierLcd.updateDisplay 7000 s
  = [BarrierLcd.Clear; BarrierLcd.SetCursor 0 0;
     BarrierLcd.Print (Str "All slots free"); BarrierLcd.SetCursor 0 1;
     BarrierLcd.Print (Str "Gate:OPEN "); BarrierLcd.Print (Str "0s")] /\
  BarrierLcd.updateDisplay 7405 s
  = [BarrierLcd.Clear; BarrierLcd.SetCursor 0 0;
     BarrierLcd.Print (Str "All slots free"); BarrierLcd.SetCursor 0 1;
     BarrierLcd.Print (Str "Gate:OPEN "); BarrierLcd.Print (Num 4294967);
     BarrierLcd.Print (Str "s")].
Proof. vm_compute. repeat split. Qed.

(** ** The timed jobs of the OLED variant *)

Lemma reportsOf_app (l1 l2 : list BarrierOled.Event) :
  reportsOf (l1 ++ l2) = reportsOf l1 ++ reportsOf l2.
Proof. apply List.filter_app. Qed.

Lemma handleMemoryCleanup_facts (c : BarrierOled.Clock) (tm : BarrierOled.Timers) :
  BarrierOled.lastDisplayUpdate (fst (BarrierOled.handleMemoryCleanup c tm))
  = BarrierOled.lastDisplayUpdate tm /\
  reportsOf (snd (BarrierOled.handleMemoryCleanup c tm)) = [].
Proof. unfold BarrierOled.handleMemoryCleanup. now destruct (_ <=? _). Qed.

(** The report job tests the timer the display job has just tested and,
    if it ran, reset. *)
Lemma report_after_display (c : BarrierOled.Clock) (s s' : State)
    (tm : BarrierOled.Timers) :
  BarrierOled.displaySet c = BarrierOled.displayCheck c ->
  BarrierOled.reportCheck c = BarrierOled.displayCheck c ->
  reportsOf (snd (BarrierOled.displayJob c s tm)) = [] /\
  BarrierOled.reportJob c s' (fst (BarrierOled.displayJob c s tm))
  = (fst (BarrierOled.displayJob c s tm), []).
Proof.
  intros E1 E2. unfold BarrierOled.displayJob, BarrierOled.reportJob. rewrite E2.
  destruct (BarrierOled.DISPLAY_UPDATE_INTERVAL
            <? ulong_sub (BarrierOled.displayCheck c) (BarrierOled.lastDisplayUpdate tm))
    eqn:D; cbn [fst snd BarrierOled.lastDisplayUpdate].
  - rewrite E1, ulong_sub_self. split; reflexivity.
  - rewrite D. split; reflexivity.
Qed.

(** X11.  In the OLED variant of the barrier sketch the report job
    ("print status every 10 seconds") shares its timer with the display
    job that runs just before it.  In a pass in which the three reads of
    [millis()] concerned return the same value, the report job never runs:
    the only status report of the pass is the one made because a slot
    changed, and there is none if no slot changed.  The control globals
    after the pass are those of [Barrier.loop]. *)
Theorem periodic_report_is_shadowed (t : Barrier.Tick) (c : BarrierOled.Clock)
    (x : State * BarrierOled.Timers) :
  BarrierOled.displaySet c = BarrierOled.displayCheck c ->
  BarrierOled.reportCheck c = BarrierOled.displayCheck c ->
  reportsOf (snd (BarrierOled.loop t c x))
  = (if snd (Barrier.readSensors (Barrier.millisSensors t) (Barrier.pins t) (fst x))
     then [BarrierOled.StatusReport (Barrier.loop t (fst x))]
     else []) /\
  fst (fst (BarrierOled.loop t c x)) = Barrier.loop t (fst x).
Proof.
  intros E1 E2. unfold BarrierOled.loop, Barrier.loop. cbn [fst snd].
  set (r := Barrier.readSensors (Barrier.millisSensors t) (Barrier.pins t) (fst x)).
  set (s2 := handleBarrierTiming _ _).
  set (s3 := if snd r then _ else s2).
  set (cleanup := BarrierOled.handleMemoryCleanup c (snd x)).
  destruct (handleMemoryCleanup_facts c (snd x)) as [_ Hc]. fold cleanup in Hc.
  destruct (report_after_display c s2 s3 (fst cleanup) E1 E2) as [Hd Hr].
  split; [| reflexivity].
  rewrite !reportsOf_app, Hc, Hd, Hr. cbn [snd app]. rewrite app_nil_r.
  now destruct (snd r).
Qed.

Lemma periodic_report_witness :
  let x := (Barrier.setup 2000, BarrierOled.initialTimers) in
  reportsOf (snd (BarrierOled.loop (tickAt idlePins 20000) (clockAt 20000) x)) = [] /\
  BarrierOled.lastDisplayUpdate
    (snd (fst (BarrierOled.loop (tickAt idlePins 20000) (clockAt 20000) x))) = 20000.
Proof.
  intros x. split; [| reflexivity].
  apply (proj1 (periodic_report_is_shadowed (tickAt idlePins 20000) (clockAt 20000) x
                  eq_refl eq_refl)).
Defined.

(** The report job does run when the threshold is crossed between the two
    reads: here the display job reads 10000 (not yet over the interval) and
    the report job 10001. *)
Example report_between_two_reads :
  let x := (Barrier.setup 2000, BarrierOled.initialTimers) in
  let c := {| BarrierOled.cleanupCheck := 10000; BarrierOled.cleanupSet := 10000;
              BarrierOled.displayCheck := 10000; BarrierOled.displayRender := 10000;
              BarrierOled.displaySet := 10000; BarrierOled.reportCheck := 10001;
              BarrierOled.reportSet := 10001 |} in
  length (reportsOf (snd (BarrierOled.loop (tickAt idlePins 10000) c x))) = 1%nat /\
  BarrierOled.lastDisplayUpdate
    (snd (fst (BarrierOled.loop (tickAt idlePins 10000) c x))) = 10001.
Proof. vm_compute. repeat split. Qed.

(** ** Time-out and response *)

(** X12.  A pass of the barrier sketch that reports no "vacated" edge and
    no button press, and whose timing check finds the barrier open 5000 ms
    or more after its opening, closes it: one "closed" command goes to the
    servo and the opening time is kept. *)
Theorem quiet_pass_times_out (t : Barrier.Tick) (s : State) :
  (forall j, ~ In (SlotAvailableMsg j) (emitted s (Barrier.loop t s))) ->
  ~ In ButtonPressedMsg (emitted s (Barrier.loop t s)) ->
  barrierOpen s = true ->
  BARRIER_OPEN_DURATION <= ulong_sub (Barrier.millisTiming t) (barrierOpenTime s) ->
  barrierView (Barrier.loop t s)
  = (false, barrierOpenTime s, servo s ++ [BARRIER_CLOSED_ANGLE]).
Proof.
  intros Hvac Hpress Hopen Hlong.
  pose proof (quiet_pass_reaches_timer t s Hvac Hpress) as Hs1.
  rewrite Barrier_loop_barrier, handleBarrierTiming_barrier.
  set (s1 := handleButtonPress _ _ _) in *.
  change (barrierView s) with (barrierOpen s, barrierOpenTime s, servo s) in Hs1.
  apply barrierView_eq in Hs1 as (-> & -> & ->).
  rewrite Hopen. apply Z.leb_le in Hlong. now rewrite Hlong.
Qed.

Lemma quiet_pass_times_out_witness :
  let s := Barrier.run [tickAt (lowPin 4) 2200; tickAt idlePins 2400] (Barrier.setup 2000) in
  barrierView (Barrier.loop (tickAt idlePins 7400) s) = (false, 2400, [0; 90; 0]).
Proof.
  intros s. apply (quiet_pass_times_out (tickAt idlePins 7400) s).
  - intros j H. vm_compute in H. intuition discriminate.
  - intros H. vm_compute in H. intuition discriminate.
  - reflexivity.
  - vm_compute. discriminate.
Defined.

(** X13.  A press that is sampled by two calls of [handleButtonPress]
    more than 50 ms apart (on the [unsigned long] clock) is always
    committed by the second: from a state whose stable and last raw reading
    are both HIGH, the stable state becomes LOW and the barrier is toggled,
    opened with the time of the second call if it was closed, closed if it
    was open. *)
Theorem press_over_two_samples_toggles (l1 l2 t1 t2 : Z) (s : State) :
  buttonPressed s = true -> lastButtonState s = true ->
  to_bool l1 = false -> to_bool l2 = false ->
  DEBOUNCE_DELAY < ulong_sub t2 t1 ->
  let s2 := handleButtonPress l2 t2 (handleButtonPress l1 t1 s) in
  buttonPressed s2 = false /\
  barrierView s2
  = (negb (barrierOpen s),
     (if barrierOpen s then barrierOpenTime s else t2),
     servo s ++ [angleOf (negb (barrierOpen s))]).
Proof.
  intros Hstable Hlast H1 H2 Hlong s2. subst s2.
  (* the first call only starts the window *)
  assert (C1 : commits l1 t1 s = false).
  { unfold commits, windowStart. rewrite H1, Hlast. cbn [bool_ne eqb negb].
    now rewrite ulong_sub_self. }
  destruct (step_views l1 t1 s) as (V1 & V2 & V3).
  pose proof (handleButtonPress_barrier l1 t1 s) as B1.
  rewrite C1 in V1, B1. cbn [andb] in B1.
  unfold windowStart in V3. rewrite H1, Hlast in V3. cbn [bool_ne eqb negb] in V3.
  set (s1 := handleButtonPress l1 t1 s) in *.
  (* the second commits *)
  assert (C2 : commits l2 t2 s1 = true).
  { unfold commits, windowStart. rewrite H2, V2, H1, V3, V1, Hstable.
    cbn [bool_ne eqb negb]. apply Z.ltb_lt in Hlong. now rewrite Hlong. }
  destruct (step_views l2 t2 s1) as (W1 & _).
  pose proof (handleButtonPress_barrier l2 t2 s1) as B2.
  rewrite C2 in W1, B2. rewrite H2 in W1, B2. cbn [andb negb] in B2.
  change (barrierView s) with (barrierOpen s, barrierOpenTime s, servo s) in B1.
  apply barrierView_eq in B1 as (E1 & E2 & E3).
  rewrite E1, E2, E3 in B2. split; [exact W1 | exact B2].
Qed.

Lemma press_over_two_samples_witness :
  let s := Barrier.loop (tickAt idlePins 2200) (Barrier.setup 2000) in
  let s2 := handleButtonPress LOW 40 (handleButtonPress LOW 4294967276 s) in
  buttonPressed s2 = false /\ barrierView s2 = (true, 40, [0; 90]).
Proof.
  intros s s2.
  apply (press_over_two_samples_toggles LOW LOW 4294967276 40 s);
    reflexivity.
Defined.
